(** * video-splitter: segment planning, manifests, merge compatibility

    A shallow embedding of [ffmpeg-split.py] and [ffmpeg-merge.py].

    The two scripts drive external tools (ffprobe, ffmpeg).  Everything the
    scripts learn from the outside (probe results, file sizes, parsed
    manifests, exit statuses) is read from an explicit [World] record, and
    everything they do to the outside (one ffmpeg call per segment, the
    transient concat list) is recorded in a trace, so that the decision
    logic in between is an ordinary function that can be evaluated. *)

From Stdlib Require Import ZArith String Ascii List Lia Floats DecimalString.
From Stdlib Require DecimalZ DecimalPos.
From stdpp Require Import gmap strings list fin_maps sorting.
Import ListNotations.

Set Warnings "-register-all,-inexact-float".
Open Scope Z_scope.

(** ** The fragment of the Python runtime the scripts rely on *)

Module Py.

(** Exceptions that can leave the modelled functions.  [SystemExit]
    carries the lines printed by the branch that raises it;
    [HelpExit] is [bailout()]: [parser.print_help()], then
    [raise SystemExit]. *)
Inductive exn :=
| SystemExit (printed : list string)
| HelpExit
| ZeroDivisionError
| KeyError (key : string)
| TypeError
| ValueError
| OverflowError
| IndexError
| FileNotFoundError
| CalledProcessError.

Inductive result (A : Type) :=
| Return (a : A)
| Raise (e : exn).
Arguments Return {A} a.
Arguments Raise {A} e.

#[export] Instance result_ret : MRet result := @Return.
#[export] Instance result_bind : MBind result := fun A B f m =>
  match m with
  | Return a => f a
  | Raise e => Raise e
  end.

(** A computation that calls external tools: the calls issued so far,
    in order, and how the computation ended. *)
Definition run (E A : Type) : Type := list E * result A.

#[export] Instance run_ret {E} : MRet (run E) := fun A a => ([], Return a).
#[export] Instance run_bind {E} : MBind (run E) := fun A B f m =>
  match m with
  | (tr, Return a) => let '(tr', r) := f a in (tr ++ tr', r)
  | (tr, Raise e) => (tr, Raise e)
  end.

Definition lift {E A} (r : result A) : run E A := ([], r).
Definition raise {E A} (e : exn) : run E A := ([], Raise e).

(** [for x in l: body(x)], aborted by the first exception. *)
Fixpoint for_each {E A} (body : A -> run E unit) (l : list A) : run E unit :=
  match l with
  | [] => mret tt
  | x :: xs => body x ;; for_each body xs
  end.

(** Python values as they come out of [json.load] and [csv.DictReader]. *)
Inductive value :=
| PNone
| PBool (b : bool)
| PInt (z : Z)
| PFloat (x : float)
| PStr (s : string)
| PList (l : list value)
| PDict (d : gmap string value).

(** Truth-value testing ([if x], [not x], [x and y]). *)
Class Truthy (A : Type) := truthy : A -> bool.

#[export] Instance truthy_Z : Truthy Z := fun z => negb (z =? 0).
#[export] Instance truthy_string : Truthy string := fun s =>
  match s with
  | EmptyString => false
  | String _ _ => true
  end.
#[export] Instance truthy_option {A} `{Truthy A} : Truthy (option A) := fun o =>
  match o with
  | None => false
  | Some a => truthy a
  end.
#[export] Instance truthy_value : Truthy value := fun v =>
  match v with
  | PNone => false
  | PBool b => b
  | PInt z => truthy z
  | PFloat x => negb (PrimFloat.eqb x 0%float)
  | PStr s => truthy s
  | PList l => match l with [] => false | _ :: _ => true end
  | PDict d => negb (bool_decide (d = ∅))
  end.

(** *** Numbers *)

(** [str(n)] for an [int]. *)
Definition str_int (z : Z) : string := NilZero.string_of_int (Z.to_int z).

(** [float(n)] for an [int], also where an [int] meets a [float] in
    arithmetic: the nearest binary64 value, ties to even, and
    [OverflowError] where that is beyond the largest double. *)
Definition float_of_int (z : Z) : result float :=
  match binary_normalize prec emax z 0 false with
  | S754_infinity _ => Raise OverflowError
  | x => Return (SF2Prim x)
  end.

(** [a / y] for an [int] and a [float]: [a] is converted, then a
    divisor of zero is refused, then the doubles are divided. *)
Definition truediv (a : Z) (y : float) : result float :=
  x ← float_of_int a;
  if PrimFloat.eqb y 0 then Raise ZeroDivisionError else Return (PrimFloat.div x y).

(** What the location of a binary64 rounding says of the remainder [R]
    of a division by [D]: nothing left, less than half, half, more. *)
Definition loc_of_remainder (l : location) (R D : Z) : Prop :=
  match l with
  | loc_Exact => R = 0
  | loc_Inexact Lt => 0 < 2 * R < D
  | loc_Inexact Eq => 0 < R /\ 2 * R = D
  | loc_Inexact Gt => D < 2 * R
  end.

(** [int(x)] for a [float]: truncation toward zero. *)
Definition int_of_float (x : float) : result Z :=
  match Prim2SF x with
  | S754_zero _ => Return 0
  | S754_finite s m e =>
      let v := if 0 <=? e then Z.pos m * 2 ^ e else Z.pos m / 2 ^ (- e) in
      Return (if s then - v else v)
  | S754_infinity _ => Raise OverflowError
  | S754_nan => Raise ValueError
  end.

(** [range(lo, hi)]. *)
Definition range (lo hi : Z) : list Z :=
  map (fun i => lo + Z.of_nat i) (seq 0 (Z.to_nat (hi - lo))).

(** [enumerate(l, start)]. *)
Fixpoint enumerate {A} (start : Z) (l : list A) : list (Z * A) :=
  match l with
  | [] => []
  | x :: xs => (start, x) :: enumerate (start + 1) xs
  end.

(** *** Strings *)

(** [s.split(sep)] for a one-character separator: never empty. *)
Fixpoint split (sep : ascii) (s : string) : list string :=
  match s with
  | EmptyString => [EmptyString]
  | String c s' =>
      if Ascii.eqb c sep then EmptyString :: split sep s'
      else match split sep s' with
           | h :: t => String c h :: t
           | [] => [String c EmptyString]
           end
  end.

(** [sep.join(l)]. *)
Definition join (sep : string) (l : list string) : string := String.concat sep l.

(** [l[-1]]. *)
Definition last_item {A} (l : list A) : result A :=
  match last l with
  | Some x => Return x
  | None => Raise IndexError
  end.

(** [needle in hay] on strings: substring test. *)
Fixpoint contains (needle hay : string) : bool :=
  String.prefix needle hay ||
  match hay with
  | EmptyString => false
  | String _ hay' => contains needle hay'
  end.

(** [s.replace(c, by)] for a one-character pattern. *)
Fixpoint replace (c : ascii) (by_ : string) (s : string) : string :=
  match s with
  | EmptyString => EmptyString
  | String c' s' =>
      if Ascii.eqb c' c then by_ +:+ replace c by_ s' else String c' (replace c by_ s')
  end.

(** [os.path.basename(p)]: what follows the last slash. *)
Definition basename (p : string) : string :=
  default EmptyString (last (split "/" p)).

(** [s.endswith(c)] for one character. *)
Definition endswith (c : ascii) (s : string) : bool :=
  match last (list_ascii_of_string s) with
  | Some c' => Ascii.eqb c' c
  | None => false
  end.

(** [os.path.join(a, b)]: an absolute [b] discards [a]. *)
Definition os_path_join (a b : string) : string :=
  if String.prefix "/" b then b
  else if negb (truthy a) || endswith "/" a then a +:+ b
  else a +:+ "/" +:+ b.

End Py.

(** ** ffmpeg-split.py *)

Module Split.
Import Py.

(** One cut-mode call of the transcoder,
    [subprocess.check_output(split_cmd + split_args)] with
    [split_args = ["-ss", str(ss), "-t", str(t), output_path]].
    The start and the length are kept as the Python values that go
    through [str], [cmd] is [split_cmd]. *)
Record Cut := {
  cmd : list string;
  ss : value;
  t : value;
  output_path : string
}.

(** What the script reads from its environment.  Directory creation
    ([os.makedirs]) has no influence on any decision and is left out. *)
Record World := {
  path_exists : string -> bool;            (* os.path.exists *)
  json_load : string -> option value;      (* json.load(open(p)); None: not JSON *)
  csv_DictReader : string -> list value;   (* the rows of csv.DictReader(open(p)) *)
  ffprobe_duration : string -> option float; (* float(ffprobe output); None: ffprobe failed *)
  st_size : string -> option Z;            (* os.stat(p).st_size *)
  absolute : string -> string;             (* str(Path(p).absolute()) *)
  default_output_dir : string -> string;   (* str(Path(p).parent / f"Clip-{Path(p).stem}") *)
  shlex_split : string -> list string;     (* shlex.split *)
  ffmpeg : Cut -> bool                     (* exit status 0 of the call *)
}.

Definition check_output (w : World) (c : Cut) : run Cut unit :=
  ([c], if ffmpeg w c then Return tt else Raise CalledProcessError).

(** [output_path = os.path.join(output_dir, name) if output_dir else name] *)
Definition output_path_in (output_dir : option string) (name : string) : string :=
  match output_dir with
  | Some d => if truthy d then os_path_join d name else name
  | None => name
  end.

Definition get_video_length (w : World) (filename : string) : result Z :=
  match ffprobe_duration w filename with
  | None => Raise CalledProcessError
  | Some output => int_of_float output
  end.

(** [int(math.ceil(x))] for a [float]. *)
Definition ceil_of_float (x : float) : result Z :=
  match Prim2SF x with
  | S754_zero _ => Return 0
  | S754_finite s m e =>
      if 0 <=? e then Return ((if s then - Z.pos m else Z.pos m) * 2 ^ e)
      else
        let q := Z.pos m / 2 ^ (- e) in
        let r := Z.pos m mod 2 ^ (- e) in
        Return (if s then - q else if r =? 0 then q else q + 1)
  | S754_infinity _ => Raise OverflowError
  | S754_nan => Raise ValueError
  end.

(** [math.ceil] of a positive finite double, on its mantissa and
    exponent. *)
Definition ceil_finite (m : positive) (e : Z) : Z :=
  if 0 <=? e then Z.pos m * 2 ^ e
  else if Z.pos m mod 2 ^ (- e) =? 0 then Z.pos m / 2 ^ (- e)
       else Z.pos m / 2 ^ (- e) + 1.

(** [int(math.ceil(a / float(b)))]: the quotient is computed in
    binary64, as Python does. *)
Definition ceildiv (a b : Z) : result Z :=
  y ← float_of_int b;
  q ← truediv a y;
  ceil_of_float q.

(** Lines 151-152: [if not video_length: video_length = get_video_length(filename)] *)
Definition video_length_or_probe (w : World) (filename : string)
    (video_length : option Z) : result Z :=
  if negb (truthy video_length) then get_video_length w filename
  else Return (default 0 video_length).

Definition split_by_seconds (w : World) (filename : string) (split_length : Z)
    (output_dir : option string) (vcodec acodec extra : string)
    (video_length : option Z) : run Cut unit :=
  if truthy split_length && (split_length <=? 0) then
    raise (SystemExit ["Split length can't be 0"])
  else
    video_length ← lift (video_length_or_probe w filename video_length);
    split_count ← lift (ceildiv video_length split_length);
    if split_count =? 1 then
      raise (SystemExit ["Video length is less then the target split length."])
    else
      let output_dir :=
        if negb (truthy output_dir) then Some (default_output_dir w filename)
        else output_dir in
      let input_path := absolute w filename in
      let split_cmd :=
        ["ffmpeg"; "-i"; input_path; "-vcodec"; vcodec; "-acodec"; acodec]
          ++ shlex_split w extra in
      let input_basename := basename filename in
      let filebase := join "." (removelast (split "." input_basename)) in
      fileext ← lift (last_item (split "." input_basename));
      for_each (fun n =>
        let split_start := if n =? 0 then 0 else split_length * n in
        let output_path :=
          output_path_in output_dir
            (filebase +:+ "-" +:+ str_int (n + 1) +:+ "-of-" +:+ str_int split_count
               +:+ "." +:+ fileext) in
        check_output w {| cmd := split_cmd; ss := PInt split_start;
                          t := PInt split_length; output_path := output_path |})
        (range 0 split_count).

(** *** Manifests *)

(** [for x in v]: lists yield their items, dicts their keys, strings
    their characters; nothing else is iterable. *)
Definition iterate (v : value) : result (list value) :=
  match v with
  | PList l => Return l
  | PDict d => Return (map (fun kv => PStr (fst kv)) (map_to_list d))
  | PStr s => Return (map (fun c => PStr (String c EmptyString)) (list_ascii_of_string s))
  | _ => Raise TypeError
  end.

(** [v[key]] for a string key: [KeyError] on a dict without it,
    [TypeError] on anything that is not a dict. *)
Definition getitem (v : value) (key : string) : result value :=
  match v with
  | PDict d => match d !! key with
               | Some x => Return x
               | None => Raise (KeyError key)
               end
  | _ => Raise TypeError
  end.

(** [v.get(key, None)]. *)
Definition get (v : value) (key : string) : result value :=
  match v with
  | PDict d => Return (default PNone (d !! key))
  | _ => Raise TypeError
  end.

(** A value used where the script needs a string ([filename.split],
    [fileext in filebase], [filebase + "."]).  Anything else fails in one
    of these operations with a [TypeError] or an [AttributeError]; the
    model does not tell the two apart. *)
Definition as_str (v : value) : result string :=
  match v with
  | PStr s => Return s
  | _ => Raise TypeError
  end.

(** The lines printed by the [except KeyError] handler. *)
Definition incorrect_format (manifest_type key : string) : list string :=
  ["############# Incorrect format ##############"]
  ++ (if String.eqb manifest_type "json" then
        ["The format of each json array should be:";
         "{start_time: <int>, length: <int>, rename_to: <string>}";
         "Or use new format with input_file and output_clips"]
      else if String.eqb manifest_type "csv" then
        ["start_time,length,rename_to should be the first line ";
         "in the csv file."]
      else [])
  ++ ["#############################################"; "'" +:+ key +:+ "'"].

(** [try: ... except KeyError as e: print(...); raise SystemExit] *)
Definition except_KeyError {A} (manifest_type : string) (m : run Cut A) : run Cut A :=
  match m with
  | (tr, Raise (KeyError key)) => (tr, Raise (SystemExit (incorrect_format manifest_type key)))
  | _ => m
  end.

(** Lines 52-60: the entry generated for [output_clips[i]]. *)
Definition clip_config (filename : string) (indexed : Z * value) : result value :=
  let '(i, clip) := indexed in
  fileext ← last_item (split "." filename);
  let rename_to := "clip-" +:+ str_int i +:+ "." +:+ fileext in
  start_time ← getitem clip "start_time";
  length ← getitem clip "length";
  Return (PDict (<["start_time" := start_time]>
                   (<["length" := length]> (<["rename_to" := PStr rename_to]> ∅)))).

(** Lines 103-104:
    [if fileext in filebase: filebase = ".".join(filebase.split(".")[:-1])] *)
Definition strip_extension (fileext filebase : string) : string :=
  if contains fileext filebase then join "." (removelast (split "." filebase))
  else filebase.

(** Lines 96-117: one pass of the loop over the entries. *)
Definition split_entry (w : World) (manifest_type fileext : string)
    (output_dir : option string) (split_cmd : list string)
    (video_config : value) : run Cut unit :=
  except_KeyError manifest_type (
    split_start ← lift (getitem video_config "start_time");
    split_length ← lift (get video_config "end_time");
    split_length ← (if negb (truthy split_length)
                    then lift (getitem video_config "length")
                    else mret split_length);
    filebase ← lift (getitem video_config "rename_to" ≫= as_str);
    let filebase := strip_extension fileext filebase in
    let output_path := output_path_in output_dir (filebase +:+ "." +:+ fileext) in
    check_output w {| cmd := split_cmd; ss := split_start; t := split_length;
                      output_path := output_path |}).

Definition split_by_manifest (w : World) (filename : option string) (manifest : string)
    (output_dir : option string) (vcodec acodec extra : string) : run Cut unit :=
  if negb (path_exists w manifest) then
    raise (SystemExit ["File does not exist: " +:+ manifest])
  else
    manifest_type ← lift (last_item (split "." manifest));
    '(filename, config) ←
      (if String.eqb manifest_type "json" then
         match json_load w manifest with
         | None => raise ValueError
         | Some config_data =>
             match config_data with
             | PDict d =>
                 if bool_decide (is_Some (d !! "input_file"))
                    && bool_decide (is_Some (d !! "output_clips")) then
                   filename ← (if negb (truthy filename)
                               then lift (getitem config_data "input_file" ≫= as_str)
                               else mret (default EmptyString filename));
                   clips ← lift (getitem config_data "output_clips" ≫= iterate);
                   config ← lift (mapM (clip_config filename) (enumerate 0 clips));
                   mret (Some filename, PList config)
                 else mret (filename, config_data)
             | _ => mret (filename, config_data)
             end
         end
       else if String.eqb manifest_type "csv" then
         mret (filename, PList (csv_DictReader w manifest))
       else
         raise (SystemExit ["Format not supported. File must be a csv or json file"]));
    let output_dir :=
      if negb (truthy output_dir) && truthy filename
      then Some (default_output_dir w (default EmptyString filename))
      else output_dir in
    filename ← lift (match filename with
                     | Some f => Return f
                     | None => Raise TypeError
                     end);
    let input_path := absolute w filename in
    let split_cmd :=
      ["ffmpeg"; "-i"; input_path; "-vcodec"; vcodec; "-acodec"; acodec; "-y"]
        ++ shlex_split w extra in
    fileext ← lift (last_item (split "." filename));
    config ← lift (iterate config);
    for_each (split_entry w manifest_type fileext output_dir split_cmd) config.

(** *** Command line *)

Inductive strategy := eager | even.

Record Options := {
  filename : option string;
  split_length : option Z;
  split_chunks : option Z;
  split_filesize : option Z;
  filesize_factor : float;
  chunk_strategy : strategy;
  manifest : option string;
  output_dir : option string;
  vcodec : string;
  acodec : string;
  extra : string
}.

(** [options.split_chunks = c] and [options.split_length = l]. *)
Definition set_split_chunks (c : Z) (o : Options) : Options :=
  {| filename := filename o; split_length := split_length o; split_chunks := Some c;
     split_filesize := split_filesize o; filesize_factor := filesize_factor o;
     chunk_strategy := chunk_strategy o; manifest := manifest o;
     output_dir := output_dir o; vcodec := vcodec o; acodec := acodec o;
     extra := extra o |}.

Definition set_split_length (l : Z) (o : Options) : Options :=
  {| filename := filename o; split_length := Some l; split_chunks := split_chunks o;
     split_filesize := split_filesize o; filesize_factor := filesize_factor o;
     chunk_strategy := chunk_strategy o; manifest := manifest o;
     output_dir := output_dir o; vcodec := vcodec o; acodec := acodec o;
     extra := extra o |}.

Definition is_even (s : strategy) : bool :=
  match s with
  | even => true
  | eager => false
  end.

(** Lines 307-309:
    [split_filesize = int(options.split_filesize * options.filesize_factor)]
    when [options.split_filesize] is given, else [None]. *)
Definition scaled_filesize (options : Options) : result (option Z) :=
  if truthy (split_filesize options) then
    x ← float_of_int (default 0 (split_filesize options));
    n ← int_of_float (PrimFloat.mul x (filesize_factor options));
    Return (Some n)
  else Return None.

(** Line 315: [int(split_filesize / float(file_size) * video_length)] *)
Definition eager_length (split_filesize file_size video_length : Z) : result Z :=
  y ← float_of_int file_size;
  q ← truediv split_filesize y;
  x ← float_of_int video_length;
  int_of_float (PrimFloat.mul q x).

(** Lines 303-315 of [main]: the options after the length has been
    derived, and [video_length]. *)
Definition resolve_split_length (w : World) (options : Options)
    : result (Options * option Z) :=
  if negb (truthy (split_length options)) then
    let file := default EmptyString (filename options) in
    video_length ← get_video_length w file;
    file_size ← (match st_size w file with
                 | Some n => Return n
                 | None => Raise FileNotFoundError
                 end);
    split_filesize ← scaled_filesize options;
    options ←
      (if truthy split_filesize && is_even (chunk_strategy options) then
         c ← ceildiv file_size (default 0 split_filesize);
         Return (set_split_chunks c options)
       else Return options);
    options ←
      (if truthy (split_chunks options) then
         l ← ceildiv video_length (default 0 (split_chunks options));
         Return (set_split_length l options)
       else Return options);
    options ←
      (if negb (truthy (split_length options)) && truthy split_filesize then
         l ← eager_length (default 0 split_filesize) file_size video_length;
         Return (set_split_length l options)
       else Return options);
    Return (options, Some video_length)
  else Return (options, None).

Definition main (w : World) (options : Options) : run Cut unit :=
  if truthy (manifest options) then
    let m := default EmptyString (manifest options) in
    let by_manifest :=
      split_by_manifest w (filename options) m (output_dir options)
        (vcodec options) (acodec options) (extra options) in
    if path_exists w m
       && bool_decide (last (split "." m) = Some "json")
       && match json_load w m with
          | Some (PDict d) => bool_decide (is_Some (d !! "input_file"))
          | _ => false
          end
    then by_manifest
    else if negb (truthy (filename options)) then raise HelpExit
    else by_manifest
  else if negb (truthy (filename options)) then raise HelpExit
  else
    '(options, video_length) ← lift (resolve_split_length w options);
    if negb (truthy (split_length options)) then raise HelpExit
    else
      split_by_seconds w (default EmptyString (filename options))
        (default 0 (split_length options)) (output_dir options)
        (vcodec options) (acodec options) (extra options) video_length.

End Split.

(** ** ffmpeg-merge.py *)

Module Merge.
Import Py.

(** The part of ffprobe's JSON report that [get_video_info] reads:
    per stream [codec_type], [codec_name], [width], [height], and
    [format.format_name].  A key that is absent reads as [None]. *)
Record Stream := {
  codec_type : option string;
  stream_codec_name : option string;
  stream_width : option Z;
  stream_height : option Z
}.

Record Report := {
  streams : list Stream;
  format_format_name : option string
}.

Inductive ffprobe_output :=
| ProbeFailed                    (* subprocess.CalledProcessError *)
| ProbeNotJson                   (* json.JSONDecodeError *)
| ProbeJson (info : Report).

Record VideoInfo := {
  codec_name : option string;
  width : option Z;
  height : option Z;
  format_name : option string;
  file_path : string
}.

(** The file system as far as the merge touches it: path to contents. *)
Record World := {
  ffprobe : string -> ffprobe_output;
  absolute : string -> string;      (* str(Path(p).absolute()) *)
  suffix : string -> string;        (* Path(p).suffix *)
  path_str : string -> string;      (* str(Path(p)) *)
  (* subprocess.check_call(cmd): None on exit status 0, else str(e);
     and what the process did to the files *)
  ffmpeg : list string -> gmap string string -> option string * gmap string string
}.

Inductive event :=
| Wrote (path contents : string)
| Ran (cmd : list string)
| Removed (path : string).

(** [f"{x}"] for an optional string and an optional integer. *)
Definition fmt_str (x : option string) : string := default "None" x.
Definition fmt_int (x : option Z) : string :=
  match x with
  | Some z => str_int z
  | None => "None"
  end.

Definition get_video_info (w : World) (file_path : string) : option VideoInfo :=
  match ffprobe w file_path with
  | ProbeJson info =>
      match find (fun stream => bool_decide (codec_type stream = Some "video"))
                 (streams info) with
      | None => None
      | Some video_stream =>
          Some {| codec_name := stream_codec_name video_stream;
                  width := stream_width video_stream;
                  height := stream_height video_stream;
                  format_name := format_format_name info;
                  file_path := file_path |}
      end
  | ProbeFailed => None
  | ProbeNotJson => None
  end.

(** [(False, reason)] and [(True, video_infos)]. *)
Inductive check_result :=
| Failed (reason : string)
| Passed (video_infos : list VideoInfo).

(** Lines 61-67: probe every file, stop at the first failure. *)
Fixpoint probe_all (w : World) (video_files : list string) : string + list VideoInfo :=
  match video_files with
  | [] => inr []
  | file_path :: rest =>
      match get_video_info w file_path with
      | Some info =>
          match probe_all w rest with
          | inr video_infos => inr (info :: video_infos)
          | inl reason => inl reason
          end
      | None => inl ("Could not get information for " +:+ file_path)
      end
  end.

(** Lines 74-78: compare with the reference, stop at the first mismatch. *)
Fixpoint first_mismatch (reference : VideoInfo) (infos : list VideoInfo) : option string :=
  match infos with
  | [] => None
  | info :: rest =>
      if bool_decide (codec_name info ≠ codec_name reference) then
        Some ("Incompatible codec: " +:+ fmt_str (codec_name reference)
                +:+ " vs " +:+ fmt_str (codec_name info))
      else if bool_decide (width info ≠ width reference)
              || bool_decide (height info ≠ height reference) then
        Some ("Incompatible resolution: " +:+ fmt_int (width reference) +:+ "x"
                +:+ fmt_int (height reference) +:+ " vs " +:+ fmt_int (width info)
                +:+ "x" +:+ fmt_int (height info))
      else first_mismatch reference rest
  end.

Definition check_videos_compatibility (w : World) (video_files : list string)
    : check_result :=
  match video_files with
  | [] => Failed "No video files found"
  | _ :: _ =>
      match probe_all w video_files with
      | inl reason => Failed reason
      | inr video_infos =>
          match video_infos with
          | [] => Failed "Could not get information for any video files"
          | reference :: rest =>
              match first_mismatch reference rest with
              | Some reason => Failed reason
              | None => Passed video_infos
              end
          end
      end
  end.

Definition temp_file : string := "concat_list.txt".

Definition newline : string := String (ascii_of_nat 10) EmptyString.

(** [f"file '{escaped_path}'\n"] *)
Definition concat_line (w : World) (info : VideoInfo) : string :=
  let escaped_path := replace "'" "'\''" (absolute w (file_path info)) in
  "file '" +:+ escaped_path +:+ "'" +:+ newline.

Definition merge_videos (w : World) (video_infos : list VideoInfo) (output_path : string)
    (fs : gmap string string)
    : gmap string string * list event * result (bool * string) :=
  let contents := String.concat EmptyString (map (concat_line w) video_infos) in
  let fs := <[temp_file := contents]> fs in
  let tr := [Wrote temp_file contents] in
  match video_infos with
  | [] => (fs, tr, Raise IndexError)
  | first :: _ =>
      let ext := suffix w (file_path first) in
      let ext := if negb (truthy ext) then ".mp4" else ext in
      let output_path :=
        if negb (truthy (suffix w output_path)) then path_str w output_path +:+ ext
        else output_path in
      let cmd := ["ffmpeg"; "-f"; "concat"; "-safe"; "0"; "-i"; temp_file;
                  "-c"; "copy"; "-y"; output_path] in
      let '(failure, fs) := ffmpeg w cmd fs in
      let tr := tr ++ [Ran cmd] in
      match failure with
      | None =>
          match fs !! temp_file with
          | Some _ =>
              (delete temp_file fs, tr ++ [Removed temp_file],
               Return (true, "Successfully merged videos to " +:+ output_path))
          | None => (fs, tr, Raise FileNotFoundError)
          end
      | Some e =>
          let '(fs, tr) :=
            if bool_decide (is_Some (fs !! temp_file))
            then (delete temp_file fs, tr ++ [Removed temp_file])
            else (fs, tr) in
          (fs, tr, Return (false, "Error merging videos: " +:+ e))
      end
  end.

End Merge.


(** ** Sample environments *)

Module Samples.
Import Py.

(** A machine on which every tool call succeeds and that holds three
    videos, [dir/video.mp4], [in.mp4] and [short.mp4].  [short.mp4] lasts
    half a second, the others 25.7 seconds; each has 10000 bytes. *)
Definition split_world : Split.World := {|
  Split.path_exists := fun _ => true;
  Split.json_load := fun _ => None;
  Split.csv_DictReader := fun _ => [];
  Split.ffprobe_duration := fun p =>
    if String.eqb p "short.mp4" then Some 0.5%float else Some 25.7%float;
  Split.st_size := fun _ => Some 10000;
  Split.absolute := fun p => "/videos/" +:+ p;
  Split.default_output_dir := fun p =>
    if String.eqb p "dir/video.mp4" then "dir/Clip-video"
    else if String.eqb p "in.mp4" then "Clip-in"
    else "Clip-short";
  Split.shlex_split := fun _ => [];
  Split.ffmpeg := fun _ => true
|}.


(** [-f dir/video.mp4 -S 2106 --chunk-strategy even] *)
Definition by_size_even : Split.Options := {|
  Split.filename := Some "dir/video.mp4";
  Split.split_length := None;
  Split.split_chunks := None;
  Split.split_filesize := Some 2106;
  Split.filesize_factor := 0.95%float;
  Split.chunk_strategy := Split.even;
  Split.manifest := None;
  Split.output_dir := None;
  Split.vcodec := "copy";
  Split.acodec := "copy";
  Split.extra := EmptyString
|}.

(** [-f dir/video.mp4 -s 0] *)
Definition by_zero_length : Split.Options := {|
  Split.filename := Some "dir/video.mp4";
  Split.split_length := Some 0;
  Split.split_chunks := None;
  Split.split_filesize := None;
  Split.filesize_factor := 0.95%float;
  Split.chunk_strategy := Split.eager;
  Split.manifest := None;
  Split.output_dir := None;
  Split.vcodec := "copy";
  Split.acodec := "copy";
  Split.extra := EmptyString
|}.

(** The structured manifest of the specification's round-trip example:
    [{"input_file": "in.mp4", "output_clips": [{"start_time": 0,
    "length": 5}, {"start_time": 5, "length": 5}]}]. *)
Definition example_clips : list (gmap string value) :=
  [ <["start_time" := PInt 0]> (<["length" := PInt 5]> ∅);
    <["start_time" := PInt 5]> (<["length" := PInt 5]> ∅) ].

Definition structured_manifest : gmap string value :=
  <["input_file" := PStr "in.mp4"]>
    (<["output_clips" := PList (map PDict example_clips)]> ∅).

(** A flat entry that gives both bounds. *)
Definition entry_with_both_bounds : gmap string value :=
  <["start_time" := PInt 0]>
    (<["length" := PInt 5]> (<["end_time" := PInt 10]> (<["rename_to" := PStr "intro"]> ∅))).

(** Flat entries whose names contain [mp4] without ending in [.mp4]. *)
Definition entry_mp4_intro : gmap string value :=
  <["start_time" := PInt 0]>
    (<["length" := PInt 5]> (<["rename_to" := PStr "mp4_intro"]> ∅)).

Definition entry_draft_mp4_v2 : gmap string value :=
  <["start_time" := PInt 5]>
    (<["length" := PInt 5]> (<["rename_to" := PStr "draft.mp4.v2"]> ∅)).

(** [split_world] with two manifests on disk. *)
Definition manifest_world : Split.World := {|
  Split.path_exists := fun _ => true;
  Split.json_load := fun p =>
    if String.eqb p "clips.json" then Some (PDict structured_manifest)
    else if String.eqb p "flat.json"
         then Some (PList [PDict entry_mp4_intro; PDict entry_draft_mp4_v2])
    else None;
  Split.csv_DictReader := fun _ => [];
  Split.ffprobe_duration := Split.ffprobe_duration split_world;
  Split.st_size := Split.st_size split_world;
  Split.absolute := Split.absolute split_world;
  Split.default_output_dir := Split.default_output_dir split_world;
  Split.shlex_split := fun _ => [];
  Split.ffmpeg := fun _ => true
|}.

(** What ffprobe reports for a file: an audio stream, then an h264
    video stream of 1920x1080, except [b.mp4], which is 1280 wide. *)
Definition report_for (file_path : string) : Merge.Report := {|
  Merge.streams :=
    [ {| Merge.codec_type := Some "audio"; Merge.stream_codec_name := Some "aac";
         Merge.stream_width := None; Merge.stream_height := None |};
      {| Merge.codec_type := Some "video"; Merge.stream_codec_name := Some "h264";
         Merge.stream_width := Some (if String.eqb file_path "b.mp4" then 1280 else 1920);
         Merge.stream_height := Some 1080 |} ];
  Merge.format_format_name := Some "mov,mp4,m4a,3gp,3g2,mj2"
|}.

(** The transcoder fails exactly when [broken.mp4] is on disk, and
    leaves the files as they are. *)
Definition merge_world : Merge.World := {|
  Merge.ffprobe := fun p => Merge.ProbeJson (report_for p);
  Merge.absolute := fun p => "/clips/" +:+ p;
  Merge.suffix := fun p => if String.eqb p "/clips/output" then EmptyString else ".mp4";
  Merge.path_str := fun p => p;
  Merge.ffmpeg := fun _ fs =>
    (if bool_decide (is_Some (fs !! "broken.mp4"))
     then Some "Command returned non-zero exit status 1." else None, fs)
|}.

Definition probed (file_path : string) (width : Z) : Merge.VideoInfo := {|
  Merge.codec_name := Some "h264";
  Merge.width := Some width;
  Merge.height := Some 1080;
  Merge.format_name := Some "mov,mp4,m4a,3gp,3g2,mj2";
  Merge.file_path := file_path
|}.

End Samples.

(** ** ffmpeg-merge.py: [main] *)

Module MergeMain.
Import Py Merge.

(** What [main] reads besides the probe and the transcoder. *)
Record Shell := {
  argv : list string;                      (* sys.argv *)
  is_dir : string -> bool;                 (* Path(p).is_dir() *)
  iterdir : string -> list string;         (* [str(f) for f in Path(p).iterdir()] *)
  is_file : string -> bool;                (* Path(p).is_file() *)
  lower : string -> string;                (* str.lower *)
  joinpath : string -> string -> string    (* str(Path(p) / name) *)
}.

Definition video_extensions : list string :=
  [".mp4"; ".avi"; ".mkv"; ".mov"; ".wmv"; ".flv"; ".webm"; ".m4v"; ".mpg"; ".mpeg";
   ".3gp"].

(** Lines 139-146: the video files of the directory, sorted.  Python
    orders [str] by code point, which on UTF-8 encoded names is the
    order of the bytes. *)
Definition scan (w : World) (sh : Shell) (directory_path : string) : list string :=
  merge_sort String.le
    (List.filter
       (fun file_path =>
          is_file sh file_path
          && bool_decide (lower sh (suffix w file_path) ∈ video_extensions))
       (iterdir sh directory_path)).

(** [sys.exit(1)], always after one printed line. *)
Definition exit_1 (printed : string) : result string := Raise (SystemExit [printed]).

(** The files afterwards, what was done to them, and the message of a
    successful merge. *)
Definition main (w : World) (sh : Shell) (fs : gmap string string)
    : gmap string string * list event * result string :=
  match argv sh with
  | _ :: arg :: _ =>
      let directory_path := path_str w arg in
      if negb (is_dir sh directory_path) then
        (fs, [], exit_1 ("Error: " +:+ directory_path +:+ " is not a valid directory"))
      else
        let video_files := scan w sh directory_path in
        match video_files with
        | [] => (fs, [], exit_1 ("No video files found in " +:+ directory_path))
        | _ :: _ =>
            match check_videos_compatibility w video_files with
            | Failed result => (fs, [], exit_1 ("Error: " +:+ result))
            | Passed result =>
                let output_path := joinpath sh directory_path "output" in
                match merge_videos w result output_path fs with
                | (fs, tr, Return (true, message)) => (fs, tr, Return message)
                | (fs, tr, Return (false, message)) =>
                    (fs, tr, exit_1 ("Error: " +:+ message))
                | (fs, tr, Raise e) => (fs, tr, Raise e)
                end
            end
        end
  | _ => (fs, [], exit_1 "Usage: python ffmpeg-merge.py <directory_path>")
  end.

End MergeMain.

(** ** More sample environments *)

Module MoreSamples.
Import Py.

(** [split_world] with a transcoder that fails on the second of three
    segments of [dir/video.mp4]. *)
Definition failing_world : Split.World := {|
  Split.path_exists := Split.path_exists Samples.split_world;
  Split.json_load := Split.json_load Samples.split_world;
  Split.csv_DictReader := Split.csv_DictReader Samples.split_world;
  Split.ffprobe_duration := Split.ffprobe_duration Samples.split_world;
  Split.st_size := Split.st_size Samples.split_world;
  Split.absolute := Split.absolute Samples.split_world;
  Split.default_output_dir := Split.default_output_dir Samples.split_world;
  Split.shlex_split := Split.shlex_split Samples.split_world;
  Split.ffmpeg := fun c =>
    negb (String.eqb (Split.output_path c) "dir/Clip-video/video-2-of-3.mp4")
|}.

(** [split_world] with files of 0 bytes. *)
Definition empty_file_world : Split.World := {|
  Split.path_exists := Split.path_exists Samples.split_world;
  Split.json_load := Split.json_load Samples.split_world;
  Split.csv_DictReader := Split.csv_DictReader Samples.split_world;
  Split.ffprobe_duration := Split.ffprobe_duration Samples.split_world;
  Split.st_size := fun _ => Some 0;
  Split.absolute := Split.absolute Samples.split_world;
  Split.default_output_dir := Split.default_output_dir Samples.split_world;
  Split.shlex_split := Split.shlex_split Samples.split_world;
  Split.ffmpeg := Split.ffmpeg Samples.split_world
|}.

(** [-f dir/video.mp4 -c 11] *)
Definition by_count_11 : Split.Options := {|
  Split.filename := Some "dir/video.mp4";
  Split.split_length := None;
  Split.split_chunks := Some 11;
  Split.split_filesize := None;
  Split.filesize_factor := 0.95%float;
  Split.chunk_strategy := Split.eager;
  Split.manifest := None;
  Split.output_dir := None;
  Split.vcodec := "copy";
  Split.acodec := "copy";
  Split.extra := EmptyString
|}.

(** [-f <file> -s <seconds>] *)
Definition by_length (file : string) (seconds : Z) : Split.Options := {|
  Split.filename := Some file;
  Split.split_length := Some seconds;
  Split.split_chunks := None;
  Split.split_filesize := None;
  Split.filesize_factor := 0.95%float;
  Split.chunk_strategy := Split.eager;
  Split.manifest := None;
  Split.output_dir := None;
  Split.vcodec := "copy";
  Split.acodec := "copy";
  Split.extra := EmptyString
|}.

(** [-f dir/video.mp4 -S 9007199254740992 --filesize-factor 1.0
    --chunk-strategy even]: a target of [2^53] bytes. *)
Definition by_size_2_53 : Split.Options := {|
  Split.filename := Some "dir/video.mp4";
  Split.split_length := None;
  Split.split_chunks := None;
  Split.split_filesize := Some (2 ^ 53);
  Split.filesize_factor := 1.0%float;
  Split.chunk_strategy := Split.even;
  Split.manifest := None;
  Split.output_dir := None;
  Split.vcodec := "copy";
  Split.acodec := "copy";
  Split.extra := EmptyString
|}.

(** [split_world] with files of [2^53 + 1] bytes. *)
Definition huge_file_world : Split.World := {|
  Split.path_exists := Split.path_exists Samples.split_world;
  Split.json_load := Split.json_load Samples.split_world;
  Split.csv_DictReader := Split.csv_DictReader Samples.split_world;
  Split.ffprobe_duration := Split.ffprobe_duration Samples.split_world;
  Split.st_size := fun _ => Some (2 ^ 53 + 1);
  Split.absolute := Split.absolute Samples.split_world;
  Split.default_output_dir := Split.default_output_dir Samples.split_world;
  Split.shlex_split := Split.shlex_split Samples.split_world;
  Split.ffmpeg := Split.ffmpeg Samples.split_world
|}.

(** Rows of a [.csv] manifest: every field is a string. *)
Definition row_intro : gmap string value :=
  <["start_time" := PStr "0"]>
    (<["length" := PStr "30"]> (<["rename_to" := PStr "intro.mp4"]> ∅)).

Definition row_main : gmap string value :=
  <["start_time" := PStr "30"]>
    (<["length" := PStr "60"]> (<["rename_to" := PStr "main"]> ∅)).

Definition row_without_start : gmap string value :=
  <["length" := PStr "5"]> (<["rename_to" := PStr "credits"]> ∅).

Definition row_without_name : gmap string value :=
  <["start_time" := PStr "90"]> (<["length" := PStr "5"]> ∅).

(** A structured manifest whose second clip has no [length], and one
    without [output_clips]. *)
Definition manifest_with_incomplete_clip : gmap string value :=
  <["input_file" := PStr "in.mp4"]>
    (<["output_clips" :=
         PList (map PDict [ <["start_time" := PInt 0]> (<["length" := PInt 5]> ∅) ]
                ++ PDict (<["start_time" := PInt 5]> ∅)
                   :: [PDict (<["start_time" := PInt 9]> (<["length" := PInt 1]> ∅))])]>
       ∅).

Definition manifest_with_input_only : gmap string value :=
  <["input_file" := PStr "in.mp4"]> ∅.

(** A disk with these manifests; [missing.json] is not there. *)
Definition cuts_world : Split.World := {|
  Split.path_exists := fun p => negb (String.eqb p "missing.json");
  Split.json_load := fun p =>
    if String.eqb p "incomplete.json" then Some (PDict manifest_with_incomplete_clip)
    else if String.eqb p "input_only.json" then Some (PDict manifest_with_input_only)
    else None;
  Split.csv_DictReader := fun p =>
    if String.eqb p "cuts.csv" then map PDict [row_intro; row_main]
    else if String.eqb p "broken.csv"
         then map PDict [row_intro] ++ PDict row_without_start :: [PDict row_main]
    else [];
  Split.ffprobe_duration := Split.ffprobe_duration Samples.split_world;
  Split.st_size := Split.st_size Samples.split_world;
  Split.absolute := Split.absolute Samples.split_world;
  Split.default_output_dir := Split.default_output_dir Samples.split_world;
  Split.shlex_split := Split.shlex_split Samples.split_world;
  Split.ffmpeg := fun _ => true
|}.

(** [-m input_only.json] and [-m missing.json], both without [-f]. *)
Definition manifest_only (manifest : string) : Split.Options := {|
  Split.filename := None;
  Split.split_length := None;
  Split.split_chunks := None;
  Split.split_filesize := None;
  Split.filesize_factor := 0.95%float;
  Split.chunk_strategy := Split.eager;
  Split.manifest := Some manifest;
  Split.output_dir := None;
  Split.vcodec := "copy";
  Split.acodec := "copy";
  Split.extra := EmptyString
|}.

(** A directory [/clips] with three videos and a text file.  [e.mkv] is
    hevc at 1280x720, [audio.mp4] has no video stream, the others are as
    [report_for] says. *)
Definition library_report (file_path : string) : Merge.ffprobe_output :=
  if String.eqb file_path "/clips/e.mkv" then
    Merge.ProbeJson
      {| Merge.streams :=
           [ {| Merge.codec_type := Some "video"; Merge.stream_codec_name := Some "hevc";
                Merge.stream_width := Some 1280; Merge.stream_height := Some 720 |} ];
         Merge.format_format_name := Some "matroska,webm" |}
  else if String.eqb file_path "/clips/audio.mp4" then
    Merge.ProbeJson
      {| Merge.streams :=
           [ {| Merge.codec_type := Some "audio"; Merge.stream_codec_name := Some "aac";
                Merge.stream_width := None; Merge.stream_height := None |} ];
         Merge.format_format_name := Some "mov,mp4,m4a,3gp,3g2,mj2" |}
  else Merge.ProbeJson (Samples.report_for file_path).

Definition library_world : Merge.World := {|
  Merge.ffprobe := library_report;
  Merge.absolute := fun p => p;
  Merge.suffix := fun p =>
    if String.eqb p "/clips/notes.txt" then ".txt"
    else if String.eqb p "/clips/output" then EmptyString
    else if String.eqb p "/clips/e.mkv" then ".mkv"
    else ".mp4";
  Merge.path_str := fun p => p;
  Merge.ffmpeg := Merge.ffmpeg Samples.merge_world
|}.

(** [python ffmpeg-merge.py /clips]; the names are in lower case. *)
Definition library_shell : MergeMain.Shell := {|
  MergeMain.argv := ["ffmpeg-merge.py"; "/clips"];
  MergeMain.is_dir := fun p => String.eqb p "/clips";
  MergeMain.iterdir := fun _ => ["/clips/c.mp4"; "/clips/notes.txt"; "/clips/a.mp4"];
  MergeMain.is_file := fun _ => true;
  MergeMain.lower := fun s => s;
  MergeMain.joinpath := fun p name => p +:+ "/" +:+ name
|}.

End MoreSamples.

(** ** Laws of the two monads *)

Section Laws.
Import Py.
Context {E A B : Type}.

Lemma bind_lift_Return (a : A) (f : A -> run E B) : (lift (Return a) ≫= f) = f a.
Proof. unfold lift, mbind, run_bind. destruct (f a); reflexivity. Qed.

Lemma bind_Return_trace (tr : list E) (a : A) (f : A -> run E B) :
  ((tr, Return a) ≫= f) = (tr ++ fst (f a), snd (f a)).
Proof. unfold mbind, run_bind. destruct (f a); reflexivity. Qed.

End Laws.

(** ** Binary64: the conversions and the division behind [ceildiv] *)

Section Binary64.
Import Py Split.

(** The number of binary digits of a mantissa. *)
Lemma digits2_pos_bounds (p : positive) :
  2 ^ (Z.pos (digits2_pos p) - 1) <= Z.pos p < 2 ^ Z.pos (digits2_pos p).
Proof.
  induction p as [p IH|p IH|]; cbn [digits2_pos].
  - rewrite Pos2Z.inj_succ, Z.pow_succ_r by lia.
    replace (Z.succ (Z.pos (digits2_pos p)) - 1) with (Z.succ (Z.pos (digits2_pos p) - 1))
      by lia.
    rewrite Z.pow_succ_r by lia. lia.
  - rewrite Pos2Z.inj_succ, Z.pow_succ_r by lia.
    replace (Z.succ (Z.pos (digits2_pos p)) - 1) with (Z.succ (Z.pos (digits2_pos p) - 1))
      by lia.
    rewrite Z.pow_succ_r by lia. lia.
  - cbn. lia.
Qed.

Lemma digits2_pos_unique (p : positive) (n : Z) :
  2 ^ (n - 1) <= Z.pos p < 2 ^ n -> Z.pos (digits2_pos p) = n.
Proof.
  intros [Hlo Hhi]. pose proof (digits2_pos_bounds p) as [Hlo' Hhi'].
  destruct (Z.lt_trichotomy (Z.pos (digits2_pos p)) n) as [Hlt|[Heq|Hgt]];
    [exfalso|assumption|exfalso].
  - assert (2 ^ Z.pos (digits2_pos p) <= 2 ^ (n - 1)) by (apply Z.pow_le_mono_r; lia).
    lia.
  - assert (0 <= n \/ n < 0) as [Hn|Hn] by lia.
    + assert (2 ^ n <= 2 ^ (Z.pos (digits2_pos p) - 1)) by (apply Z.pow_le_mono_r; lia).
      lia.
    + rewrite Z.pow_neg_r in Hhi by assumption. lia.
Qed.

Lemma iter_xO (p k : positive) : Z.pos (Pos.iter xO p k) = Z.pos p * 2 ^ Z.pos k.
Proof.
  induction k as [|k IH] using Pos.peano_ind.
  - cbn. lia.
  - rewrite Pos.iter_succ, Pos2Z.inj_xO, IH, Pos2Z.inj_succ, Z.pow_succ_r by lia. lia.
Qed.

(** A mantissa of 53 digits with an exponent in range is left as it is. *)
Lemma binary_round_aux_exact (sx : bool) (m : positive) (e : Z) :
  Z.pos (digits2_pos m) = 53 -> -1074 <= e <= 971 ->
  binary_round_aux prec emax sx (Z.pos m) e loc_Exact = S754_finite sx m e.
Proof.
  intros Hd He. unfold binary_round_aux, shr_fexp. cbn [Zdigits2 shr_record_of_loc].
  rewrite Hd.
  replace (fexp prec emax (53 + e) - e) with 0 by (unfold fexp, emin, prec, emax; lia).
  cbn [shr shr_m loc_of_shr_record round_nearest_even Zdigits2 shr_record_of_loc].
  rewrite Hd.
  replace (fexp prec emax (53 + e) - e) with 0 by (unfold fexp, emin, prec, emax; lia).
  cbn [shr shr_m].
  replace (e <=? emax - prec) with true by (symmetry; apply Z.leb_le; unfold emax, prec; lia).
  reflexivity.
Qed.

(** Rounding an integer below [2^53]: the mantissa is the integer
    shifted to 53 digits, nothing is lost. *)
Lemma binary_round_int (sx : bool) (p : positive) :
  Z.pos p < 2 ^ 53 ->
  exists m e,
    binary_round prec emax sx p 0 = S754_finite sx m e
    /\ Z.pos (digits2_pos m) = 53
    /\ -52 <= e <= 0
    /\ Z.pos m = Z.pos p * 2 ^ (- e).
Proof.
  intros Hp. pose proof (digits2_pos_bounds p) as Hb.
  assert (Hd : Z.pos (digits2_pos p) <= 53).
  { destruct (Z.le_gt_cases (Z.pos (digits2_pos p)) 53) as [|Hgt]; [assumption|].
    assert (2 ^ 53 <= 2 ^ (Z.pos (digits2_pos p) - 1)) by (apply Z.pow_le_mono_r; lia).
    lia. }
  unfold binary_round, shl_align.
  replace (fexp prec emax (Z.pos (digits2_pos p) + 0)) with (Z.pos (digits2_pos p) - 53)
    by (unfold fexp, emin, prec, emax; lia).
  destruct (Z.pos (digits2_pos p) - 53 - 0) as [|k|k] eqn:Hk; [|lia|].
  - exists p, 0. split; [apply binary_round_aux_exact; lia|].
    split; [lia|]. split; [lia|]. change (- 0) with 0. rewrite Z.pow_0_r. lia.
  - assert (Hm : Z.pos (Pos.iter xO p k) = Z.pos p * 2 ^ Z.pos k) by apply iter_xO.
    assert (Hdm : Z.pos (digits2_pos (Pos.iter xO p k)) = 53).
    { apply digits2_pos_unique. rewrite Hm.
      replace 53 with (Z.pos (digits2_pos p) + Z.pos k) at 2 by lia.
      replace (53 - 1) with (Z.pos (digits2_pos p) - 1 + Z.pos k) by lia.
      rewrite !Z.pow_add_r by lia.
      assert (0 < 2 ^ Z.pos k) by (apply Z.pow_pos_nonneg; lia). nia. }
    exists (Pos.iter xO p k), (Z.pos (digits2_pos p) - 53).
    split; [apply binary_round_aux_exact; [assumption|lia]|].
    split; [assumption|]. split; [lia|].
    rewrite Hm. f_equal. f_equal. lia.
Qed.

Lemma iter_pos_iter {A : Type} (f : A -> A) (p : positive) (x : A) :
  SpecFloat.iter_pos f p x = Pos.iter f x p.
Proof.
  revert x. induction p as [p IH|p IH|]; intros x; cbn [SpecFloat.iter_pos Pos.iter].
  - rewrite !IH, <- !Pos.iter_swap. reflexivity.
  - rewrite !IH. reflexivity.
  - reflexivity.
Qed.

Lemma shr_shifted (m k : positive) :
  Pos.iter shr_1 {| shr_m := Z.pos (Pos.iter xO m k); shr_r := false; shr_s := false |} k
  = {| shr_m := Z.pos m; shr_r := false; shr_s := false |}.
Proof.
  induction k as [|k IH] using Pos.peano_ind.
  - reflexivity.
  - rewrite (Pos.iter_succ_r k _ shr_1), (Pos.iter_succ k _ xO). cbn [shr_1 orb]. exact IH.
Qed.

(** Rounding an integer [m * 2^k] whose [m] has 53 digits: it is a
    double already. *)
Lemma binary_round_shifted (sx : bool) (m k : positive) :
  Z.pos (digits2_pos m) = 53 -> Z.pos k <= 971 ->
  binary_round prec emax sx (Pos.iter xO m k) 0 = S754_finite sx m (Z.pos k).
Proof.
  intros Hd Hk.
  assert (Hdk : Z.pos (digits2_pos (Pos.iter xO m k)) = 53 + Z.pos k).
  { pose proof (digits2_pos_bounds m) as Hb. rewrite Hd in Hb.
    apply digits2_pos_unique. rewrite iter_xO.
    replace (53 + Z.pos k - 1) with (53 - 1 + Z.pos k) by lia.
    rewrite !Z.pow_add_r by lia.
    assert (0 < 2 ^ Z.pos k) by (apply Z.pow_pos_nonneg; lia). nia. }
  unfold binary_round, shl_align. rewrite Hdk.
  replace (fexp prec emax (53 + Z.pos k + 0) - 0) with (Z.pos k)
    by (unfold fexp, emin, prec, emax; lia).
  unfold binary_round_aux, shr_fexp at 1. cbn [Zdigits2 shr_record_of_loc]. rewrite Hdk.
  replace (fexp prec emax (53 + Z.pos k + 0) - 0) with (Z.pos k)
    by (unfold fexp, emin, prec, emax; lia).
  cbn [shr]. rewrite iter_pos_iter, shr_shifted.
  cbn [shr_m loc_of_shr_record round_nearest_even].
  unfold shr_fexp. cbn [Zdigits2 shr_record_of_loc]. rewrite Hd.
  replace (fexp prec emax (53 + (0 + Z.pos k)) - (0 + Z.pos k)) with 0
    by (unfold fexp, emin, prec, emax; lia).
  cbn [shr shr_m].
  replace (0 + Z.pos k <=? emax - prec) with true
    by (symmetry; apply Z.leb_le; unfold emax, prec; lia).
  reflexivity.
Qed.

Lemma new_location_remainder (D R : Z) :
  0 <= R < D -> loc_of_remainder (new_location D R) R D.
Proof.
  intros HR. unfold new_location, new_location_even, new_location_odd.
  destruct (Z.even D) eqn:Heven.
  - destruct (Z.eqb_spec R 0) as [->|Hne]; [reflexivity|].
    cbn [loc_of_remainder].
    destruct (Z.compare_spec (2 * R) D); lia.
  - destruct (Z.eqb_spec R 0) as [->|Hne]; [reflexivity|].
    cbn [loc_of_remainder].
    assert (Hodd : Z.odd D = true) by (rewrite <- Z.negb_even, Heven; reflexivity).
    apply Z.odd_spec in Hodd. destruct Hodd as [h Hh].
    destruct (Z.compare_spec (2 * R + 1) D); lia.
Qed.

(** The division of two mantissas of 53 digits: the dividend is shifted
    by 53 places, so the quotient has 53 or 54 digits. *)
Lemma SFdiv_core_binary_normal (ma mb : positive) (ea eb : Z) :
  Z.pos (digits2_pos ma) = 53 -> Z.pos (digits2_pos mb) = 53 ->
  -52 <= ea <= 0 -> -52 <= eb <= 0 ->
  SFdiv_core_binary prec emax (Z.pos ma) ea (Z.pos mb) eb
  = ((Z.pos ma * 2 ^ 53) / Z.pos mb, ea - eb - 53,
     new_location (Z.pos mb) ((Z.pos ma * 2 ^ 53) mod Z.pos mb)).
Proof.
  intros Hda Hdb Hea Heb. unfold SFdiv_core_binary. cbn [Zdigits2]. rewrite Hda, Hdb.
  replace (Z.min (fexp prec emax (53 + ea - (53 + eb))) (ea - eb)) with (ea - eb - 53)
    by (unfold fexp, emin, prec, emax; lia).
  replace (ea - eb - (ea - eb - 53)) with 53 by lia.
  rewrite Z.shiftl_mul_pow2 by lia.
  unfold Z.div, Z.modulo.
  destruct (Z.div_eucl (Z.pos ma * 2 ^ 53) (Z.pos mb)). reflexivity.
Qed.


Lemma loc_of_shr_record_of_loc (m : Z) (l : location) :
  loc_of_shr_record (shr_record_of_loc m l) = l
  /\ shr_m (shr_record_of_loc m l) = m.
Proof. destruct l as [|[]]; split; reflexivity. Qed.

(** The second half of [binary_round_aux] on a rounded mantissa: kept,
    or halved when the rounding carried into a 54th digit. *)
Lemma renormalize (N E : Z) :
  2 ^ 52 <= N <= 2 ^ 53 -> -1000 <= E <= 900 ->
  exists m e,
    (let '(mrs, e'') := shr_fexp prec emax N E loc_Exact in
     match shr_m mrs with
     | Z0 => S754_zero false
     | Z.pos m => if e'' <=? emax - prec then S754_finite false m e'' else S754_infinity false
     | Z.neg _ => S754_nan
     end) = S754_finite false m e
    /\ ((e = E /\ N = Z.pos m) \/ (e = E + 1 /\ N = 2 * Z.pos m)).
Proof.
  intros HN HE. destruct N as [|n|n]; [lia| |lia].
  destruct (Z.eq_dec (Z.pos n) (2 ^ 53)) as [Heq|Hne].
  - assert (Hn : n = 9007199254740992%positive).
    { change (2 ^ 53) with 9007199254740992 in Heq. lia. }
    subst n. clear Heq HN.
    exists (4503599627370496%positive), (E + 1).
    split; [|right; split; reflexivity].
    unfold shr_fexp. cbn [Zdigits2 shr_record_of_loc].
    replace (fexp prec emax (Z.pos (digits2_pos 9007199254740992) + E) - E) with 1
      by (unfold fexp, emin, prec, emax; cbn [digits2_pos Pos.succ]; lia).
    cbn [shr SpecFloat.iter_pos shr_1 shr_m orb].
    replace (E + 1 <=? emax - prec) with true
      by (symmetry; apply Z.leb_le; unfold emax, prec; lia).
    reflexivity.
  - exists n, E. split; [|left; split; reflexivity].
    assert (Hd : Z.pos (digits2_pos n) = 53) by (apply digits2_pos_unique; lia).
    unfold shr_fexp. cbn [Zdigits2 shr_record_of_loc]. rewrite Hd.
    replace (fexp prec emax (53 + E) - E) with 0 by (unfold fexp, emin, prec, emax; lia).
    cbn [shr shr_m].
    replace (E <=? emax - prec) with true
      by (symmetry; apply Z.leb_le; unfold emax, prec; lia).
    reflexivity.
Qed.

(** [binary_round_aux] on a quotient of 53 or 54 digits with the
    location of its remainder [R] out of [D]: the result is [N * 2^E]
    with [N] within half a unit of the quotient. *)
Lemma binary_round_aux_quotient (q : positive) (e' : Z) (l : location) (R D : Z) :
  2 ^ 52 <= Z.pos q < 2 ^ 54 -> -900 <= e' <= 800 ->
  0 <= R < D -> loc_of_remainder l R D ->
  exists m e N E,
    binary_round_aux prec emax false (Z.pos q) e' l = S754_finite false m e
    /\ ((e = E /\ N = Z.pos m) \/ (e = E + 1 /\ N = 2 * Z.pos m))
    /\ ((Z.pos q < 2 ^ 53 /\ E = e'
         /\ - D <= 2 * N * D - (2 * Z.pos q * D + 2 * R) <= D)
        \/ (2 ^ 53 <= Z.pos q /\ E = e' + 1
            /\ - D <= 2 * N * D - (Z.pos q * D + R) <= D)).
Proof.
  intros Hq He HR Hl.
  destruct (Z.lt_ge_cases (Z.pos q) (2 ^ 53)) as [Hlt|Hge].
  - (* 53 digits: no shift before the rounding *)
    assert (Hd : Z.pos (digits2_pos q) = 53) by (apply digits2_pos_unique; lia).
    set (N := round_nearest_even (Z.pos q) l).
    assert (HN : (N = Z.pos q \/ N = Z.pos q + 1)
                 /\ - D <= 2 * N * D - (2 * Z.pos q * D + 2 * R) <= D).
    { subst N. destruct l as [|[]]; cbn [round_nearest_even loc_of_remainder] in *.
      - split; [left; reflexivity|]. nia.
      - destruct (Z.even (Z.pos q)); (split; [auto|]); nia.
      - split; [left; reflexivity|]. nia.
      - split; [right; reflexivity|]. nia. }
    destruct HN as [HN Hnear].
    destruct (renormalize N e' ltac:(lia) ltac:(lia)) as (m & e & Hres & Hme).
    exists m, e, N, e'. split; [|split; [assumption|left; auto]].
    unfold binary_round_aux, shr_fexp at 1. cbn [Zdigits2]. rewrite Hd.
    replace (fexp prec emax (53 + e') - e') with 0 by (unfold fexp, emin, prec, emax; lia).
    cbn [shr].
    destruct (loc_of_shr_record_of_loc (Z.pos q) l) as [-> ->].
    exact Hres.
  - (* 54 digits: one shift, the last digit becomes the rounding digit *)
    assert (Hd : Z.pos (digits2_pos q) = 54) by (apply digits2_pos_unique; lia).
    set (mrs := shr_1 (shr_record_of_loc (Z.pos q) l)).
    set (N := round_nearest_even (shr_m mrs) (loc_of_shr_record mrs)).
    assert (HN : 2 ^ 52 <= N <= 2 ^ 53
                 /\ - D <= 2 * N * D - (Z.pos q * D + R) <= D).
    { subst N mrs. destruct q as [p|p|]; [| |lia].
      - destruct l as [|[]];
          cbn [shr_1 shr_record_of_loc shr_m loc_of_shr_record orb round_nearest_even
               loc_of_remainder] in *;
          rewrite Pos2Z.inj_xI in *;
          try destruct (Z.even (Z.pos p)); split; nia.
      - destruct l as [|[]];
          cbn [shr_1 shr_record_of_loc shr_m loc_of_shr_record orb round_nearest_even
               loc_of_remainder] in *;
          rewrite Pos2Z.inj_xO in *;
          split; nia. }
    destruct HN as [HN Hnear].
    destruct (renormalize N (e' + 1) ltac:(lia) ltac:(lia)) as (m & e & Hres & Hme).
    exists m, e, N, (e' + 1). split; [|split; [assumption|right; auto]].
    unfold binary_round_aux, shr_fexp at 1. cbn [Zdigits2]. rewrite Hd.
    replace (fexp prec emax (54 + e') - e') with 1 by (unfold fexp, emin, prec, emax; lia).
    cbn [shr SpecFloat.iter_pos]. fold mrs. exact Hres.
Qed.


Lemma ceil_finite_spec (m : positive) (e s N : Z) :
  0 <= s ->
  (e = - s /\ N = Z.pos m) \/ (e = 1 - s /\ N = 2 * Z.pos m) ->
  2 ^ s * (ceil_finite m e - 1) < N <= 2 ^ s * ceil_finite m e.
Proof.
  intros Hs Hcase. unfold ceil_finite.
  destruct (Z.leb_spec 0 e) as [He|He].
  - destruct Hcase as [[-> ->]|[-> ->]].
    + assert (s = 0) as -> by lia. change (- 0) with 0. rewrite !Z.pow_0_r. lia.
    + assert (s = 0 \/ s = 1) as [->| ->] by lia.
      * change (1 - 0) with 1. rewrite Z.pow_0_r, Z.pow_1_r. lia.
      * change (1 - 1) with 0. rewrite Z.pow_0_r, Z.pow_1_r. lia.
  - assert (Hpow : 0 < 2 ^ (- e)) by (apply Z.pow_pos_nonneg; lia).
    pose proof (Z.div_mod (Z.pos m) (2 ^ (- e)) ltac:(lia)) as Hdm.
    pose proof (Z.mod_pos_bound (Z.pos m) (2 ^ (- e)) Hpow) as Hr.
    destruct Hcase as [[-> ->]|[-> ->]].
    + rewrite Z.opp_involutive in *.
      destruct (Z.eqb_spec (Z.pos m mod 2 ^ s) 0); nia.
    + assert (Hs2 : 2 ^ s = 2 * 2 ^ (- (1 - s))).
      { rewrite <- Z.pow_succ_r by lia. f_equal. lia. }
      rewrite Hs2.
      destruct (Z.eqb_spec (Z.pos m mod 2 ^ (- (1 - s))) 0); nia.
Qed.

(** A value [N / P] within half a unit [1 / P] of [a / b], where
    [a < 2^53] and [a / b] is at least [2^52] units, has the ceiling of
    [a / b]: the units are at most 1 and [b] is less than two of them. *)
Lemma ceiling_of_rounded (a b N P c : Z) :
  0 < a < 2 ^ 53 -> 0 < b -> 0 < P ->
  b * 2 ^ 52 <= a * P ->
  - b <= 2 * N * b - 2 * a * P <= b ->
  P * (c - 1) < N <= P * c ->
  c = (a + b - 1) / b.
Proof.
  intros Ha Hb HP Hbinade Hnear Hc.
  pose proof (Z.div_mod (a + b - 1) b ltac:(lia)) as Hdm.
  pose proof (Z.mod_pos_bound (a + b - 1) b Hb) as Hr.
  set (k := (a + b - 1) / b) in *. set (r := (a + b - 1) mod b) in *.
  assert (Hk : b * (k - 1) < a <= b * k) by lia.
  change (2 ^ 53) with 9007199254740992 in *. change (2 ^ 52) with 4503599627370496 in *.
  assert (HbP : b < 2 * P) by nia.
  assert (Hle : N <= P * k).
  { assert (2 * N * b <= 2 * (b * k) * P + b) by nia.
    assert (2 * N <= 2 * k * P + 1) by nia. lia. }
  assert (Hgt : P * (k - 1) < N).
  { assert (2 * (b * (k - 1) + 1) * P - b <= 2 * N * b) by nia.
    assert (2 * (k - 1) * P * b < 2 * N * b) by nia.
    nia. }
  assert (c <= k) by nia.
  assert (k <= c) by nia.
  lia.
Qed.


(** [float(n)] for [0 < n < 2^53] loses nothing. *)
Lemma float_of_int_exact (p : positive) :
  Z.pos p < 2 ^ 53 ->
  exists m e,
    float_of_int (Z.pos p) = Return (SF2Prim (S754_finite false m e))
    /\ Prim2SF (SF2Prim (S754_finite false m e)) = S754_finite false m e
    /\ Z.pos (digits2_pos m) = 53
    /\ -52 <= e <= 0
    /\ Z.pos m = Z.pos p * 2 ^ (- e).
Proof.
  intros Hp. destruct (binary_round_int false p Hp) as (m & e & Hnorm & Hd & He & Hm).
  exists m, e. unfold float_of_int. cbn [binary_normalize]. rewrite Hnorm.
  split; [reflexivity|]. split; [|auto].
  apply Prim2SF_SF2Prim. unfold valid_binary, bounded, canonical_mantissa.
  rewrite Hd. apply andb_true_iff. split.
  - apply Z.eqb_eq. unfold fexp, emin, prec, emax. lia.
  - apply Z.leb_le. unfold prec, emax. lia.
Qed.

Lemma ceil_of_float_finite (x : float) (m : positive) (e : Z) :
  Prim2SF x = S754_finite false m e -> ceil_of_float x = Return (ceil_finite m e).
Proof.
  intros Hx. unfold ceil_of_float, ceil_finite. rewrite Hx.
  destruct (0 <=? e); [reflexivity|].
  cbv zeta. destruct (Z.pos m mod 2 ^ (- e) =? 0); reflexivity.
Qed.

(** Below [2^53] the binary64 computation gives the exact ceiling: both
    integers convert without loss, the quotient is rounded to nearest,
    and a quotient that is not whole is further from the integer below
    it than half a unit of its last place. *)
Lemma ceildiv_exact (a b : Z) :
  0 <= a < 2 ^ 53 -> 0 < b < 2 ^ 53 -> ceildiv a b = Return ((a + b - 1) / b).
Proof.
  intros Ha Hb. destruct b as [|pb|pb]; [lia| |lia].
  destruct (float_of_int_exact pb ltac:(lia)) as (mb & eb & Hfb & Hsb & Hdb & Heb & Hmb).
  assert (Hnz : PrimFloat.eqb (SF2Prim (S754_finite false mb eb)) 0 = false).
  { rewrite FloatAxioms.eqb_spec, Hsb. reflexivity. }
  unfold ceildiv. rewrite Hfb. cbn [mbind result_bind]. unfold truediv.
  destruct a as [|pa|pa]; [| |lia].
  - (* 0 / b *)
    unfold float_of_int. cbn [binary_normalize mbind result_bind]. rewrite Hnz. cbn [mbind result_bind].
    unfold ceil_of_float. rewrite div_spec, Hsb.
    rewrite Prim2SF_SF2Prim by reflexivity. unfold SF64div. cbn [SFdiv xorb].
    f_equal. symmetry. apply Z.div_small. lia.
  - destruct (float_of_int_exact pa ltac:(lia)) as (ma & ea & Hfa & Hsa & Hda & Hea & Hma).
    rewrite Hfa. cbn [mbind result_bind]. rewrite Hnz. cbn [mbind result_bind].
    pose proof (digits2_pos_bounds ma) as Hba. rewrite Hda in Hba.
    pose proof (digits2_pos_bounds mb) as Hbb. rewrite Hdb in Hbb.
    change (2 ^ (53 - 1)) with (2 ^ 52) in *.
    set (D := Z.pos mb) in *.
    pose proof (Z.div_mod (Z.pos ma * 2 ^ 53) D ltac:(lia)) as Hdm.
    pose proof (Z.mod_pos_bound (Z.pos ma * 2 ^ 53) D ltac:(lia)) as HR.
    set (q := (Z.pos ma * 2 ^ 53) / D) in *. set (R := (Z.pos ma * 2 ^ 53) mod D) in *.
    assert (Hq : 2 ^ 52 <= q < 2 ^ 54).
    { change (2 ^ 54) with 18014398509481984. change (2 ^ 53) with 9007199254740992 in *.
      change (2 ^ 52) with 4503599627370496 in *. split; nia. }
    destruct q as [|pq|pq] eqn:Hpq; [change (2 ^ 52) with 4503599627370496 in Hq; lia| |lia].
    destruct (binary_round_aux_quotient pq (ea - eb - 53) (new_location D R) R D
                Hq ltac:(lia) HR (new_location_remainder D R HR))
      as (m & e & N & E & Hround & Hme & Hnear).
    assert (Hdiv : Prim2SF (SF2Prim (S754_finite false ma ea)
                            / SF2Prim (S754_finite false mb eb))
                   = S754_finite false m e).
    { rewrite div_spec, Hsa, Hsb. unfold SF64div. cbn [SFdiv xorb].
      rewrite (SFdiv_core_binary_normal ma mb ea eb Hda Hdb Hea Heb).
      fold D. fold R. change (Z.pos ma * 2 ^ 53 / D) with q. rewrite Hpq. exact Hround. }
    rewrite (ceil_of_float_finite _ m e Hdiv). f_equal.
    assert (HE : E <= 0) by (destruct Hnear as [(_ & -> & _)|(_ & -> & _)]; lia).
    pose proof (ceil_finite_spec m e (- E) N ltac:(lia)
                  ltac:(destruct Hme as [[-> ->]|[-> ->]]; [left|right]; split; lia))
      as Hceil.
    assert (HP : 0 < 2 ^ (- E)) by (apply Z.pow_pos_nonneg; lia).
    assert (Hpa : 0 < 2 ^ (- ea)) by (apply Z.pow_pos_nonneg; lia).
    assert (Hpb : 0 < 2 ^ (- eb)) by (apply Z.pow_pos_nonneg; lia).
    fold D in Hmb.
    set (a := Z.pos pa) in *. set (b := Z.pos pb) in *.
    set (A := 2 ^ (- ea)) in *. set (B := 2 ^ (- eb)) in *. set (P := 2 ^ (- E)) in *.
    assert (Hunits : (Z.pos pq < 2 ^ 53 /\ A * 2 ^ 53 = P * B
                      /\ - D <= 2 * N * D - (2 * Z.pos pq * D + 2 * R) <= D)
                     \/ (2 ^ 53 <= Z.pos pq /\ A * 2 ^ 52 = P * B
                         /\ - D <= 2 * N * D - (Z.pos pq * D + R) <= D)).
    { subst A B P.
      destruct Hnear as [(Hlt & -> & Hn)|(Hge & -> & Hn)]; [left|right];
        (split; [assumption|]); (split; [|assumption]);
        rewrite <- !Z.pow_add_r by lia; f_equal; lia. }
    clearbody A B P a b. clear Hround Hdiv Hnear Hme Hfa Hfb Hsa Hsb Hnz.
    change (2 ^ 53) with 9007199254740992 in *.
    change (2 ^ 52) with 4503599627370496 in *.
    assert (Hgoal : (b * 4503599627370496) * B <= (a * P) * B
                    /\ (- b) * B <= (2 * N * b - 2 * a * P) * B <= b * B).
    { destruct Hunits as [(Hlt & HAB & Hn)|(Hge & HAB & Hn)]; split; nia. }
    destruct Hgoal as [H1 [H2 H3]].
    apply (ceiling_of_rounded a b N P); try lia.
    + apply (Z.mul_le_mono_pos_r _ _ B); assumption.
    + split; apply (Z.mul_le_mono_pos_r _ _ B); assumption.
Qed.


Lemma Prim2SF_normal (sx : bool) (m : positive) (e : Z) :
  Z.pos (digits2_pos m) = 53 -> -1074 <= e <= 971 ->
  Prim2SF (SF2Prim (S754_finite sx m e)) = S754_finite sx m e.
Proof.
  intros Hd He. apply Prim2SF_SF2Prim. unfold valid_binary, bounded, canonical_mantissa.
  rewrite Hd. apply andb_true_iff. split.
  - apply Z.eqb_eq. unfold fexp, emin, prec, emax. lia.
  - apply Z.leb_le. unfold prec, emax. lia.
Qed.

(** [float(n)] for an [n] of either sign: the rounding of [|n|] with
    the sign of [n]. *)
Lemma float_of_int_signed (sx : bool) (p : positive) :
  float_of_int (if sx then Z.neg p else Z.pos p)
  = match binary_round prec emax sx p 0 with
    | S754_infinity _ => Raise OverflowError
    | x => Return (SF2Prim x)
    end.
Proof. destruct sx; reflexivity. Qed.

(** An [int(x)] other than 0 converts back to a finite double. *)
Lemma float_of_int_of_float (x : float) (n : Z) :
  int_of_float x = Return n -> n <> 0 ->
  exists s m e,
    float_of_int n = Return (SF2Prim (S754_finite s m e))
    /\ Prim2SF (SF2Prim (S754_finite s m e)) = S754_finite s m e.
Proof.
  intros Hx Hn. unfold int_of_float in Hx.
  pose proof (Prim2SF_valid x) as Hvalid.
  destruct (Prim2SF x) as [s|s| |s m e]; try discriminate.
  - injection Hx as <-. contradiction.
  - cbv zeta in Hx. injection Hx as Hx.
    unfold valid_binary, bounded, canonical_mantissa in Hvalid.
    apply andb_true_iff in Hvalid. destruct Hvalid as [Hcan Hemax].
    apply Z.eqb_eq in Hcan. apply Z.leb_le in Hemax.
    unfold fexp, emin, prec, emax in Hcan, Hemax.
    pose proof (digits2_pos_bounds m) as Hb.
    assert (Hn' : n = if s then - (if 0 <=? e then Z.pos m * 2 ^ e else Z.pos m / 2 ^ (- e))
                      else (if 0 <=? e then Z.pos m * 2 ^ e else Z.pos m / 2 ^ (- e)))
      by (symmetry; exact Hx).
    clear Hx.
    destruct (Z.leb_spec 0 e) as [He|He].
    + assert (Hd : Z.pos (digits2_pos m) = 53) by lia.
      destruct e as [|k|k]; [| |lia].
      * (* the mantissa itself *)
        rewrite Z.pow_0_r, Z.mul_1_r in Hn'.
        replace n with (if s then Z.neg m else Z.pos m) by (destruct s; rewrite Hn'; reflexivity).
        rewrite Hd in Hb.
        destruct (binary_round_int s m ltac:(lia)) as (m' & e' & Hr & Hd' & He' & _).
        exists s, m', e'. rewrite float_of_int_signed, Hr.
        split; [reflexivity|]. apply Prim2SF_normal; [assumption|lia].
      * rewrite <- iter_xO in Hn'.
        replace n with (if s then Z.neg (Pos.iter xO m k) else Z.pos (Pos.iter xO m k))
          by (destruct s; rewrite Hn'; reflexivity).
        exists s, m, (Z.pos k).
        rewrite float_of_int_signed, (binary_round_shifted s m k Hd ltac:(lia)).
        split; [reflexivity|]. apply Prim2SF_normal; [assumption|lia].
    + assert (Hd : Z.pos (digits2_pos m) <= 53) by lia.
      assert (Hm : Z.pos m < 2 ^ 53).
      { assert (2 ^ Z.pos (digits2_pos m) <= 2 ^ 53) by (apply Z.pow_le_mono_r; lia). lia. }
      assert (Hpow : 0 < 2 ^ (- e)) by (apply Z.pow_pos_nonneg; lia).
      pose proof (Z.div_pos (Z.pos m) (2 ^ (- e)) ltac:(lia) Hpow) as Hq0.
      pose proof (Z.div_le_upper_bound (Z.pos m) (2 ^ (- e)) (Z.pos m) Hpow ltac:(nia)) as Hq1.
      destruct (Z.pos m / 2 ^ (- e)) as [|p|p] eqn:Hq; [destruct s; lia| |lia].
      replace n with (if s then Z.neg p else Z.pos p) by (destruct s; rewrite Hn'; reflexivity).
      destruct (binary_round_int s p ltac:(lia)) as (m' & e' & Hr & Hd' & He' & _).
      exists s, m', e'. rewrite float_of_int_signed, Hr.
      split; [reflexivity|]. apply Prim2SF_normal; [assumption|lia].
Qed.

(** Nothing divided by such a number is nothing. *)
Lemma ceildiv_zero_dividend (x : float) (n : Z) :
  int_of_float x = Return n -> n <> 0 -> ceildiv 0 n = Return 0.
Proof.
  intros Hx Hn. destruct (float_of_int_of_float x n Hx Hn) as (s & m & e & Hf & Hs).
  unfold ceildiv. rewrite Hf. cbn [mbind result_bind]. unfold truediv, float_of_int.
  cbn [binary_normalize mbind result_bind].
  replace (PrimFloat.eqb (SF2Prim (S754_finite s m e)) 0) with false
    by (rewrite FloatAxioms.eqb_spec, Hs; destruct s; reflexivity).
  cbn [mbind result_bind]. unfold ceil_of_float. rewrite div_spec, Hs.
  rewrite Prim2SF_SF2Prim by reflexivity. reflexivity.
Qed.


(** The same dividend fails the size proportion on an empty file: the
    division by [float(0)] is refused. *)
Lemma eager_length_empty_file (x : float) (n video_length : Z) :
  int_of_float x = Return n -> n <> 0 ->
  eager_length n 0 video_length = Raise ZeroDivisionError.
Proof.
  intros Hx Hn. destruct (float_of_int_of_float x n Hx Hn) as (s & m & e & Hf & _).
  unfold eager_length.
  change (float_of_int 0) with (Return (SF2Prim (S754_zero false))).
  cbn [mbind result_bind]. unfold truediv. rewrite Hf. cbn [mbind result_bind].
  replace (PrimFloat.eqb (SF2Prim (S754_zero false)) 0) with true
    by (vm_compute; reflexivity).
  reflexivity.
Qed.

(** A scaled target size is the [int] of a double. *)
Lemma scaled_filesize_int (o : Options) (target : Z) :
  scaled_filesize o = Return (Some target) -> exists x, int_of_float x = Return target.
Proof.
  unfold scaled_filesize. destruct (truthy (split_filesize o)); [|discriminate].
  destruct (float_of_int (default 0 (split_filesize o))) as [x|]; [|discriminate].
  cbn [mbind result_bind].
  destruct (int_of_float (PrimFloat.mul x (filesize_factor o))) as [n|] eqn:Hn;
    [|discriminate].
  cbn [mbind result_bind]. intros [= <-]. exists (PrimFloat.mul x (filesize_factor o)).
  assumption.
Qed.

End Binary64.

(** ** Arithmetic of [ceildiv] and [range] *)

Section Arithmetic.
Import Py Split.

(** The exact ceiling [(a + b - 1) / b] of [a / b] is the least [q] with
    [a <= b * q]. *)
Lemma ceildiv_is_ceiling (a b : Z) :
  0 < b -> b * ((a + b - 1) / b - 1) < a <= b * ((a + b - 1) / b).
Proof.
  intros Hb.
  pose proof (Z.div_mod (a + b - 1) b ltac:(lia)) as Hdm.
  pose proof (Z.mod_pos_bound (a + b - 1) b Hb) as Hr.
  lia.
Qed.

(** Beyond [2^53] the binary64 quotient is no longer the exact one
    ([float(2^53 + 1)] is [2^53]), and beyond the largest double the
    conversion fails, before the divisor is compared with zero. *)
Example ceildiv_beyond_exact_integers :
  ceildiv (2 ^ 53 + 1) (2 ^ 53) = Return 1
  /\ (2 ^ 53 + 1 + 2 ^ 53 - 1) / 2 ^ 53 = 2
  /\ ceildiv (2 ^ 53 + 1) 1 = Return (2 ^ 53)
  /\ ceildiv 25 (10 ^ 400) = Raise OverflowError
  /\ ceildiv (10 ^ 400) 0 = Raise OverflowError
  /\ ceildiv 10 0 = Raise ZeroDivisionError.
Proof. repeat split; vm_compute; reflexivity. Qed.

Lemma range_length (lo hi : Z) : length (range lo hi) = Z.to_nat (hi - lo).
Proof. unfold range. rewrite length_map, length_seq. reflexivity. Qed.

Lemma range_shift (A : Type) (f : Z -> A) (n : Z) :
  map f (range 0 n) = map (fun i => f (i - 1)) (range 1 (n + 1)).
Proof.
  unfold range. rewrite !map_map.
  replace (n + 1 - 1) with (n - 0) by lia.
  apply map_ext. intros i. f_equal. lia.
Qed.

Lemma range_nonpos (n : Z) : n <= 0 -> range 0 n = [].
Proof. intros Hn. unfold range. replace (Z.to_nat (n - 0)) with 0%nat by lia. reflexivity. Qed.

End Arithmetic.

Section Loops.
Import Py Split.

Lemma check_output_accepted (w : World) (c : Cut) :
  ffmpeg w c = true -> check_output w c = ([c], Return tt).
Proof. intros Hok. unfold check_output. rewrite Hok. reflexivity. Qed.

Lemma for_each_accepted (w : World) (A : Type) (f : A -> Cut) (l : list A) :
  (forall c, ffmpeg w c = true) ->
  for_each (fun x => check_output w (f x)) l = (map f l, Return tt).
Proof.
  intros Hok. induction l as [|x xs IH]; [reflexivity|].
  cbn [for_each map].
  rewrite (check_output_accepted w (f x) (Hok _)), bind_Return_trace, IH.
  reflexivity.
Qed.

Lemma split_nonempty (sep : ascii) (s : string) : split sep s <> [].
Proof.
  destruct s as [|c s]; cbn; [discriminate|].
  destruct (Ascii.eqb c sep); [discriminate|].
  destruct (split sep s); discriminate.
Qed.

Lemma last_item_split (sep : ascii) (s : string) :
  last_item (split sep s) = Return (default EmptyString (last (split sep s))).
Proof.
  unfold last_item. destruct (last (split sep s)) eqn:Hl; [reflexivity|].
  apply last_None in Hl. destruct (split_nonempty _ _ Hl).
Qed.

End Loops.

(** ** Properties of [split_by_seconds] *)

Section SplitBySeconds.
Import Py Split.

Variable w : World.
Variables (filename : string) (output_dir : option string) (vcodec acodec extra : string).

Lemma positive_length_passes_guard (split_length : Z) :
  0 < split_length -> truthy split_length && (split_length <=? 0) = false.
Proof. intros H. apply andb_false_iff. right. lia. Qed.

(** The run of the loop when the guards are passed and every call is
    accepted: one cut per [n] in [range(0, split_count)]. *)
Lemma split_by_seconds_run (split_length d split_count : Z) (video_length : option Z) :
  video_length_or_probe w filename video_length = Return d ->
  0 < split_length ->
  ceildiv d split_length = Return split_count ->
  split_count <> 1 ->
  (forall c, ffmpeg w c = true) ->
  split_by_seconds w filename split_length output_dir vcodec acodec extra video_length
  = (map (fun n =>
            {| cmd := ["ffmpeg"; "-i"; absolute w filename; "-vcodec"; vcodec;
                       "-acodec"; acodec] ++ shlex_split w extra;
               ss := PInt (split_length * n);
               t := PInt split_length;
               output_path :=
                 output_path_in
                   (if negb (truthy output_dir) then Some (default_output_dir w filename)
                    else output_dir)
                   (join "." (removelast (split "." (basename filename)))
                      +:+ "-" +:+ str_int (n + 1) +:+ "-of-" +:+ str_int split_count
                      +:+ "." +:+ default EmptyString (last (split "." (basename filename)))) |})
         (range 0 split_count),
     Return tt).
Proof.
  intros Hd Hlen Hceil Hcount Hok.
  unfold split_by_seconds.
  rewrite positive_length_passes_guard by assumption.
  rewrite Hd, bind_lift_Return.
  rewrite Hceil, bind_lift_Return.
  destruct (Z.eqb_spec split_count 1) as [Heq|_]; [contradiction|].
  rewrite last_item_split, bind_lift_Return.
  rewrite for_each_accepted by assumption.
  f_equal. apply map_ext. intros n. f_equal.
  destruct (Z.eqb_spec n 0) as [->|_]; f_equal; lia.
Qed.

(** C1 (amended). [d] is the whole number of seconds the function works
    with: the [video_length] it is given, else the probed duration
    truncated toward zero.  With [0 < d < 2^53], [0 < length < 2^53]
    (where the binary64 quotient of [ceildiv] is exact), a segment count
    [ceil(d / length)] other than 1 and a transcoder that accepts every
    call, the run issues exactly [ceil(d / length)] cuts; cut [i] (from
    1) starts at [(i - 1) * length], lasts [length] and is written to
    [<filebase>-<i>-of-<count>.<fileext>] in the output directory; the
    last cut reaches second [d]. *)
Theorem split_by_seconds_segments (split_length d : Z) (video_length : option Z) :
  video_length_or_probe w filename video_length = Return d ->
  0 < d < 2 ^ 53 ->
  0 < split_length < 2 ^ 53 ->
  (d + split_length - 1) / split_length <> 1 ->
  (forall c, ffmpeg w c = true) ->
  let split_count := (d + split_length - 1) / split_length in
  let dir := if negb (truthy output_dir) then Some (default_output_dir w filename)
             else output_dir in
  let filebase := join "." (removelast (split "." (basename filename))) in
  let fileext := default EmptyString (last (split "." (basename filename))) in
  let segments :=
    map (fun i =>
           {| cmd := ["ffmpeg"; "-i"; absolute w filename; "-vcodec"; vcodec;
                      "-acodec"; acodec] ++ shlex_split w extra;
              ss := PInt ((i - 1) * split_length);
              t := PInt split_length;
              output_path :=
                output_path_in dir
                  (filebase +:+ "-" +:+ str_int i +:+ "-of-" +:+ str_int split_count
                     +:+ "." +:+ fileext) |})
        (range 1 (split_count + 1)) in
  split_by_seconds w filename split_length output_dir vcodec acodec extra video_length
  = (segments, Return tt)
  /\ length segments = Z.to_nat split_count
  /\ split_length * (split_count - 1) < d <= split_length * split_count
  /\ (split_count - 1) * split_length + split_length >= d.
Proof.
  intros Hd Hdpos Hlen Hcount Hok split_count dir filebase fileext segments.
  pose proof (ceildiv_is_ceiling d split_length ltac:(lia)) as Hceil.
  fold split_count in Hceil.
  repeat split; try lia.
  - rewrite (split_by_seconds_run split_length d split_count)
      by first [assumption | lia | apply ceildiv_exact; lia].
    f_equal. subst segments.
    rewrite range_shift. apply map_ext. intros i.
    f_equal.
    + f_equal. lia.
    + replace (i - 1 + 1) with i by lia. reflexivity.
  - subst segments. rewrite length_map, range_length. f_equal. lia.
Qed.

(** The guard [if split_count == 1] as it is written, for
    [0 <= d < 2^53] and [0 < length < 2^53]: when the segment count
    [ceil(d / length)] is at most 1 no cut is issued, whatever the
    transcoder would answer; when it is exactly 1 the run ends with the
    exit that prints "Video length is less then the target split
    length." *)
Lemma split_by_seconds_trivial (split_length d : Z) (video_length : option Z) :
  video_length_or_probe w filename video_length = Return d ->
  0 <= d < 2 ^ 53 ->
  0 < split_length < 2 ^ 53 ->
  (d + split_length - 1) / split_length <= 1 ->
  fst (split_by_seconds w filename split_length output_dir vcodec acodec extra
         video_length) = []
  /\ ((d + split_length - 1) / split_length = 1 ->
      snd (split_by_seconds w filename split_length output_dir vcodec acodec extra
             video_length)
      = Raise (SystemExit ["Video length is less then the target split length."])).
Proof.
  intros Hd Hdpos Hlen Hcount.
  unfold split_by_seconds.
  rewrite positive_length_passes_guard by lia.
  rewrite Hd, bind_lift_Return.
  rewrite ceildiv_exact, bind_lift_Return by assumption.
  destruct (Z.eqb_spec ((d + split_length - 1) / split_length) 1) as [Heq|Hne].
  - split; reflexivity.
  - rewrite last_item_split, bind_lift_Return.
    rewrite range_nonpos by lia.
    split; [reflexivity | intros; contradiction].
Qed.

(** C7. A resolved length of exactly 0 passes the guard
    [if split_length and split_length <= 0] (0 is falsy), and the run
    ends in the division of [ceildiv], not in the exit that prints
    "Split length can't be 0". *)
Theorem split_by_seconds_zero_length_divides_by_zero :
  split_by_seconds w filename 0 output_dir vcodec acodec extra (Some 10)
  = ([], Raise ZeroDivisionError).
Proof. vm_compute. reflexivity. Qed.

(** A negative length is refused by that guard. *)
Lemma split_by_seconds_negative_length (split_length : Z) (video_length : option Z) :
  split_length < 0 ->
  split_by_seconds w filename split_length output_dir vcodec acodec extra video_length
  = ([], Raise (SystemExit ["Split length can't be 0"])).
Proof.
  intros H. unfold split_by_seconds.
  replace (truthy split_length && (split_length <=? 0)) with true; [reflexivity|].
  symmetry. apply andb_true_iff. split; [|lia].
  unfold truthy, truthy_Z. apply negb_true_iff. lia.
Qed.

End SplitBySeconds.

Section SplitBySecondsExamples.
Import Py Split Samples MoreSamples.

Lemma split_by_seconds_segments_witness :
  get_video_length split_world "dir/video.mp4" = Return 25
  /\ split_by_seconds split_world "dir/video.mp4" 10 None "copy" "copy" "" None
     = ([ {| cmd := ["ffmpeg"; "-i"; "/videos/dir/video.mp4"; "-vcodec"; "copy";
                     "-acodec"; "copy"];
             ss := PInt 0; t := PInt 10;
             output_path := "dir/Clip-video/video-1-of-3.mp4" |};
          {| cmd := ["ffmpeg"; "-i"; "/videos/dir/video.mp4"; "-vcodec"; "copy";
                     "-acodec"; "copy"];
             ss := PInt 10; t := PInt 10;
             output_path := "dir/Clip-video/video-2-of-3.mp4" |};
          {| cmd := ["ffmpeg"; "-i"; "/videos/dir/video.mp4"; "-vcodec"; "copy";
                     "-acodec"; "copy"];
             ss := PInt 20; t := PInt 10;
             output_path := "dir/Clip-video/video-3-of-3.mp4" |} ],
        Return tt).
Proof.
  split; [reflexivity|].
  refine (proj1 (split_by_seconds_segments split_world "dir/video.mp4" None "copy" "copy"
                   "" 10 25 None eq_refl _ _ _ (fun _ => eq_refl)));
    [vm_compute; split; reflexivity | vm_compute; split; reflexivity
    | vm_compute; discriminate].
Defined.

(** C1 as stated fails in three places.  Where the count is 1: a video
    of 8 seconds cut in pieces of 10 has [ceil(8 / 10) = 1], and the run
    issues no cut.  Where the duration is not whole: 25.7 seconds in
    pieces of 5 are [ceil(25.7 / 5) = ceil(257 / 50) = 6] pieces, the run
    issues 5 and the last one ends at second 25.  Beyond the integers a
    double holds: [2^53 + 1] seconds in pieces of [2^53] are 2 pieces,
    the binary64 count is 1 and the run issues no cut. *)
Lemma split_by_seconds_single_segment_issues_none :
  (0 < 8 /\ 0 < 10 /\ ceildiv 8 10 = Return 1
   /\ split_by_seconds split_world "dir/video.mp4" 10 None "copy" "copy" "" (Some 8)
      = ([], Raise (SystemExit ["Video length is less then the target split length."]))
   /\ length (fst (split_by_seconds split_world "dir/video.mp4" 10 None "copy" "copy" ""
                     (Some 8))) <> Z.to_nat 1)
  /\ (ffprobe_duration split_world "dir/video.mp4" = Some 25.7%float
      /\ (257 + 50 - 1) / 50 = 6
      /\ length (fst (split_by_seconds split_world "dir/video.mp4" 5 None "copy" "copy" ""
                        None)) = Z.to_nat 5
      /\ map (fun c => (ss c, t c))
             (fst (split_by_seconds split_world "dir/video.mp4" 5 None "copy" "copy" ""
                     None))
         = [(PInt 0, PInt 5); (PInt 5, PInt 5); (PInt 10, PInt 5); (PInt 15, PInt 5);
            (PInt 20, PInt 5)])
  /\ ((2 ^ 53 + 1 + 2 ^ 53 - 1) / 2 ^ 53 = 2
      /\ ceildiv (2 ^ 53 + 1) (2 ^ 53) = Return 1
      /\ split_by_seconds split_world "dir/video.mp4" (2 ^ 53) None "copy" "copy" ""
           (Some (2 ^ 53 + 1))
         = ([], Raise (SystemExit ["Video length is less then the target split length."]))).
Proof. repeat split; try lia; vm_compute; try reflexivity; discriminate. Qed.

Lemma split_by_seconds_trivial_witness :
  split_by_seconds split_world "dir/video.mp4" 10 None "copy" "copy" "" (Some 8)
  = ([], Raise (SystemExit ["Video length is less then the target split length."])).
Proof.
  pose proof (split_by_seconds_trivial split_world "dir/video.mp4" None "copy" "copy" ""
                10 8 (Some 8) eq_refl ltac:(vm_compute; split; [discriminate|reflexivity])
                ltac:(vm_compute; split; reflexivity) ltac:(vm_compute; discriminate))
    as [Htrace Hexit].
  specialize (Hexit eq_refl).
  destruct (split_by_seconds split_world "dir/video.mp4" 10 None "copy" "copy" "" (Some 8))
    as [tr r].
  cbn in Htrace, Hexit. rewrite Htrace, Hexit. reflexivity.
Defined.

(** C6. The code misses the claim where the count is 0: a clip of half
    a second is probed as [int(0.5) = 0] seconds, the count is
    [ceildiv(0, 10) = 0] where [ceil(0.5 / 10)] is 1, the guard
    [if split_count == 1] does not fire although its message ("Video
    length is less then the target split length.") describes this very
    clip, the loop over [range(0, 0)] is empty, and the run returns
    normally: no exit, no message, no cut.  So does [main] with
    [-f short.mp4 -s 10]. *)
Theorem split_by_seconds_zero_segments_returns :
  ffprobe_duration split_world "short.mp4" = Some 0.5%float
  /\ get_video_length split_world "short.mp4" = Return 0
  /\ ceildiv 0 10 = Return 0
  /\ split_by_seconds split_world "short.mp4" 10 None "copy" "copy" "" None
     = ([], Return tt)
  /\ main split_world (by_length "short.mp4" 10) = ([], Return tt).
Proof. repeat split; vm_compute; reflexivity. Qed.

(** From the command line a length of 0 never reaches the guard of
    [split_by_seconds]: it counts as no length, and [main] prints the
    help. *)
Lemma main_zero_length_prints_help :
  main split_world by_zero_length = ([], Raise HelpExit).
Proof. vm_compute. reflexivity. Qed.

End SplitBySecondsExamples.

(** ** Resolution of the segment length in [main] *)

Section ResolveLength.
Import Py Split.

Variable w : World.

Lemma truthy_Some (z : Z) : truthy (Some z) = truthy z.
Proof. reflexivity. Qed.

(** Reduce the binds and the projections, keep [truthy] folded. *)
Ltac step :=
  cbn [mbind result_bind negb andb default from_option id is_even
       split_length split_chunks set_split_length set_split_chunks];
  rewrite ?truthy_Some.

Lemma truthy_Z_true (z : Z) : truthy z = true <-> z <> 0.
Proof. unfold truthy, truthy_Z. rewrite negb_true_iff. lia. Qed.


(** C8 (amended). With the [even] strategy, a target
    [target = int(requested * factor)] (the binary64 product, truncated),
    a file of [size] bytes and [d], the probed duration truncated to
    whole seconds, all three positive and below [2^53] (where the
    binary64 quotients of [ceildiv] are exact): the chunk count is
    [ceil(size / target)], the resolved length is [ceil(d / chunk_count)],
    and when [chunk_count] divides [d] the segment count that
    [split_by_seconds] derives from that length is [chunk_count] (and so
    is the number of cuts, unless it is 1). *)
Theorem even_filesize_chunk_count (o : Options) (requested target d size : Z)
    (x : float) :
  truthy (split_length o) = false ->
  split_filesize o = Some requested ->
  requested <> 0 ->
  chunk_strategy o = even ->
  float_of_int requested = Return x ->
  int_of_float (PrimFloat.mul x (filesize_factor o)) = Return target ->
  0 < target < 2 ^ 53 ->
  get_video_length w (default EmptyString (filename o)) = Return d ->
  0 < d < 2 ^ 53 ->
  st_size w (default EmptyString (filename o)) = Some size ->
  0 < size < 2 ^ 53 ->
  let chunk_count := (size + target - 1) / target in
  let length := (d + chunk_count - 1) / chunk_count in
  ceildiv size target = Return chunk_count
  /\ target * (chunk_count - 1) < size <= target * chunk_count
  /\ ceildiv d chunk_count = Return length
  /\ chunk_count * (length - 1) < d <= chunk_count * length
  /\ resolve_split_length w o
     = Return (set_split_length length (set_split_chunks chunk_count o), Some d)
  /\ ((chunk_count | d) ->
      ceildiv d length = Return chunk_count
      /\ (chunk_count <> 1 ->
          truthy (manifest o) = false ->
          truthy (filename o) = true ->
          (forall c, ffmpeg w c = true) ->
          List.length (fst (main w o)) = Z.to_nat chunk_count
          /\ snd (main w o) = Return tt)).
Proof.
  intros Hlen Hreq Hreq0 Heven Hx Htarget Htpos Hd Hdpos Hsize Hspos chunk_count length.
  pose proof (ceildiv_is_ceiling size target ltac:(lia)) as Hc. fold chunk_count in Hc.
  assert (Hcpos : 0 < chunk_count < 2 ^ 53) by nia.
  pose proof (ceildiv_is_ceiling d chunk_count ltac:(lia)) as Hl. fold length in Hl.
  assert (Hlpos : 0 < length < 2 ^ 53) by nia.
  assert (Hcc : ceildiv size target = Return chunk_count) by (apply ceildiv_exact; lia).
  assert (Hcl : ceildiv d chunk_count = Return length) by (apply ceildiv_exact; lia).
  assert (Hscaled : scaled_filesize o = Return (Some target)).
  { unfold scaled_filesize. rewrite Hreq, truthy_Some.
    apply truthy_Z_true in Hreq0. rewrite Hreq0.
    cbn [default from_option id]. rewrite Hx. cbn [mbind result_bind].
    rewrite Htarget. reflexivity. }
  assert (Hres : resolve_split_length w o
                 = Return (set_split_length length (set_split_chunks chunk_count o), Some d)).
  { assert (Htc : truthy chunk_count = true) by (apply truthy_Z_true; lia).
    assert (Htl : truthy length = true) by (apply truthy_Z_true; lia).
    assert (Htt : truthy target = true) by (apply truthy_Z_true; lia).
    unfold resolve_split_length. rewrite Hlen, Hd, Hsize, Hscaled. step.
    rewrite Htt, Heven. step. rewrite Hcc. step.
    rewrite Htc. step. rewrite Hcl. step.
    rewrite Htl. reflexivity. }
  split; [assumption|].
  split; [assumption|].
  split; [assumption|].
  split; [assumption|].
  split; [assumption|].
  intros [k Hk].
  assert (Hlk : length = k).
  { subst length. symmetry.
    apply (Z.div_unique_pos (d + chunk_count - 1) chunk_count k (chunk_count - 1)); lia. }
  assert (Hcount : (d + length - 1) / length = chunk_count).
  { symmetry.
    apply (Z.div_unique_pos (d + length - 1) length chunk_count (length - 1)); nia. }
  assert (Hcd : ceildiv d length = Return chunk_count).
  { rewrite ceildiv_exact by lia. f_equal. assumption. }
  split; [assumption|].
  - intros Hne Hman Hfile Hok.
    unfold main. rewrite Hman, Hfile. cbn [negb].
    rewrite Hres, bind_lift_Return.
    cbn [split_length set_split_length]. rewrite truthy_Some.
    assert (Hlt : truthy length = true) by (apply truthy_Z_true; lia).
    rewrite Hlt. cbn [negb default from_option id].
    rewrite (split_by_seconds_run w _ _ _ _ _ length d chunk_count)
      by first [assumption | lia
               | unfold video_length_or_probe; rewrite truthy_Some;
                 replace (truthy d) with true by (symmetry; apply truthy_Z_true; lia);
                 reflexivity].
    cbn [fst snd]. rewrite length_map, range_length.
    split; [f_equal; lia | reflexivity].
Qed.

End ResolveLength.

Section ResolveLengthExamples.
Import Py Split Samples MoreSamples.



Lemma even_filesize_chunk_count_witness :
  resolve_split_length split_world by_size_even
  = Return (set_split_length 5 (set_split_chunks 5 by_size_even), Some 25)
  /\ ceildiv 25 5 = Return 5
  /\ List.length (fst (main split_world by_size_even)) = 5%nat.
Proof.
  pose proof (even_filesize_chunk_count split_world by_size_even 2106 2000 25 10000
                (SF2Prim (binary_normalize prec emax 2106 0 false))
                eq_refl eq_refl ltac:(lia) eq_refl eq_refl eq_refl
                ltac:(vm_compute; split; reflexivity) eq_refl
                ltac:(vm_compute; split; reflexivity) eq_refl
                ltac:(vm_compute; split; reflexivity)) as H.
  cbv zeta in H.
  destruct H as (_ & _ & _ & _ & Hres & Hdiv).
  destruct (Hdiv (ex_intro _ 5 eq_refl)) as [Hcount Hmain].
  destruct (Hmain ltac:(vm_compute; discriminate) eq_refl eq_refl (fun _ => eq_refl))
    as [Hcuts _].
  exact (conj Hres (conj Hcount Hcuts)).
Defined.

(** C8 as stated fails in two places.  Beyond the integers a double
    holds: a file of [2^53 + 1] bytes with a target of [2^53] bytes has
    [ceil(size / target) = 2], and the chunk count the code computes is
    1.  Where the duration is not whole: 25.7 seconds in 5 chunks give
    [ceil(25.7 / 5) = ceil(257 / 50) = 6], and the resolved length is
    [ceil(25 / 5) = 5]. *)
Lemma even_filesize_chunk_count_inexact :
  (chunk_strategy by_size_2_53 = even
   /\ scaled_filesize by_size_2_53 = Return (Some (2 ^ 53))
   /\ st_size huge_file_world "dir/video.mp4" = Some (2 ^ 53 + 1)
   /\ (2 ^ 53 + 1 + 2 ^ 53 - 1) / 2 ^ 53 = 2
   /\ resolve_split_length huge_file_world by_size_2_53
      = Return (set_split_length 25 (set_split_chunks 1 by_size_2_53), Some 25)
   /\ split_chunks (set_split_length 25 (set_split_chunks 1 by_size_2_53)) <> Some 2)
  /\ (ffprobe_duration split_world "dir/video.mp4" = Some 25.7%float
      /\ (257 + 50 - 1) / 50 = 6
      /\ resolve_split_length split_world by_size_even
         = Return (set_split_length 5 (set_split_chunks 5 by_size_even), Some 25)
      /\ split_length (set_split_length 5 (set_split_chunks 5 by_size_even)) <> Some 6).
Proof. repeat split; try (vm_compute; reflexivity); vm_compute; discriminate. Qed.

End ResolveLengthExamples.

(** ** String facts used by the manifest interpreter *)

Section Strings.
Import Py.

Lemma append_cons (x : ascii) (a b : string) : String x a +:+ b = String x (a +:+ b).
Proof. reflexivity. Qed.

Lemma append_assoc (a b c : string) : (a +:+ b) +:+ c = a +:+ (b +:+ c).
Proof.
  induction a as [|x a IH]; [reflexivity|].
  rewrite !append_cons, IH. reflexivity.
Qed.

Lemma prefix_refl (s : string) : String.prefix s s = true.
Proof.
  induction s as [|c s IH]; cbn; [reflexivity|].
  destruct (ascii_dec c c); [assumption | contradiction].
Qed.

(** A string is found in whatever ends with it. *)
Lemma contains_suffix (needle before : string) :
  contains needle (before +:+ needle) = true.
Proof.
  induction before as [|c before IH].
  - change (EmptyString +:+ needle) with needle.
    destruct needle; cbn [contains]; rewrite prefix_refl; reflexivity.
  - rewrite append_cons. cbn [contains]. rewrite IH. apply orb_true_r.
Qed.

(** [split sep s = [s]] says that [sep] does not occur in [s]. *)
Lemma split_append_sep (sep : ascii) (a b : string) :
  split sep a = [a] -> split sep (a +:+ String sep b) = a :: split sep b.
Proof.
  induction a as [|c a IH]; intros Ha.
  - change (EmptyString +:+ String sep b) with (String sep b).
    cbn. rewrite Ascii.eqb_refl. reflexivity.
  - rewrite append_cons. cbn in Ha |- *. destruct (Ascii.eqb c sep); [discriminate|].
    destruct (split sep a) as [|h t] eqn:Hsplit; [destruct (split_nonempty _ _ Hsplit)|].
    injection Ha as -> ->. rewrite IH by reflexivity. reflexivity.
Qed.

Lemma split_append_free (sep : ascii) (a b : string) :
  split sep a = [a] -> split sep b = [b] -> split sep (a +:+ b) = [a +:+ b].
Proof.
  induction a as [|c a IH]; intros Ha Hb; [assumption|].
  rewrite append_cons. cbn in Ha |- *. destruct (Ascii.eqb c sep); [discriminate|].
  destruct (split sep a) as [|h t] eqn:Hsplit; [destruct (split_nonempty _ _ Hsplit)|].
  injection Ha as -> ->. rewrite IH by (reflexivity || assumption). reflexivity.
Qed.

Lemma split_pieces_free (sep : ascii) (s x : string) :
  In x (split sep s) -> split sep x = [x].
Proof.
  revert x. induction s as [|c s IH]; intros x Hx.
  - cbn in Hx. destruct Hx as [<-|[]]. reflexivity.
  - cbn in Hx. destruct (Ascii.eqb c sep) eqn:Hc.
    + destruct Hx as [<-|Hx]; [reflexivity | apply IH; assumption].
    + destruct (split sep s) as [|h t] eqn:Hsplit; [destruct (split_nonempty _ _ Hsplit)|].
      destruct Hx as [<-|Hx].
      * cbn. rewrite Hc, (IH h) by (left; reflexivity). reflexivity.
      * apply IH. right. assumption.
Qed.

Lemma last_split_free (sep : ascii) (s : string) :
  split sep (default EmptyString (last (split sep s)))
  = [default EmptyString (last (split sep s))].
Proof.
  destruct (last (split sep s)) as [x|] eqn:Hlast; [|reflexivity].
  apply (split_pieces_free sep s). apply list_elem_of_In.
  apply last_Some_elem_of. assumption.
Qed.

Lemma digits_free_of_dot (d : Decimal.uint) :
  split "." (NilEmpty.string_of_uint d) = [NilEmpty.string_of_uint d].
Proof. induction d; cbn; try rewrite IHd; reflexivity. Qed.

Lemma str_int_free_of_dot (z : Z) : split "." (str_int z) = [str_int z].
Proof.
  unfold str_int, NilZero.string_of_int, NilZero.string_of_uint.
  destruct (Z.to_int z) as [d|d]; destruct d; cbn;
    try rewrite digits_free_of_dot; reflexivity.
Qed.

End Strings.

(** ** Properties of [split_by_manifest] *)

Section Manifest.
Import Py Split.

Variable w : World.

Lemma bind_mret {E A B : Type} (a : A) (f : A -> run E B) : (mret a ≫= f) = f a.
Proof. apply (bind_lift_Return a f). Qed.

Lemma except_KeyError_check_output (manifest_type : string) (c : Cut) :
  except_KeyError manifest_type (check_output w c) = check_output w c.
Proof. unfold check_output. destruct (ffmpeg w c); reflexivity. Qed.

Lemma getitem_Some (d : gmap string value) (key : string) (x : value) :
  d !! key = Some x -> getitem (PDict d) key = Return x.
Proof. intros H. unfold getitem. rewrite H. reflexivity. Qed.

Lemma getitem_None (d : gmap string value) (key : string) :
  d !! key = None -> getitem (PDict d) key = Raise (KeyError key).
Proof. intros H. unfold getitem. rewrite H. reflexivity. Qed.

Lemma get_dict (d : gmap string value) (key : string) :
  get (PDict d) key = Return (default PNone (d !! key)).
Proof. reflexivity. Qed.

(** One pass of the loop on an entry that has a start, a name and,
    through [end_time] or [length], a duration. *)
Lemma split_entry_cut (manifest_type fileext : string) (output_dir : option string)
    (split_cmd : list string) (entry : gmap string value) (start duration : value)
    (rename_to : string) :
  entry !! "start_time" = Some start ->
  entry !! "rename_to" = Some (PStr rename_to) ->
  (if negb (truthy (default PNone (entry !! "end_time")))
   then getitem (PDict entry) "length"
   else Return (default PNone (entry !! "end_time"))) = Return duration ->
  split_entry w manifest_type fileext output_dir split_cmd (PDict entry)
  = check_output w
      {| cmd := split_cmd; ss := start; t := duration;
         output_path :=
           output_path_in output_dir
             (strip_extension fileext rename_to +:+ "." +:+ fileext) |}.
Proof.
  intros Hstart Hrename Hduration.
  unfold split_entry.
  rewrite (getitem_Some _ _ _ Hstart), bind_lift_Return.
  rewrite get_dict, bind_lift_Return.
  rewrite (getitem_Some _ _ _ Hrename).
  destruct (negb (truthy (default PNone (entry !! "end_time")))).
  - rewrite Hduration, bind_lift_Return.
    cbn [mbind result_bind as_str].
    rewrite bind_lift_Return. apply except_KeyError_check_output.
  - injection Hduration as <-. rewrite bind_mret.
    cbn [mbind result_bind as_str].
    rewrite bind_lift_Return. apply except_KeyError_check_output.
Qed.

(** C3 (amended). The duration handed to the transcoder is the entry's
    [end_time] when that is present and truthy, and only otherwise its
    [length]; an entry with neither is refused as an incorrect format.
    The value is passed as it is: no [end_time - start_time]. *)
Theorem flat_entry_duration (manifest_type fileext : string) (output_dir : option string)
    (split_cmd : list string) (entry : gmap string value) (start : value)
    (rename_to : string) :
  entry !! "start_time" = Some start ->
  entry !! "rename_to" = Some (PStr rename_to) ->
  let end_time := default PNone (entry !! "end_time") in
  let cut duration :=
    {| cmd := split_cmd; ss := start; t := duration;
       output_path :=
         output_path_in output_dir
           (strip_extension fileext rename_to +:+ "." +:+ fileext) |} in
  (truthy end_time = true ->
   split_entry w manifest_type fileext output_dir split_cmd (PDict entry)
   = check_output w (cut end_time))
  /\ (truthy end_time = false ->
      forall length, entry !! "length" = Some length ->
      split_entry w manifest_type fileext output_dir split_cmd (PDict entry)
      = check_output w (cut length))
  /\ (truthy end_time = false ->
      entry !! "length" = None ->
      split_entry w manifest_type fileext output_dir split_cmd (PDict entry)
      = ([], Raise (SystemExit (incorrect_format manifest_type "length")))).
Proof.
  intros Hstart Hrename end_time cut.
  split; [|split].
  - intros Htruthy. apply split_entry_cut; try assumption.
    fold end_time. rewrite Htruthy. reflexivity.
  - intros Hfalsy length Hlength. apply split_entry_cut; try assumption.
    fold end_time. rewrite Hfalsy. apply getitem_Some. assumption.
  - intros Hfalsy Hlength.
    unfold split_entry.
    rewrite (getitem_Some _ _ _ Hstart), bind_lift_Return.
    rewrite get_dict, bind_lift_Return.
    fold end_time. rewrite Hfalsy. cbn [negb].
    rewrite (getitem_None _ _ Hlength). reflexivity.
Qed.

End Manifest.

Section StructuredManifest.
Import Py Split.

Variable w : World.

Lemma last_item_Some {A : Type} (l : list A) (x : A) :
  last l = Some x -> last_item l = Return x.
Proof. intros H. unfold last_item. rewrite H. reflexivity. Qed.

(** The entry that lines 56-60 build for a clip. *)
Lemma clip_config_generated (filename : string) (i : Z) (clip : gmap string value) :
  is_Some (clip !! "start_time") /\ is_Some (clip !! "length") ->
  clip_config filename (i, PDict clip)
  = Return (PDict (<["start_time" := default PNone (clip !! "start_time")]>
                     (<["length" := default PNone (clip !! "length")]>
                        (<["rename_to" :=
                             PStr ("clip-" +:+ str_int i +:+ "."
                                   +:+ default EmptyString (last (split "." filename)))]>
                           ∅)))).
Proof.
  intros [[start Hstart] [length Hlength]].
  unfold clip_config. rewrite last_item_split.
  cbn [mbind result_bind].
  rewrite (getitem_Some _ _ _ Hstart), (getitem_Some _ _ _ Hlength), Hstart, Hlength.
  reflexivity.
Qed.

Lemma mapM_clip_config (filename : string) (clips : list (gmap string value)) (i : Z) :
  Forall (fun clip => is_Some (clip !! "start_time") /\ is_Some (clip !! "length")) clips ->
  mapM (clip_config filename) (enumerate i (map PDict clips))
  = Return (map (fun indexed : Z * gmap string value =>
                   PDict (<["start_time" := default PNone (indexed.2 !! "start_time")]>
                            (<["length" := default PNone (indexed.2 !! "length")]>
                               (<["rename_to" :=
                                    PStr ("clip-" +:+ str_int indexed.1 +:+ "."
                                          +:+ default EmptyString
                                                (last (split "." filename)))]>
                                  ∅))))
               (enumerate i clips)).
Proof.
  intros Hclips. revert i.
  induction Hclips as [|clip clips Hclip _ IH]; intros i; [reflexivity|].
  cbn [map enumerate mapM]. rewrite (clip_config_generated filename i clip Hclip).
  cbn [mbind result_bind].
  change ((fix go (l : list (Z * value)) : result (list value) :=
             match l with
             | [] => mret []
             | x :: l0 => y ← clip_config filename x; k ← go l0; mret (y :: k)
             end) (enumerate (i + 1) (map PDict clips)))
    with (mapM (clip_config filename) (enumerate (i + 1) (map PDict clips))).
  rewrite IH. reflexivity.
Qed.

(** The generated name keeps its form through [strip_extension]. *)
Lemma strip_extension_generated (fileext : string) (i : Z) :
  split "." fileext = [fileext] ->
  strip_extension fileext ("clip-" +:+ str_int i +:+ "." +:+ fileext) +:+ "." +:+ fileext
  = "clip-" +:+ str_int i +:+ "." +:+ fileext.
Proof.
  intros Hext. unfold strip_extension.
  replace ("clip-" +:+ str_int i +:+ "." +:+ fileext)
    with (("clip-" +:+ str_int i +:+ ".") +:+ fileext) at 1
    by (rewrite !append_assoc; reflexivity).
  rewrite contains_suffix.
  replace ("clip-" +:+ str_int i +:+ "." +:+ fileext)
    with (("clip-" +:+ str_int i) +:+ String "." fileext) at 1
    by (rewrite !append_assoc; reflexivity).
  rewrite split_append_sep, Hext
    by (apply split_append_free; [reflexivity | apply str_int_free_of_dot]).
  cbn [removelast join String.concat].
  rewrite !append_assoc. reflexivity.
Qed.

Lemma for_each_map_accepted (A : Type) (body : value -> run Cut unit)
    (entry : A -> value) (cut : A -> Cut) (l : list A) :
  (forall c, ffmpeg w c = true) ->
  (forall x, body (entry x) = check_output w (cut x)) ->
  for_each body (map entry l) = (map cut l, Return tt).
Proof.
  intros Hok Hbody. induction l as [|x xs IH]; [reflexivity|].
  cbn [for_each map].
  rewrite Hbody, (check_output_accepted w (cut x) (Hok _)), bind_Return_trace, IH.
  reflexivity.
Qed.

(** C5. A structured JSON manifest: the file that is cut is the
    caller's when one is given and [input_file] otherwise, and
    [output_clips[i]] becomes the cut with the clip's [start_time] and
    [length], written to [clip-<i>.<ext>] (in the output directory) with
    [<ext>] what follows the last dot of that file name. *)
Theorem structured_manifest_descriptors (filename : option string) (manifest : string)
    (output_dir : option string) (vcodec acodec extra : string)
    (d : gmap string value) (input_file : string) (clips : list (gmap string value)) :
  path_exists w manifest = true ->
  last (split "." manifest) = Some "json" ->
  json_load w manifest = Some (PDict d) ->
  d !! "input_file" = Some (PStr input_file) ->
  d !! "output_clips" = Some (PList (map PDict clips)) ->
  Forall (fun clip => is_Some (clip !! "start_time") /\ is_Some (clip !! "length")) clips ->
  (forall c, ffmpeg w c = true) ->
  let resolved := if truthy filename then default EmptyString filename else input_file in
  let fileext := default EmptyString (last (split "." resolved)) in
  let dir := if negb (truthy output_dir) && truthy resolved
             then Some (default_output_dir w resolved) else output_dir in
  split_by_manifest w filename manifest output_dir vcodec acodec extra
  = (map (fun indexed : Z * gmap string value =>
            {| cmd := ["ffmpeg"; "-i"; absolute w resolved; "-vcodec"; vcodec;
                       "-acodec"; acodec; "-y"] ++ shlex_split w extra;
               ss := default PNone (indexed.2 !! "start_time");
               t := default PNone (indexed.2 !! "length");
               output_path :=
                 output_path_in dir
                   ("clip-" +:+ str_int indexed.1 +:+ "." +:+ fileext) |})
         (enumerate 0 clips),
     Return tt).
Proof.
  intros Hexists Htype Hjson Hinput Hclips Hwell Hok resolved fileext dir.
  unfold split_by_manifest.
  rewrite Hexists. cbn [negb].
  rewrite (last_item_Some _ _ Htype), bind_lift_Return.
  cbn [String.eqb Ascii.eqb Bool.eqb]. rewrite Hjson, Hinput, Hclips.
  rewrite !bool_decide_eq_true_2 by eauto. cbn [andb].
  assert (Hresolved :
            (if negb (truthy filename)
             then lift (getitem (PDict d) "input_file" ≫= as_str)
             else mret (default EmptyString filename))
            = (lift (Return resolved) : run Cut string)).
  { subst resolved. rewrite (getitem_Some _ _ _ Hinput).
    destruct (truthy filename); reflexivity. }
  rewrite Hresolved, bind_lift_Return.
  rewrite (getitem_Some _ _ _ Hclips). cbn [mbind result_bind iterate].
  rewrite bind_lift_Return.
  rewrite (mapM_clip_config resolved clips 0 Hwell), bind_lift_Return.
  rewrite !bind_mret. rewrite bind_lift_Return.
  rewrite last_item_split, bind_lift_Return.
  cbn [iterate]. rewrite bind_lift_Return.
  fold fileext.
  change (truthy (Some resolved)) with (truthy resolved). fold dir.
  apply for_each_map_accepted; [assumption|].
  intros [i clip]. cbn [fst snd].
  rewrite (split_entry_cut w "json" fileext dir _ _ (default PNone (clip !! "start_time"))
             (default PNone (clip !! "length"))
             ("clip-" +:+ str_int i +:+ "." +:+ fileext)).
  - rewrite strip_extension_generated by apply last_split_free. reflexivity.
  - apply lookup_insert_eq.
  - rewrite lookup_insert_ne, lookup_insert_ne by discriminate. apply lookup_insert_eq.
  - rewrite lookup_insert_ne, lookup_insert_ne, lookup_insert_ne, lookup_empty by discriminate.
    cbn [default from_option truthy truthy_value negb].
    apply getitem_Some.
    rewrite lookup_insert_ne by discriminate. apply lookup_insert_eq.
Qed.

End StructuredManifest.

Section ManifestExamples.
Import Py Split Samples.

Lemma flat_entry_duration_witness :
  split_entry split_world "json" "mp4" (Some "out") [] (PDict entry_with_both_bounds)
  = check_output split_world
      {| cmd := []; ss := PInt 0; t := PInt 10; output_path := "out/intro.mp4" |}.
Proof.
  exact (proj1 (flat_entry_duration split_world "json" "mp4" (Some "out") []
                  entry_with_both_bounds (PInt 0) "intro" eq_refl eq_refl) eq_refl).
Defined.

(** C3 as stated fails on an entry that gives both bounds: [length] is
    present (5), and the duration handed over is [end_time] (10). *)
Lemma entry_with_both_bounds_passes_end_time :
  entry_with_both_bounds !! "length" = Some (PInt 5)
  /\ entry_with_both_bounds !! "end_time" = Some (PInt 10)
  /\ split_entry split_world "json" "mp4" (Some "out") [] (PDict entry_with_both_bounds)
     = ([ {| cmd := []; ss := PInt 0; t := PInt 10; output_path := "out/intro.mp4" |} ],
        Return tt)
  /\ PInt 10 <> PInt 5.
Proof. repeat split; try reflexivity. discriminate. Qed.

Lemma structured_manifest_descriptors_witness :
  split_by_manifest manifest_world None "clips.json" None "copy" "copy" ""
  = ([ {| cmd := ["ffmpeg"; "-i"; "/videos/in.mp4"; "-vcodec"; "copy"; "-acodec";
                  "copy"; "-y"];
          ss := PInt 0; t := PInt 5; output_path := "Clip-in/clip-0.mp4" |};
       {| cmd := ["ffmpeg"; "-i"; "/videos/in.mp4"; "-vcodec"; "copy"; "-acodec";
                  "copy"; "-y"];
          ss := PInt 5; t := PInt 5; output_path := "Clip-in/clip-1.mp4" |} ],
     Return tt).
Proof.
  apply (structured_manifest_descriptors manifest_world None "clips.json" None
           "copy" "copy" "" structured_manifest "in.mp4" example_clips);
    try reflexivity.
  unfold example_clips.
  repeat (apply List.Forall_cons; [split; eexists; reflexivity|]). apply List.Forall_nil.
Defined.

(** A file name given by the caller wins over [input_file]. *)
Lemma structured_manifest_caller_filename :
  split_by_manifest manifest_world (Some "dir/video.mp4") "clips.json" (Some "out")
    "copy" "copy" ""
  = ([ {| cmd := ["ffmpeg"; "-i"; "/videos/dir/video.mp4"; "-vcodec"; "copy";
                  "-acodec"; "copy"; "-y"];
          ss := PInt 0; t := PInt 5; output_path := "out/clip-0.mp4" |};
       {| cmd := ["ffmpeg"; "-i"; "/videos/dir/video.mp4"; "-vcodec"; "copy";
                  "-acodec"; "copy"; "-y"];
          ss := PInt 5; t := PInt 5; output_path := "out/clip-1.mp4" |} ],
     Return tt).
Proof. reflexivity. Qed.

(** C9. [fileext in filebase] is a substring test.  For the source
    [dir/video.mp4], [rename_to = "mp4_intro"] contains [mp4], has no
    dot, and loses its whole name; [rename_to = "draft.mp4.v2"] loses
    [.v2] and comes out with the extension twice. *)
Theorem rename_to_containing_extension_is_mangled :
  strip_extension "mp4" "mp4_intro" = EmptyString
  /\ strip_extension "mp4" "draft.mp4.v2" = "draft.mp4"
  /\ split_by_manifest manifest_world (Some "dir/video.mp4") "flat.json" None
       "copy" "copy" ""
     = ([ {| cmd := ["ffmpeg"; "-i"; "/videos/dir/video.mp4"; "-vcodec"; "copy";
                     "-acodec"; "copy"; "-y"];
             ss := PInt 0; t := PInt 5; output_path := "dir/Clip-video/.mp4" |};
          {| cmd := ["ffmpeg"; "-i"; "/videos/dir/video.mp4"; "-vcodec"; "copy";
                     "-acodec"; "copy"; "-y"];
             ss := PInt 5; t := PInt 5;
             output_path := "dir/Clip-video/draft.mp4.mp4" |} ],
        Return tt).
Proof. repeat split. Qed.

(** A name in which the extension does not occur is kept as it is. *)
Lemma strip_extension_absent (fileext filebase : string) :
  contains fileext filebase = false -> strip_extension fileext filebase = filebase.
Proof. intros H. unfold strip_extension. rewrite H. reflexivity. Qed.

End ManifestExamples.

(** ** Properties of [check_videos_compatibility] *)

Section Compatibility.
Import Py Merge.

Lemma probe_all_probed (w : World) (video_files : list string) (infos : list VideoInfo) :
  map (get_video_info w) video_files = map Some infos ->
  probe_all w video_files = inr infos.
Proof.
  revert infos. induction video_files as [|f fs IH]; intros [|info infos] Hmap;
    try discriminate; [reflexivity|].
  cbn in Hmap. injection Hmap as Hinfo Hrest.
  cbn [probe_all]. rewrite Hinfo, (IH infos Hrest). reflexivity.
Qed.

Lemma first_mismatch_none (reference : VideoInfo) (rest : list VideoInfo) :
  Forall (fun info => codec_name info = codec_name reference
                      /\ width info = width reference
                      /\ height info = height reference) rest ->
  first_mismatch reference rest = None.
Proof.
  induction 1 as [|info rest (Hc & Hw & Hh) _ IH]; [reflexivity|].
  cbn [first_mismatch].
  rewrite !bool_decide_eq_false_2 by (intros Hne; apply Hne; assumption).
  cbn [orb]. assumption.
Qed.

Lemma first_mismatch_width (reference bad : VideoInfo) (before after : list VideoInfo) :
  Forall (fun info => codec_name info = codec_name reference
                      /\ width info = width reference
                      /\ height info = height reference) before ->
  codec_name bad = codec_name reference ->
  width bad <> width reference ->
  first_mismatch reference (before ++ bad :: after)
  = Some ("Incompatible resolution: " +:+ fmt_int (width reference) +:+ "x"
            +:+ fmt_int (height reference) +:+ " vs " +:+ fmt_int (width bad)
            +:+ "x" +:+ fmt_int (height bad)).
Proof.
  intros Hbefore Hcodec Hwidth.
  induction Hbefore as [|info before (Hc & Hw & Hh) _ IH].
  - cbn [app first_mismatch].
    rewrite bool_decide_eq_false_2 by (intros Hne; apply Hne; assumption).
    rewrite (bool_decide_eq_true_2 (width bad ≠ width reference)) by assumption.
    reflexivity.
  - cbn [app first_mismatch].
    rewrite !bool_decide_eq_false_2 by (intros Hne; apply Hne; assumption).
    cbn [orb]. assumption.
Qed.

(** The reason is the one of the first asset that differs, alone. *)
Lemma first_mismatch_first (reference bad : VideoInfo) (before after : list VideoInfo) :
  Forall (fun info => codec_name info = codec_name reference
                      /\ width info = width reference
                      /\ height info = height reference) before ->
  ~ (codec_name bad = codec_name reference /\ width bad = width reference
     /\ height bad = height reference) ->
  exists reason,
    first_mismatch reference [bad] = Some reason
    /\ first_mismatch reference (before ++ bad :: after) = Some reason.
Proof.
  intros Hbefore Hbad.
  induction Hbefore as [|info before (Hc & Hw & Hh) _ IH].
  - cbn [app first_mismatch].
    destruct (bool_decide (codec_name bad ≠ codec_name reference)) eqn:Hcodec;
      [eauto|].
    destruct (bool_decide (width bad ≠ width reference)
              || bool_decide (height bad ≠ height reference)) eqn:Hres; [eauto|].
    exfalso. apply Hbad.
    apply bool_decide_eq_false_1 in Hcodec.
    apply orb_false_iff in Hres as [Hw Hh].
    apply bool_decide_eq_false_1 in Hw, Hh.
    repeat split; apply dec_stable; assumption.
  - destruct IH as (reason & Hone & Hall). exists reason. split; [assumption|].
    cbn [app first_mismatch].
    rewrite !bool_decide_eq_false_2 by (intros Hne; apply Hne; assumption).
    cbn [orb]. assumption.
Qed.

(** The comparison reads [codec_name], [width] and [height] only. *)
Lemma first_mismatch_same_encoding (reference reference' : VideoInfo)
    (rest rest' : list VideoInfo) :
  Forall2 (fun a b => codec_name a = codec_name b /\ width a = width b
                      /\ height a = height b)
          (reference :: rest) (reference' :: rest') ->
  first_mismatch reference rest = first_mismatch reference' rest'.
Proof.
  intros Hall. apply Forall2_cons_1 in Hall as [(Hc & Hw & Hh) Hrest].
  induction Hrest as [|a b rest rest' (Hc' & Hw' & Hh') _ IH]; [reflexivity|].
  cbn [first_mismatch]. rewrite Hc, Hw, Hh, Hc', Hw', Hh', IH. reflexivity.
Qed.

(** C4. On files that are all probed: when every asset has the
    reference's codec, width and height the check passes with the
    assets in input order; otherwise it fails with the reason of the
    first asset that differs, whatever comes after it; when that asset
    has the reference's codec and another width, the reason names the
    resolution of both; and the verdict does not depend on
    [format_name]. *)
Theorem check_videos_compatibility_verdict (w : World) (video_files : list string)
    (reference : VideoInfo) (rest : list VideoInfo) :
  map (get_video_info w) video_files = map Some (reference :: rest) ->
  (Forall (fun info => codec_name info = codec_name reference
                       /\ width info = width reference
                       /\ height info = height reference) rest ->
   check_videos_compatibility w video_files = Passed (reference :: rest))
  /\ (forall before bad after,
        rest = before ++ bad :: after ->
        Forall (fun info => codec_name info = codec_name reference
                            /\ width info = width reference
                            /\ height info = height reference) before ->
        ~ (codec_name bad = codec_name reference /\ width bad = width reference
           /\ height bad = height reference) ->
        exists reason,
          first_mismatch reference [bad] = Some reason
          /\ check_videos_compatibility w video_files = Failed reason)
  /\ (forall before bad after,
        rest = before ++ bad :: after ->
        Forall (fun info => codec_name info = codec_name reference
                            /\ width info = width reference
                            /\ height info = height reference) before ->
        codec_name bad = codec_name reference ->
        width bad <> width reference ->
        check_videos_compatibility w video_files
        = Failed ("Incompatible resolution: " +:+ fmt_int (width reference) +:+ "x"
                    +:+ fmt_int (height reference) +:+ " vs " +:+ fmt_int (width bad)
                    +:+ "x" +:+ fmt_int (height bad)))
  /\ (forall w' reference' rest',
        map (get_video_info w') video_files = map Some (reference' :: rest') ->
        Forall2 (fun a b => codec_name a = codec_name b /\ width a = width b
                            /\ height a = height b)
                (reference :: rest) (reference' :: rest') ->
        (check_videos_compatibility w video_files = Passed (reference :: rest)
         /\ check_videos_compatibility w' video_files = Passed (reference' :: rest'))
        \/ (exists reason,
              check_videos_compatibility w video_files = Failed reason
              /\ check_videos_compatibility w' video_files = Failed reason)).
Proof.
  intros Hprobed.
  assert (Hcheck : forall w0 reference0 rest0,
             map (get_video_info w0) video_files = map Some (reference0 :: rest0) ->
             check_videos_compatibility w0 video_files
             = match first_mismatch reference0 rest0 with
               | Some reason => Failed reason
               | None => Passed (reference0 :: rest0)
               end).
  { intros w0 reference0 rest0 H0. unfold check_videos_compatibility.
    destruct video_files as [|f fs]; [discriminate|].
    rewrite (probe_all_probed w0 _ _ H0). reflexivity. }
  rewrite (Hcheck w reference rest Hprobed).
  split; [|split; [|split]].
  - intros Hsame. rewrite (first_mismatch_none _ _ Hsame). reflexivity.
  - intros before bad after -> Hbefore Hbad.
    destruct (first_mismatch_first reference bad before after Hbefore Hbad)
      as (reason & Hone & Hall).
    exists reason. rewrite Hall. split; [assumption | reflexivity].
  - intros before bad after -> Hbefore Hcodec Hwidth.
    rewrite (first_mismatch_width _ _ _ _ Hbefore Hcodec Hwidth). reflexivity.
  - intros w' reference' rest' Hprobed' Hsame.
    rewrite (Hcheck w' reference' rest' Hprobed').
    rewrite (first_mismatch_same_encoding _ _ _ _ Hsame).
    destruct (first_mismatch reference' rest') as [reason|]; eauto.
Qed.

(** A check that passes hands a non-empty list to [merge_videos]. *)
Lemma passed_nonempty (w : World) (video_files : list string) (infos : list VideoInfo) :
  check_videos_compatibility w video_files = Passed infos -> infos <> [].
Proof.
  unfold check_videos_compatibility.
  destruct video_files as [|f fs]; [discriminate|].
  destruct (probe_all w (f :: fs)) as [reason|[|reference rest]]; try discriminate.
  destruct (first_mismatch reference rest); [discriminate|].
  intros [= <-]. discriminate.
Qed.

End Compatibility.

(** ** Properties of [merge_videos] *)

Section Merge.
Import Py Merge.

Variable w : World.

(** C10. Merging a non-empty list: the concat list never survives the
    call; and with a transcoder that does not delete the list it reads,
    the call writes the list, runs the transcoder once on it, removes
    the list, and returns the verdict, on success and on failure
    alike. *)
Theorem merge_videos_removes_concat_list (first : VideoInfo) (others : list VideoInfo)
    (output_path : string) (fs : gmap string string) :
  let video_infos := first :: others in
  let contents := String.concat EmptyString (map (concat_line w) video_infos) in
  let ext := if negb (truthy (suffix w (file_path first))) then ".mp4"
             else suffix w (file_path first) in
  let output := if negb (truthy (suffix w output_path))
                then path_str w output_path +:+ ext else output_path in
  let cmd := ["ffmpeg"; "-f"; "concat"; "-safe"; "0"; "-i"; temp_file;
              "-c"; "copy"; "-y"; output] in
  let outcome := ffmpeg w cmd (<[temp_file := contents]> fs) in
  (merge_videos w video_infos output_path fs).1.1 !! temp_file = None
  /\ (is_Some (outcome.2 !! temp_file) ->
      merge_videos w video_infos output_path fs
      = (delete temp_file outcome.2,
         [Wrote temp_file contents; Ran cmd; Removed temp_file],
         Return (match outcome.1 with
                 | None => (true, "Successfully merged videos to " +:+ output)
                 | Some e => (false, "Error merging videos: " +:+ e)
                 end))).
Proof.
  cbv zeta. unfold merge_videos.
  destruct (ffmpeg w _ _) as [[e|] fs']; cbn [fst snd].
  - destruct (bool_decide (is_Some (fs' !! temp_file))) eqn:Hthere; cbn [fst snd].
    + split; [apply lookup_delete_eq | reflexivity].
    + apply bool_decide_eq_false_1 in Hthere.
      split; [apply eq_None_not_Some; assumption | intros; contradiction].
  - destruct (fs' !! temp_file) eqn:Hthere; cbn [fst snd].
    + split; [apply lookup_delete_eq | reflexivity].
    + split; [assumption | intros [x Hx]; discriminate].
Qed.

(** On an empty list, which [main] never passes ([passed_nonempty]),
    [video_infos[0]] raises after the list has been written. *)
Lemma merge_videos_empty (output_path : string) (fs : gmap string string) :
  merge_videos w [] output_path fs
  = (<[temp_file := EmptyString]> fs, [Wrote temp_file EmptyString], Raise IndexError).
Proof. reflexivity. Qed.

End Merge.

Section MergeExamples.
Import Py Merge Samples.

Lemma check_videos_compatibility_verdict_witness :
  check_videos_compatibility merge_world ["a.mp4"; "c.mp4"; "d.mp4"]
  = Passed [probed "a.mp4" 1920; probed "c.mp4" 1920; probed "d.mp4" 1920]
  /\ check_videos_compatibility merge_world ["a.mp4"; "b.mp4"; "c.mp4"]
     = Failed "Incompatible resolution: 1920x1080 vs 1280x1080".
Proof.
  split.
  - apply (check_videos_compatibility_verdict merge_world ["a.mp4"; "c.mp4"; "d.mp4"]
             (probed "a.mp4" 1920) [probed "c.mp4" 1920; probed "d.mp4" 1920] eq_refl).
    repeat (apply List.Forall_cons; [repeat split|]). apply List.Forall_nil.
  - apply (proj1 (proj2 (proj2 (check_videos_compatibility_verdict merge_world
                                  ["a.mp4"; "b.mp4"; "c.mp4"] (probed "a.mp4" 1920)
                                  [probed "b.mp4" 1280; probed "c.mp4" 1920] eq_refl)))
             [] (probed "b.mp4" 1280) [probed "c.mp4" 1920] eq_refl
             (List.Forall_nil _) eq_refl).
    discriminate.
Defined.

(** The line written for a path with a single quote. *)
Lemma concat_line_escapes_quote :
  concat_line merge_world (probed "a'b.mp4" 1920)
  = "file '/clips/a'\''b.mp4'" +:+ newline.
Proof. reflexivity. Qed.

Lemma merge_videos_removes_concat_list_witness :
  merge_videos merge_world [probed "a.mp4" 1920; probed "c.mp4" 1920] "/clips/output" ∅
  = (∅,
     [Wrote "concat_list.txt"
        ("file '/clips/a.mp4'" +:+ newline +:+ "file '/clips/c.mp4'" +:+ newline);
      Ran ["ffmpeg"; "-f"; "concat"; "-safe"; "0"; "-i"; "concat_list.txt";
           "-c"; "copy"; "-y"; "/clips/output.mp4"];
      Removed "concat_list.txt"],
     Return (true, "Successfully merged videos to /clips/output.mp4")).
Proof.
  pose proof (proj2 (merge_videos_removes_concat_list merge_world (probed "a.mp4" 1920)
                       [probed "c.mp4" 1920] "/clips/output" ∅)) as H.
  cbv zeta in H. rewrite H.
  - vm_compute. reflexivity.
  - vm_compute. eexists. reflexivity.
Defined.

(** The same merge with a transcoder that fails. *)
Lemma merge_videos_failure_removes_concat_list :
  merge_videos merge_world [probed "a.mp4" 1920; probed "c.mp4" 1920] "/clips/output"
    {["broken.mp4" := EmptyString]}
  = ({["broken.mp4" := EmptyString]},
     [Wrote "concat_list.txt"
        ("file '/clips/a.mp4'" +:+ newline +:+ "file '/clips/c.mp4'" +:+ newline);
      Ran ["ffmpeg"; "-f"; "concat"; "-safe"; "0"; "-i"; "concat_list.txt";
           "-c"; "copy"; "-y"; "/clips/output.mp4"];
      Removed "concat_list.txt"],
     Return (false, "Error merging videos: Command returned non-zero exit status 1.")).
Proof. vm_compute. reflexivity. Qed.

End MergeExamples.

(** ** Further properties of [ceildiv] and [split_by_seconds] *)

Section Ceiling.
Import Py Split.

(** X1. Below [2^53] the binary64 computation of [ceildiv] is exact:
    for [0 <= a < 2^53] and [0 < b < 2^53], [ceildiv a b] returns [q]
    exactly when [q] is the least integer with [a <= b * q]. *)
Theorem ceildiv_least_integer_above (a b q : Z) :
  0 <= a < 2 ^ 53 -> 0 < b < 2 ^ 53 ->
  (ceildiv a b = Return q <-> b * (q - 1) < a <= b * q).
Proof.
  intros Ha Hb. rewrite ceildiv_exact by assumption.
  pose proof (ceildiv_is_ceiling a b ltac:(lia)) as Hceil.
  split.
  - intros [= <-]. assumption.
  - intros Hq. f_equal. nia.
Qed.

End Ceiling.

Section CeilingExamples.
Import Py Split.

Lemma ceildiv_least_integer_above_witness :
  ceildiv 25 10 = Return 3
  /\ ceildiv 0 7 = Return 0
  /\ ceildiv (2 ^ 53 - 1) (2 ^ 53 - 2) = Return 2.
Proof.
  split; [|split].
  - apply (ceildiv_least_integer_above 25 10 3); vm_compute; split; congruence.
  - apply (ceildiv_least_integer_above 0 7 0); vm_compute; split; congruence.
  - apply (ceildiv_least_integer_above (2 ^ 53 - 1) (2 ^ 53 - 2) 2);
      vm_compute; split; congruence.
Defined.

End CeilingExamples.

Section SplitBySecondsMore.
Import Py Split.

Variable w : World.

Lemma check_output_rejected (c : Cut) :
  ffmpeg w c = false -> check_output w c = ([c], Raise CalledProcessError).
Proof. intros H. unfold check_output. rewrite H. reflexivity. Qed.

(** The loop stops at the first call that is rejected. *)
Lemma for_each_rejected (A : Type) (cut : A -> Cut) (before after : list A) (x : A) :
  (forall y, In y before -> ffmpeg w (cut y) = true) ->
  ffmpeg w (cut x) = false ->
  for_each (fun y => check_output w (cut y)) (before ++ x :: after)
  = (map cut before ++ [cut x], Raise CalledProcessError).
Proof.
  intros Hbefore Hx. induction before as [|y before IH].
  - cbn [app for_each map]. rewrite (check_output_rejected _ Hx). reflexivity.
  - cbn [app for_each map].
    rewrite (check_output_accepted w (cut y)) by (apply Hbefore; left; reflexivity).
    rewrite bind_Return_trace, IH by (intros z Hz; apply Hbefore; right; assumption).
    reflexivity.
Qed.

(** Whatever the transcoder answers, the calls issued are an initial
    part of the calls the loop would issue. *)
Lemma for_each_trace_prefix (A : Type) (cut : A -> Cut) (l : list A) :
  exists k, fst (for_each (fun y => check_output w (cut y)) l) = take k (map cut l).
Proof.
  induction l as [|y l [k IH]].
  - exists 0%nat. reflexivity.
  - cbn [for_each map]. destruct (ffmpeg w (cut y)) eqn:Hy.
    + exists (S k). rewrite (check_output_accepted w _ Hy), bind_Return_trace.
      cbn [fst take app]. rewrite IH. reflexivity.
    + exists 1%nat. rewrite (check_output_rejected _ Hy). reflexivity.
Qed.

Lemma for_each_ext (A : Type) (body body' : A -> run Cut unit) (l : list A) :
  (forall x, body x = body' x) -> for_each body l = for_each body' l.
Proof.
  intros Hext. induction l as [|x l IH]; [reflexivity|].
  cbn [for_each]. rewrite Hext, IH. reflexivity.
Qed.

Lemma range_app (k n : Z) :
  0 <= k < n -> range 0 n = range 0 k ++ k :: range (k + 1) n.
Proof.
  intros Hk. unfold range.
  replace (Z.to_nat (n - 0)) with (Z.to_nat (k - 0) + S (Z.to_nat (n - (k + 1))))%nat
    by lia.
  rewrite seq_app, map_app. cbn [seq map]. f_equal. f_equal; [lia|].
  replace (S (0 + Z.to_nat (k - 0))) with (S (Z.to_nat k) + 0)%nat by lia.
  rewrite <- (fmap_add_seq (S (Z.to_nat k)) 0).
  change (map ?f (?g <$> ?l)) with (map f (map g l)).
  rewrite map_map. apply map_ext. intros i. lia.
Qed.

Lemma range_nonpos_from (lo hi : Z) : hi <= lo -> range lo hi = [].
Proof. intros H. unfold range. replace (Z.to_nat (hi - lo)) with 0%nat by lia. reflexivity. Qed.

Lemma range_In (lo hi n : Z) : In n (range lo hi) <-> lo <= n < hi.
Proof.
  unfold range. rewrite in_map_iff. split.
  - intros (i & <- & Hi). apply in_seq in Hi. lia.
  - intros Hn. exists (Z.to_nat (n - lo)). split; [lia|]. apply in_seq. lia.
Qed.

Variables (filename : string) (output_dir : option string) (vcodec acodec extra : string).

(** The cut that lines 185-193 build for [n]. *)
Let segment (split_length split_count n : Z) : Cut :=
  {| cmd := ["ffmpeg"; "-i"; absolute w filename; "-vcodec"; vcodec; "-acodec"; acodec]
            ++ shlex_split w extra;
     ss := PInt (split_length * n);
     t := PInt split_length;
     output_path :=
       output_path_in
         (if negb (truthy output_dir) then Some (default_output_dir w filename)
          else output_dir)
         (join "." (removelast (split "." (basename filename)))
            +:+ "-" +:+ str_int (n + 1) +:+ "-of-" +:+ str_int split_count
            +:+ "." +:+ default EmptyString (last (split "." (basename filename)))) |}.

(** What [split_by_seconds] does once the guards are passed. *)
Lemma split_by_seconds_loop (split_length d split_count : Z) (video_length : option Z) :
  video_length_or_probe w filename video_length = Return d ->
  0 < split_length ->
  ceildiv d split_length = Return split_count ->
  split_count <> 1 ->
  split_by_seconds w filename split_length output_dir vcodec acodec extra video_length
  = for_each (fun n => check_output w (segment split_length split_count n))
      (range 0 split_count).
Proof.
  intros Hd Hlen Hceil Hcount.
  unfold split_by_seconds.
  rewrite positive_length_passes_guard by assumption.
  rewrite Hd, bind_lift_Return.
  rewrite Hceil, bind_lift_Return.
  destruct (Z.eqb_spec split_count 1) as [Heq|_]; [contradiction|].
  rewrite last_item_split, bind_lift_Return.
  apply for_each_ext. intros n. unfold segment. do 2 f_equal.
  destruct (Z.eqb_spec n 0) as [->|_]; f_equal; lia.
Qed.

(** X2. The loop is sequential and stops at the first failure.  With
    [split_count] the count that [ceildiv] returns for the duration and
    the length (whatever it is, exact or not), not 1: when the
    transcoder accepts the cuts before cut [k] and rejects cut [k],
    exactly the cuts [0..k] have been issued and the run ends with the
    transcoder's error; no later cut is attempted. *)
Theorem split_by_seconds_stops_at_first_failure (split_length d split_count k : Z)
    (video_length : option Z) :
  video_length_or_probe w filename video_length = Return d ->
  0 < split_length ->
  ceildiv d split_length = Return split_count ->
  split_count <> 1 ->
  0 <= k < split_count ->
  (forall n, 0 <= n < k -> ffmpeg w (segment split_length split_count n) = true) ->
  ffmpeg w (segment split_length split_count k) = false ->
  split_by_seconds w filename split_length output_dir vcodec acodec extra video_length
  = (map (segment split_length split_count) (range 0 (k + 1)),
     Raise CalledProcessError).
Proof.
  intros Hd Hlen Hceil Hcount Hk Hbefore Hfail.
  rewrite (split_by_seconds_loop split_length d split_count) by assumption.
  rewrite (range_app k) by assumption.
  rewrite for_each_rejected; [|intros n Hn; apply Hbefore, range_In, Hn|assumption].
  f_equal. rewrite (range_app k (k + 1)) by lia.
  rewrite (range_nonpos_from (k + 1)), map_app by lia. reflexivity.
Qed.

(** Never more cuts than the segment count. *)
Lemma split_by_seconds_trace_length (split_length d split_count : Z)
    (video_length : option Z) :
  video_length_or_probe w filename video_length = Return d ->
  0 < split_length ->
  ceildiv d split_length = Return split_count ->
  (length (fst (split_by_seconds w filename split_length output_dir vcodec acodec extra
                  video_length))
   <= Z.to_nat split_count)%nat.
Proof.
  intros Hd Hlen Hceil.
  destruct (Z.eq_dec split_count 1) as [Hone|Hne].
  - unfold split_by_seconds.
    rewrite positive_length_passes_guard by assumption.
    rewrite Hd, bind_lift_Return.
    rewrite Hceil, bind_lift_Return.
    rewrite Hone. cbn. lia.
  - rewrite (split_by_seconds_loop split_length d split_count) by assumption.
    destruct (for_each_trace_prefix Z (segment split_length split_count)
                (range 0 split_count)) as [k Hk].
    rewrite Hk, length_take, length_map, range_length. lia.
Qed.

End SplitBySecondsMore.

(** ** File names: splitting at dots, printing of numbers *)

Section FileNames.
Import Py Split.

Lemma string_length_append (a b : string) :
  String.length (a +:+ b) = (String.length a + String.length b)%nat.
Proof.
  induction a as [|c a IH]; [reflexivity|].
  rewrite append_cons. cbn [String.length]. rewrite IH. reflexivity.
Qed.

Lemma split_cons_sep (sep : ascii) (s : string) :
  split sep (String sep s) = EmptyString :: split sep s.
Proof. cbn [split]. rewrite Ascii.eqb_refl. reflexivity. Qed.

Lemma split_cons_other (sep c : ascii) (s : string) :
  c <> sep ->
  exists h t, split sep s = h :: t /\ split sep (String c s) = String c h :: t.
Proof.
  intros Hc. cbn [split]. apply Ascii.eqb_neq in Hc. rewrite Hc.
  destruct (split sep s) as [|h t] eqn:Hs; [destruct (split_nonempty _ _ Hs)|].
  exists h, t. split; reflexivity.
Qed.

Lemma concat_cons (sep x : string) (l : list string) :
  l <> [] -> String.concat sep (x :: l) = x +:+ sep +:+ String.concat sep l.
Proof. destruct l; [contradiction | reflexivity]. Qed.

(** Joining the pieces with the separator gives the string back. *)
Lemma join_split (sep : ascii) (s : string) :
  join (String sep EmptyString) (split sep s) = s.
Proof.
  unfold join. induction s as [|c s IH]; [reflexivity|].
  destruct (Ascii.eqb_spec c sep) as [->|Hc].
  - rewrite split_cons_sep, concat_cons by apply split_nonempty.
    rewrite IH. reflexivity.
  - destruct (split_cons_other sep c s Hc) as (h & t & Hs & ->).
    rewrite Hs in IH. destruct t as [|h' t].
    + cbn in IH |- *. rewrite IH. reflexivity.
    + rewrite concat_cons in IH |- * by discriminate.
      rewrite append_cons, IH. reflexivity.
Qed.

Lemma concat_snoc (sep x : string) (l : list string) :
  l <> [] -> String.concat sep (l ++ [x]) = String.concat sep l +:+ sep +:+ x.
Proof.
  induction l as [|y l IH]; [contradiction|]. intros _.
  destruct l as [|z l]; [reflexivity|].
  change ((y :: z :: l) ++ [x]) with (y :: ((z :: l) ++ [x])).
  rewrite concat_cons by (destruct l; discriminate).
  rewrite IH by discriminate.
  rewrite (concat_cons sep y (z :: l)) by discriminate.
  rewrite !append_assoc. reflexivity.
Qed.

Lemma split_singleton_iff (sep : ascii) (s : string) :
  split sep s = [s] <-> ~ In sep (list_ascii_of_string s).
Proof.
  induction s as [|c s IH]; [cbn; tauto|].
  cbn [list_ascii_of_string In]. destruct (Ascii.eqb_spec c sep) as [->|Hc].
  - rewrite split_cons_sep. split; [discriminate | intros H; destruct H; left; reflexivity].
  - destruct (split_cons_other sep c s Hc) as (h & t & Hs & ->).
    rewrite Hs in IH. split.
    + intros [= -> ->]. intros [?|Hin]; [contradiction|].
      apply IH; [reflexivity | assumption].
    + intros Hnot. assert (Hs' : h :: t = [s]) by (apply IH; tauto).
      injection Hs' as -> ->. reflexivity.
Qed.

(** What follows the last separator is the last piece. *)
Lemma split_after_last_sep (sep : ascii) (a b : string) :
  split sep b = [b] -> last (split sep (a +:+ String sep b)) = Some b.
Proof.
  intros Hb. induction a as [|c a IH].
  - change (EmptyString +:+ String sep b) with (String sep b).
    rewrite split_cons_sep, Hb. reflexivity.
  - rewrite append_cons. destruct (Ascii.eqb_spec c sep) as [->|Hc].
    + rewrite split_cons_sep.
      destruct (split sep (a +:+ String sep b)) as [|h t] eqn:Hs;
        [destruct (split_nonempty _ _ Hs)|].
      rewrite last_cons, IH. reflexivity.
    + destruct (split_cons_other sep c (a +:+ String sep b) Hc) as (h & t & Hs & ->).
      rewrite Hs in IH. destruct t as [|h' t].
      * cbn in IH |- *. injection IH as ->.
        exfalso. apply (f_equal (String.concat (String sep EmptyString))) in Hs.
        pose proof (join_split sep (a +:+ String sep b)) as Hj. unfold join in Hj.
        rewrite Hj in Hs. cbn in Hs.
        apply (f_equal String.length) in Hs.
        rewrite string_length_append in Hs. cbn in Hs. lia.
      * exact IH.
Qed.

Lemma no_leading_sep (sep : ascii) (s : string) :
  split sep s = [s] -> String.prefix (String sep EmptyString) s = false.
Proof.
  intros Hs. destruct s as [|c s]; [reflexivity|].
  cbn [String.prefix]. destruct (ascii_dec sep c) as [<-|]; [|reflexivity].
  rewrite split_cons_sep in Hs. discriminate.
Qed.

Lemma basename_free_of_slash (p : string) : split "/" (basename p) = [basename p].
Proof. unfold basename. apply last_split_free. Qed.

(** With a dot in the base name, the two parts give it back. *)
Lemma basename_rejoined (filename : string) :
  In "."%char (list_ascii_of_string (basename filename)) ->
  basename filename
  = join "." (removelast (split "." (basename filename))) +:+ "."
    +:+ default EmptyString (last (split "." (basename filename))).
Proof.
  intros Hdot.
  pose proof (join_split "." (basename filename)) as Hjoin.
  destruct (last (split "." (basename filename))) as [x|] eqn:Hlast;
    [|apply last_None in Hlast; destruct (split_nonempty _ _ Hlast)].
  apply last_Some in Hlast as [pieces Hpieces].
  rewrite Hpieces in Hjoin |- *.
  rewrite removelast_last. unfold join in *. cbn [default from_option id].
  destruct pieces as [|y pieces].
  - exfalso. apply (proj1 (split_singleton_iff "." (basename filename))); [|assumption].
    rewrite Hpieces. cbn in Hjoin |- *. rewrite Hjoin. reflexivity.
  - rewrite concat_snoc in Hjoin by discriminate. symmetry. assumption.
Qed.

(** X3. How lines 179-181 take a file name apart: the base name has
    no slash; with a dot in it, [filebase + "." + fileext] is the base
    name again and [fileext] has no dot; without a dot, [filebase] is
    empty and the whole base name is the extension. *)
Theorem basename_decomposition (filename : string) :
  let input_basename := basename filename in
  let filebase := join "." (removelast (split "." input_basename)) in
  let fileext := default EmptyString (last (split "." input_basename)) in
  ~ In "/"%char (list_ascii_of_string input_basename)
  /\ (In "."%char (list_ascii_of_string input_basename) ->
      input_basename = filebase +:+ "." +:+ fileext
      /\ ~ In "."%char (list_ascii_of_string fileext))
  /\ (~ In "."%char (list_ascii_of_string input_basename) ->
      filebase = EmptyString /\ fileext = input_basename).
Proof.
  intros input_basename filebase fileext. split; [|split].
  - apply split_singleton_iff, basename_free_of_slash.
  - intros Hdot. split.
    + apply basename_rejoined. assumption.
    + apply split_singleton_iff, last_split_free.
  - intros Hnodot. apply split_singleton_iff in Hnodot.
    subst filebase fileext. rewrite Hnodot. split; reflexivity.
Qed.

End FileNames.

Section DistinctOutputs.
Import Py Split.

(** [str] of an [int] can be read back: different numbers print
    differently. *)
Lemma str_int_inj (a b : Z) : str_int a = str_int b -> a = b.
Proof.
  unfold str_int. intros H. apply DecimalZ.to_int_inj.
  assert (Hparse : forall z, NilZero.int_of_string (NilZero.string_of_int (Z.to_int z))
                             = Some (Z.to_int z)).
  { intros z. apply NilZero.isi; destruct z; cbn; try discriminate;
      intros [= E]; apply (DecimalPos.Unsigned.to_uint_nonnil _ E). }
  pose proof (Hparse a) as Ha. rewrite H, Hparse in Ha. injection Ha as Ha.
  symmetry. assumption.
Qed.

Lemma append_cancel_r (a b r : string) : a +:+ r = b +:+ r -> a = b.
Proof.
  revert b. induction a as [|c a IH]; intros [|c' b] H.
  - reflexivity.
  - apply (f_equal String.length) in H.
    rewrite !string_length_append in H. cbn [String.length] in H. lia.
  - apply (f_equal String.length) in H.
    rewrite !string_length_append in H. cbn [String.length] in H. lia.
  - rewrite !append_cons in H. injection H as -> H. f_equal. apply IH. assumption.
Qed.

(** [os.path.join(d, .)] keeps relative names apart. *)
Lemma output_path_in_inj (output_dir : option string) (x y : string) :
  String.prefix "/" x = false ->
  String.prefix "/" y = false ->
  output_path_in output_dir x = output_path_in output_dir y -> x = y.
Proof.
  intros Hx Hy. unfold output_path_in, os_path_join. rewrite Hx, Hy.
  destruct output_dir as [d|]; [|tauto].
  destruct (truthy d); [|tauto].
  cbn [negb orb]. destruct (endswith "/" d); intros H.
  - apply (String.app_inj d) in H. assumption.
  - apply (String.app_inj d) in H. apply (String.app_inj "/") in H. assumption.
Qed.

Lemma prefix_one_cons (sep c : ascii) (s : string) :
  String.prefix (String sep EmptyString) (String c s) = Ascii.eqb sep c.
Proof.
  cbn [String.prefix]. destruct (ascii_dec sep c) as [->|Hne].
  - rewrite Ascii.eqb_refl. destruct s; reflexivity.
  - symmetry. apply Ascii.eqb_neq. assumption.
Qed.

Variable w : World.
Variables (filename : string) (output_dir : option string) (vcodec acodec extra : string).

(** The names of the segments do not start with a slash. *)
Lemma segment_name_relative (rest : string) :
  String.prefix "/"
    (join "." (removelast (split "." (basename filename))) +:+ "-" +:+ rest) = false.
Proof.
  destruct (in_dec ascii_dec "."%char (list_ascii_of_string (basename filename)))
    as [Hdot|Hnodot].
  - pose proof (basename_rejoined filename Hdot) as Hname.
    pose proof (no_leading_sep "/" _ (basename_free_of_slash filename)) as Hslash.
    rewrite Hname in Hslash.
    destruct (join "." (removelast (split "." (basename filename)))) as [|c f];
      [reflexivity|].
    rewrite !append_cons in Hslash |- *.
    rewrite prefix_one_cons in Hslash |- *. assumption.
  - apply split_singleton_iff in Hnodot. rewrite Hnodot. reflexivity.
Qed.

Lemma NoDup_range (lo hi : Z) : NoDup (range lo hi).
Proof.
  unfold range. apply NoDup_fmap_2_strong; [|apply NoDup_seq].
  intros i j _ _ H. lia.
Qed.

(** X4. No two cuts of one run are written to the same path, whatever
    the arguments and whatever the transcoder answers. *)
Theorem split_by_seconds_outputs_distinct (split_length : Z) (video_length : option Z) :
  NoDup (map output_path
           (fst (split_by_seconds w filename split_length output_dir vcodec acodec extra
                   video_length))).
Proof.
  unfold split_by_seconds.
  destruct (truthy split_length && (split_length <=? 0)); [apply NoDup_nil_2|].
  destruct (video_length_or_probe w filename video_length) as [d|e];
    [rewrite bind_lift_Return|apply NoDup_nil_2].
  destruct (ceildiv d split_length) as [split_count|e];
    [rewrite bind_lift_Return|apply NoDup_nil_2].
  destruct (split_count =? 1); [apply NoDup_nil_2|].
  rewrite last_item_split, bind_lift_Return.
  match goal with
  | |- context [for_each (fun n => check_output w (@?cut n)) ?l] =>
      destruct (for_each_trace_prefix w Z cut l) as [k Hk]
  end.
  cbv beta in Hk. rewrite Hk.
  change (map ?f ?l) with (f <$> l). rewrite fmap_take.
  eapply sublist_NoDup; [|apply sublist_take].
  rewrite <- list_fmap_compose.
  apply NoDup_fmap_2_strong; [|apply NoDup_range].
  intros n m _ _ Hpath. cbn [compose output_path] in Hpath.
  apply output_path_in_inj in Hpath; try apply segment_name_relative.
  apply String.app_inj in Hpath. apply (String.app_inj "-") in Hpath.
  apply append_cancel_r, str_int_inj in Hpath. lia.
Qed.

End DistinctOutputs.

(** ** Further properties of [main] *)

Section MainMore.
Import Py Split.

Variable w : World.

Ltac reduce_options :=
  cbn [mbind result_bind negb andb default from_option id is_even
       split_length split_chunks set_split_length set_split_chunks];
  rewrite ?truthy_Some.

(** X5. Splitting by count never produces more pieces than asked for.
    [d] is the probed duration truncated to whole seconds; with [-c c],
    [0 < c < 2^53] and [0 < d < 2^53] (where the binary64 quotient of
    [ceildiv] is exact), the length is [ceil(d / c)], [c] pieces of that
    length cover the [d] seconds, and at most [c] cuts are issued. *)
Theorem main_by_count_at_most_count (o : Options) (c d size : Z) (target : option Z) :
  truthy (manifest o) = false ->
  truthy (filename o) = true ->
  truthy (split_length o) = false ->
  split_chunks o = Some c ->
  0 < c < 2 ^ 53 ->
  get_video_length w (default EmptyString (filename o)) = Return d ->
  0 < d < 2 ^ 53 ->
  st_size w (default EmptyString (filename o)) = Some size ->
  scaled_filesize o = Return target ->
  truthy target && is_even (chunk_strategy o) = false ->
  let length := (d + c - 1) / c in
  resolve_split_length w o = Return (set_split_length length o, Some d)
  /\ d <= c * length
  /\ (List.length (fst (main w o)) <= Z.to_nat c)%nat.
Proof.
  intros Hman Hfile Hlen Hchunks Hc Hd Hdpos Hsize Htarget Hnot length.
  pose proof (ceildiv_is_ceiling d c ltac:(lia)) as Hceil. fold length in Hceil.
  assert (Hlpos : 0 < length < 2 ^ 53) by nia.
  assert (Htl : truthy length = true) by (apply truthy_Z_true; lia).
  assert (Htc : truthy c = true) by (apply truthy_Z_true; lia).
  assert (Hres : resolve_split_length w o = Return (set_split_length length o, Some d)).
  { unfold resolve_split_length. rewrite Hlen, Hd, Hsize, Htarget. reduce_options.
    rewrite Hnot. reduce_options. rewrite Hchunks. reduce_options.
    rewrite Htc. reduce_options. rewrite (ceildiv_exact d c) by lia. reduce_options.
    fold length. rewrite Htl. reflexivity. }
  split; [assumption|]. split; [lia|].
  unfold main. rewrite Hman, Hfile. cbn [negb].
  rewrite Hres, bind_lift_Return.
  cbn [split_length set_split_length]. rewrite truthy_Some, Htl.
  cbn [negb default from_option id].
  etransitivity.
  - apply (split_by_seconds_trace_length w _ _ _ _ _ length d
             ((d + length - 1) / length));
      [|lia|apply ceildiv_exact; lia].
    unfold video_length_or_probe. rewrite truthy_Some.
    replace (truthy d) with true by (symmetry; apply truthy_Z_true; lia).
    reflexivity.
  - clearbody length.
    clear - Hc Hdpos Hceil Hlpos.
    apply Z2Nat.inj_le; [apply Z.div_pos; lia | lia |].
    apply Z.lt_succ_r, Z.div_lt_upper_bound; [lia | nia].
Qed.

(** X6. A target size on an empty file: with the [even] strategy (which
    discards a given chunk count for the size-derived count 0), or with
    no chunk count, the length falls to the size proportion and its
    division by the file size raises [ZeroDivisionError]; no cut is
    issued. *)
Theorem main_target_size_on_empty_file (o : Options) (d target : Z) :
  truthy (manifest o) = false ->
  truthy (filename o) = true ->
  truthy (split_length o) = false ->
  get_video_length w (default EmptyString (filename o)) = Return d ->
  st_size w (default EmptyString (filename o)) = Some 0 ->
  scaled_filesize o = Return (Some target) ->
  target <> 0 ->
  chunk_strategy o = even \/ truthy (split_chunks o) = false ->
  resolve_split_length w o = Raise ZeroDivisionError
  /\ main w o = ([], Raise ZeroDivisionError).
Proof.
  intros Hman Hfile Hlen Hd Hsize Htarget Ht0 Hcase.
  destruct (scaled_filesize_int o target Htarget) as [x Hx].
  pose proof (ceildiv_zero_dividend x target Hx Ht0) as Hcount.
  pose proof (eager_length_empty_file x target d Hx Ht0) as Heager.
  apply truthy_Z_true in Ht0.
  assert (Hres : resolve_split_length w o = Raise ZeroDivisionError).
  { unfold resolve_split_length. rewrite Hlen, Hd, Hsize, Htarget. reduce_options.
    rewrite Ht0. destruct Hcase as [Heven|Hchunks].
    - rewrite Heven. reduce_options. rewrite Hcount. reduce_options.
      change (truthy 0) with false. reduce_options. rewrite Hlen, Heager. reflexivity.
    - destruct (is_even (chunk_strategy o)).
      + reduce_options. rewrite Hcount. reduce_options.
        change (truthy 0) with false. reduce_options. rewrite Hlen, Heager. reflexivity.
      + reduce_options. rewrite Hchunks. reduce_options. rewrite Hlen, Heager.
        reflexivity. }
  split; [assumption|].
  unfold main. rewrite Hman, Hfile. cbn [negb]. rewrite Hres. reflexivity.
Qed.

End MainMore.

(** ** Further properties of [split_by_manifest] *)

Section ManifestMore.
Import Py Split.

Variable w : World.

(** X7. Before anything is read or cut: a manifest that does not exist
    and a manifest that is neither [.json] nor [.csv] end the run with
    their message; a [.json] manifest that is not JSON ends it with the
    decoder's error. *)
Theorem split_by_manifest_refusals (filename : option string) (manifest : string)
    (output_dir : option string) (vcodec acodec extra : string) :
  (path_exists w manifest = false ->
   split_by_manifest w filename manifest output_dir vcodec acodec extra
   = ([], Raise (SystemExit ["File does not exist: " +:+ manifest])))
  /\ (path_exists w manifest = true ->
      forall manifest_type,
        last (split "." manifest) = Some manifest_type ->
        manifest_type <> "json" -> manifest_type <> "csv" ->
        split_by_manifest w filename manifest output_dir vcodec acodec extra
        = ([], Raise (SystemExit
                        ["Format not supported. File must be a csv or json file"])))
  /\ (path_exists w manifest = true ->
      last (split "." manifest) = Some "json" ->
      json_load w manifest = None ->
      split_by_manifest w filename manifest output_dir vcodec acodec extra
      = ([], Raise ValueError)).
Proof.
  split; [|split].
  - intros Hmissing. unfold split_by_manifest. rewrite Hmissing. reflexivity.
  - intros Hexists manifest_type Htype Hjson Hcsv.
    unfold split_by_manifest. rewrite Hexists. cbn [negb].
    rewrite (last_item_Some _ _ Htype), bind_lift_Return.
    apply String.eqb_neq in Hjson, Hcsv. rewrite Hjson, Hcsv. reflexivity.
  - intros Hexists Htype Hload.
    unfold split_by_manifest. rewrite Hexists. cbn [negb].
    rewrite (last_item_Some _ _ Htype), bind_lift_Return.
    cbn [String.eqb Ascii.eqb Bool.eqb]. rewrite Hload. reflexivity.
Qed.

(** A flat manifest, a [.json] array or [.csv] rows, goes to the loop
    over its entries. *)
Lemma split_by_manifest_flat (filename manifest manifest_type : string)
    (config : list value) (output_dir : option string) (vcodec acodec extra : string) :
  path_exists w manifest = true ->
  last (split "." manifest) = Some manifest_type ->
  (manifest_type = "json" /\ json_load w manifest = Some (PList config))
  \/ (manifest_type = "csv" /\ csv_DictReader w manifest = config) ->
  split_by_manifest w (Some filename) manifest output_dir vcodec acodec extra
  = for_each
      (split_entry w manifest_type
         (default EmptyString (last (split "." filename)))
         (if negb (truthy output_dir) && truthy filename
          then Some (default_output_dir w filename) else output_dir)
         (["ffmpeg"; "-i"; absolute w filename; "-vcodec"; vcodec; "-acodec"; acodec;
           "-y"] ++ shlex_split w extra))
      config.
Proof.
  intros Hexists Htype Hconfig.
  unfold split_by_manifest. rewrite Hexists. cbn [negb].
  rewrite (last_item_Some _ _ Htype), bind_lift_Return.
  destruct Hconfig as [[-> Hload]|[-> Hrows]].
  - cbn [String.eqb Ascii.eqb Bool.eqb]. rewrite Hload.
    rewrite !bind_mret, bind_lift_Return, last_item_split, bind_lift_Return.
    cbn [iterate]. rewrite bind_lift_Return. reflexivity.
  - cbn [String.eqb Ascii.eqb Bool.eqb]. rewrite Hrows.
    rewrite !bind_mret, bind_lift_Return, last_item_split, bind_lift_Return.
    cbn [iterate]. rewrite bind_lift_Return. reflexivity.
Qed.

(** The loop on entries that are all cut, and on entries that are cut
    up to one that raises. *)
Lemma for_each_entries (A : Type) (body : value -> run Cut unit) (cut : A -> Cut)
    (entries : list value) (items : list A) :
  (forall c, ffmpeg w c = true) ->
  Forall2 (fun entry item => body entry = check_output w (cut item)) entries items ->
  for_each body entries = (map cut items, Return tt).
Proof.
  intros Hok Hall. induction Hall as [|entry item entries items Hentry _ IH];
    [reflexivity|].
  cbn [for_each map].
  rewrite Hentry, (check_output_accepted w _ (Hok _)), bind_Return_trace, IH.
  reflexivity.
Qed.

Lemma for_each_entries_raise (A : Type) (body : value -> run Cut unit) (cut : A -> Cut)
    (entries rest : list value) (bad : value) (items : list A) (e : exn) :
  (forall c, ffmpeg w c = true) ->
  Forall2 (fun entry item => body entry = check_output w (cut item)) entries items ->
  body bad = ([], Raise e) ->
  for_each body (entries ++ bad :: rest) = (map cut items, Raise e).
Proof.
  intros Hok Hall Hbad. induction Hall as [|entry item entries items Hentry _ IH].
  - cbn [app for_each map]. rewrite Hbad. reflexivity.
  - cbn [app for_each map].
    rewrite Hentry, (check_output_accepted w _ (Hok _)), bind_Return_trace, IH.
    reflexivity.
Qed.

(** Entries that [split_entry] turns into a cut, each with its start,
    its duration and its name. *)
Lemma Forall2_split_entry_cut (manifest_type fileext : string)
    (output_dir : option string) (split_cmd : list string)
    (entries : list (gmap string value)) (items : list (value * value * string)) :
  Forall2 (fun entry item =>
             entry !! "start_time" = Some item.1.1
             /\ entry !! "rename_to" = Some (PStr item.2)
             /\ (if negb (truthy (default PNone (entry !! "end_time")))
                 then getitem (PDict entry) "length"
                 else Return (default PNone (entry !! "end_time"))) = Return item.1.2)
          entries items ->
  Forall2 (fun entry item =>
             split_entry w manifest_type fileext output_dir split_cmd entry
             = check_output w
                 {| cmd := split_cmd; ss := item.1.1; t := item.1.2;
                    output_path :=
                      output_path_in output_dir
                        (strip_extension fileext item.2 +:+ "." +:+ fileext) |})
          (map PDict entries) items.
Proof.
  induction 1 as [|entry item entries items (Hstart & Hname & Hduration) _ IH];
    [constructor|].
  cbn [map]. constructor; [|assumption].
  apply split_entry_cut; assumption.
Qed.

(** X8. A flat manifest ([.json] array or [.csv] rows) whose entries
    all have a start, a duration and a name: one cut per entry, in the
    order of the manifest, each with the entry's own values. *)
Theorem flat_manifest_cuts (filename manifest manifest_type : string)
    (output_dir : option string) (vcodec acodec extra : string)
    (entries : list (gmap string value)) (items : list (value * value * string)) :
  path_exists w manifest = true ->
  last (split "." manifest) = Some manifest_type ->
  (manifest_type = "json" /\ json_load w manifest = Some (PList (map PDict entries)))
  \/ (manifest_type = "csv" /\ csv_DictReader w manifest = map PDict entries) ->
  Forall2 (fun entry item =>
             entry !! "start_time" = Some item.1.1
             /\ entry !! "rename_to" = Some (PStr item.2)
             /\ (if negb (truthy (default PNone (entry !! "end_time")))
                 then getitem (PDict entry) "length"
                 else Return (default PNone (entry !! "end_time"))) = Return item.1.2)
          entries items ->
  (forall c, ffmpeg w c = true) ->
  let fileext := default EmptyString (last (split "." filename)) in
  let dir := if negb (truthy output_dir) && truthy filename
             then Some (default_output_dir w filename) else output_dir in
  split_by_manifest w (Some filename) manifest output_dir vcodec acodec extra
  = (map (fun item : value * value * string =>
            {| cmd := ["ffmpeg"; "-i"; absolute w filename; "-vcodec"; vcodec;
                       "-acodec"; acodec; "-y"] ++ shlex_split w extra;
               ss := item.1.1;
               t := item.1.2;
               output_path :=
                 output_path_in dir (strip_extension fileext item.2 +:+ "." +:+ fileext) |})
         items,
     Return tt).
Proof.
  intros Hexists Htype Hconfig Hentries Hok fileext dir.
  rewrite (split_by_manifest_flat filename manifest manifest_type (map PDict entries))
    by assumption.
  apply for_each_entries; [assumption|].
  apply Forall2_split_entry_cut. assumption.
Qed.

(** X9. The run stops at the first entry that [split_entry] refuses: the
    entries before it have been cut and stay cut, the entries after it
    are not looked at, and the run ends the way that entry did. *)
Theorem flat_manifest_stops_at_bad_entry (filename manifest manifest_type : string)
    (output_dir : option string) (vcodec acodec extra : string)
    (entries : list (gmap string value)) (items : list (value * value * string))
    (bad : value) (rest : list value) (e : exn) :
  path_exists w manifest = true ->
  last (split "." manifest) = Some manifest_type ->
  (manifest_type = "json"
   /\ json_load w manifest = Some (PList (map PDict entries ++ bad :: rest)))
  \/ (manifest_type = "csv"
      /\ csv_DictReader w manifest = map PDict entries ++ bad :: rest) ->
  Forall2 (fun entry item =>
             entry !! "start_time" = Some item.1.1
             /\ entry !! "rename_to" = Some (PStr item.2)
             /\ (if negb (truthy (default PNone (entry !! "end_time")))
                 then getitem (PDict entry) "length"
                 else Return (default PNone (entry !! "end_time"))) = Return item.1.2)
          entries items ->
  (forall c, ffmpeg w c = true) ->
  let fileext := default EmptyString (last (split "." filename)) in
  let dir := if negb (truthy output_dir) && truthy filename
             then Some (default_output_dir w filename) else output_dir in
  let split_cmd := ["ffmpeg"; "-i"; absolute w filename; "-vcodec"; vcodec;
                    "-acodec"; acodec; "-y"] ++ shlex_split w extra in
  split_entry w manifest_type fileext dir split_cmd bad = ([], Raise e) ->
  split_by_manifest w (Some filename) manifest output_dir vcodec acodec extra
  = (map (fun item : value * value * string =>
            {| cmd := split_cmd; ss := item.1.1; t := item.1.2;
               output_path :=
                 output_path_in dir (strip_extension fileext item.2 +:+ "." +:+ fileext) |})
         items,
     Raise e).
Proof.
  intros Hexists Htype Hconfig Hentries Hok fileext dir split_cmd Hbad.
  rewrite (split_by_manifest_flat filename manifest manifest_type
             (map PDict entries ++ bad :: rest)) by assumption.
  apply for_each_entries_raise; [assumption| |assumption].
  apply Forall2_split_entry_cut. assumption.
Qed.

(** X10. What [split_entry] does with an entry that lacks something:
    without [start_time], and with a start and a duration but without
    [rename_to], the run exits with the format message that names the
    key; an entry that is not an object raises [TypeError].  No cut is
    issued in any of these cases. *)
Theorem split_entry_malformed (manifest_type fileext : string)
    (output_dir : option string) (split_cmd : list string) :
  (forall entry : gmap string value,
     entry !! "start_time" = None ->
     split_entry w manifest_type fileext output_dir split_cmd (PDict entry)
     = ([], Raise (SystemExit (incorrect_format manifest_type "start_time"))))
  /\ (forall (entry : gmap string value) duration,
        is_Some (entry !! "start_time") ->
        (if negb (truthy (default PNone (entry !! "end_time")))
         then getitem (PDict entry) "length"
         else Return (default PNone (entry !! "end_time"))) = Return duration ->
        entry !! "rename_to" = None ->
        split_entry w manifest_type fileext output_dir split_cmd (PDict entry)
        = ([], Raise (SystemExit (incorrect_format manifest_type "rename_to"))))
  /\ (forall entry : value,
        (forall d, entry <> PDict d) ->
        split_entry w manifest_type fileext output_dir split_cmd entry
        = ([], Raise TypeError)).
Proof.
  split; [|split].
  - intros entry Hstart. unfold split_entry.
    rewrite (getitem_None _ _ Hstart). reflexivity.
  - intros entry duration [start Hstart] Hduration Hname.
    assert (Hprefix : forall k : value -> run Cut unit,
               (split_length ← lift (get (PDict entry) "end_time");
                split_length ← (if negb (truthy split_length)
                                then lift (getitem (PDict entry) "length")
                                else mret split_length);
                k split_length) = k duration).
    { intros k. rewrite get_dict, bind_lift_Return.
      destruct (negb (truthy (default PNone (entry !! "end_time")))).
      - rewrite Hduration, bind_lift_Return. reflexivity.
      - injection Hduration as <-. rewrite bind_mret. reflexivity. }
    unfold split_entry.
    rewrite (getitem_Some _ _ _ Hstart), bind_lift_Return.
    rewrite Hprefix, (getitem_None _ _ Hname). reflexivity.
  - intros entry Hnot. unfold split_entry.
    destruct entry; try reflexivity. destruct (Hnot d eq_refl).
Qed.

End ManifestMore.

Section StructuredMore.
Import Py Split.

Variable w : World.

Lemma mapM_app_Raise (A B : Type) (f : A -> result B) (before after : list A) (x : A)
    (ys : list B) (e : exn) :
  mapM f before = Return ys ->
  f x = Raise e ->
  mapM f (before ++ x :: after) = Raise e.
Proof.
  revert ys. induction before as [|y before IH]; intros ys Hbefore Hx.
  - cbn. rewrite Hx. reflexivity.
  - cbn in Hbefore |- *. destruct (f y) as [b|e']; [|discriminate].
    cbn in Hbefore |- *.
    destruct (mapM f before) as [bs|e'] eqn:Hbs; [|discriminate].
    rewrite (IH bs eq_refl Hx). reflexivity.
Qed.

Lemma enumerate_app (A : Type) (start : Z) (l1 l2 : list A) :
  enumerate start (l1 ++ l2)
  = enumerate start l1 ++ enumerate (start + Z.of_nat (length l1)) l2.
Proof.
  revert start. induction l1 as [|x l1 IH]; intros start.
  - cbn. f_equal. lia.
  - cbn [app enumerate length]. rewrite IH. cbn [app]. do 3 f_equal. lia.
Qed.

(** X11. In the structured schema a clip without [start_time] or
    without [length] is met while the entries are generated, before the
    loop: the [KeyError] leaves the script as it is (not the format
    message of flat entries), and no clip is cut, also none of those
    before the incomplete one. *)
Theorem structured_manifest_incomplete_clip (filename : option string) (manifest : string)
    (output_dir : option string) (vcodec acodec extra : string)
    (d : gmap string value) (input_file key : string)
    (clips : list (gmap string value)) (bad : gmap string value) (rest : list value) :
  path_exists w manifest = true ->
  last (split "." manifest) = Some "json" ->
  json_load w manifest = Some (PDict d) ->
  d !! "input_file" = Some (PStr input_file) ->
  d !! "output_clips" = Some (PList (map PDict clips ++ PDict bad :: rest)) ->
  Forall (fun clip => is_Some (clip !! "start_time") /\ is_Some (clip !! "length")) clips ->
  (key = "start_time" /\ bad !! "start_time" = None)
  \/ (key = "length" /\ is_Some (bad !! "start_time") /\ bad !! "length" = None) ->
  split_by_manifest w filename manifest output_dir vcodec acodec extra
  = ([], Raise (KeyError key)).
Proof.
  intros Hexists Htype Hjson Hinput Hclips Hwell Hbad.
  unfold split_by_manifest.
  rewrite Hexists. cbn [negb].
  rewrite (last_item_Some _ _ Htype), bind_lift_Return.
  cbn [String.eqb Ascii.eqb Bool.eqb]. rewrite Hjson, Hinput, Hclips.
  rewrite !bool_decide_eq_true_2 by eauto. cbn [andb].
  set (resolved := if truthy filename then default EmptyString filename else input_file).
  assert (Hresolved :
            (if negb (truthy filename)
             then lift (getitem (PDict d) "input_file" ≫= as_str)
             else mret (default EmptyString filename))
            = (lift (Return resolved) : run Cut string)).
  { subst resolved. rewrite (getitem_Some _ _ _ Hinput).
    destruct (truthy filename); reflexivity. }
  rewrite Hresolved, bind_lift_Return.
  rewrite (getitem_Some _ _ _ Hclips). cbn [mbind result_bind iterate].
  rewrite bind_lift_Return.
  rewrite enumerate_app.
  cbn [enumerate].
  erewrite mapM_app_Raise; [reflexivity | apply (mapM_clip_config resolved clips 0 Hwell) |].
  unfold clip_config. rewrite last_item_split. cbn [mbind result_bind].
  destruct Hbad as [[-> Hstart]|(-> & [start Hstart] & Hlength)].
  - rewrite (getitem_None _ _ Hstart). reflexivity.
  - rewrite (getitem_Some _ _ _ Hstart), (getitem_None _ _ Hlength). reflexivity.
Qed.

(** X12. A name that ends in a dot and the source's extension gets
    that extension back exactly once, whatever dots the rest of the
    name has. *)
Theorem strip_extension_of_suffix (fileext base : string) :
  ~ In "."%char (list_ascii_of_string fileext) ->
  strip_extension fileext (base +:+ "." +:+ fileext) = base
  /\ strip_extension fileext (base +:+ "." +:+ fileext) +:+ "." +:+ fileext
     = base +:+ "." +:+ fileext.
Proof.
  intros Hext. apply split_singleton_iff in Hext.
  assert (Hstrip : strip_extension fileext (base +:+ "." +:+ fileext) = base).
  { unfold strip_extension.
    assert (Hcontains : contains fileext (base +:+ "." +:+ fileext) = true).
    { rewrite <- (append_assoc base "." fileext). apply contains_suffix. }
    rewrite Hcontains.
    change (base +:+ "." +:+ fileext) with (base +:+ String "." fileext).
    pose proof (join_split "." (base +:+ String "." fileext)) as Hjoin.
    pose proof (split_after_last_sep "." base fileext Hext) as Hlast.
    apply last_Some in Hlast as [pieces Hpieces].
    rewrite Hpieces in Hjoin |- *. rewrite removelast_last.
    unfold join in *. destruct pieces as [|y pieces].
    - exfalso. cbn in Hjoin.
      apply (f_equal String.length) in Hjoin.
      rewrite string_length_append in Hjoin. cbn in Hjoin. lia.
    - rewrite concat_snoc in Hjoin by discriminate.
      change (String.concat "." (y :: pieces) +:+ "." +:+ fileext)
        with (String.concat "." (y :: pieces) +:+ String "." fileext) in Hjoin.
      apply append_cancel_r in Hjoin. assumption. }
  split; [assumption | rewrite Hstrip; reflexivity].
Qed.

End StructuredMore.

Section MainManifest.
Import Py Split.

Variable w : World.

(** X13. A manifest without [-f]: unless the manifest exists, is
    [.json] and has an object with [input_file] at its root, [main]
    prints the help (also for a manifest that does not exist); and when
    that object has [input_file] but no [output_clips], the manifest is
    taken as a flat one and the missing file name raises [TypeError].
    No cut is issued in either case. *)
Theorem main_manifest_without_filename (o : Options) (m : string) :
  manifest o = Some m ->
  truthy m = true ->
  filename o = None ->
  ((path_exists w m = false
    \/ last (split "." m) <> Some "json"
    \/ (forall d, json_load w m = Some (PDict d) -> d !! "input_file" = None)) ->
   main w o = ([], Raise HelpExit))
  /\ (forall d,
        path_exists w m = true ->
        last (split "." m) = Some "json" ->
        json_load w m = Some (PDict d) ->
        is_Some (d !! "input_file") ->
        d !! "output_clips" = None ->
        main w o = ([], Raise TypeError)).
Proof.
  intros Hman Hm Hfile.
  assert (Htruthy : truthy (manifest o) = true) by (rewrite Hman; assumption).
  split.
  - intros Hcase. unfold main. rewrite Htruthy, Hman, Hfile.
    cbn [default from_option id].
    destruct Hcase as [Hmissing|[Htype|Hroot]].
    + rewrite Hmissing. reflexivity.
    + rewrite (bool_decide_eq_false_2 _ Htype), andb_false_r. reflexivity.
    + destruct (json_load w m) as [v|] eqn:Hload; [destruct v as [| | | | | |d]|];
        rewrite ?andb_false_r; try reflexivity.
      rewrite (Hroot d eq_refl).
      rewrite (bool_decide_eq_false_2 (is_Some None)) by (intros [x Hx]; discriminate).
      rewrite andb_false_r. reflexivity.
  - intros d Hexists Htype Hload Hinput Hclips.
    unfold main. rewrite Htruthy, Hman, Hfile. cbn [default from_option id].
    rewrite Hexists, (bool_decide_eq_true_2 _ Htype), Hload.
    rewrite (bool_decide_eq_true_2 _ Hinput). cbn [andb].
    unfold split_by_manifest. rewrite Hexists. cbn [negb].
    rewrite (last_item_Some _ _ Htype), bind_lift_Return.
    cbn [String.eqb Ascii.eqb Bool.eqb]. rewrite Hload, Hclips.
    rewrite (bool_decide_eq_false_2 (is_Some None)) by (intros [x Hx]; discriminate).
    rewrite andb_false_r. rewrite bind_mret. reflexivity.
Qed.

End MainManifest.

(** ** Further properties of the merge script *)

Section CompatibilityMore.
Import Py Merge.

Variable w : World.

Lemma get_video_info_file_path (file_path0 : string) (info : VideoInfo) :
  get_video_info w file_path0 = Some info -> file_path info = file_path0.
Proof.
  unfold get_video_info. destruct (ffprobe w file_path0) as [| |report]; try discriminate.
  destruct (find _ (streams report)); [|discriminate].
  intros [= <-]. reflexivity.
Qed.

Lemma probe_all_inr (video_files : list string) (infos : list VideoInfo) :
  probe_all w video_files = inr infos ->
  map (get_video_info w) video_files = map Some infos.
Proof.
  revert infos. induction video_files as [|f fs IH]; intros infos.
  - intros [= <-]. reflexivity.
  - cbn [probe_all map]. destruct (get_video_info w f) as [info|]; [|discriminate].
    destruct (probe_all w fs) as [reason|rest]; [discriminate|].
    intros [= <-]. cbn [map]. rewrite (IH rest eq_refl). reflexivity.
Qed.

Lemma first_mismatch_None_inv (reference : VideoInfo) (rest : list VideoInfo) :
  first_mismatch reference rest = None ->
  Forall (fun info => codec_name info = codec_name reference
                      /\ width info = width reference
                      /\ height info = height reference) rest.
Proof.
  induction rest as [|info rest IH]; [constructor|].
  cbn [first_mismatch].
  destruct (bool_decide (codec_name info ≠ codec_name reference)) eqn:Hc; [discriminate|].
  destruct (bool_decide (width info ≠ width reference)
            || bool_decide (height info ≠ height reference)) eqn:Hr; [discriminate|].
  intros Hrest. constructor; [|apply IH; assumption].
  apply bool_decide_eq_false_1 in Hc.
  apply orb_false_iff in Hr as [Hw Hh].
  apply bool_decide_eq_false_1 in Hw, Hh.
  repeat split; apply dec_stable; assumption.
Qed.

(** X14. The check passes only what can be concatenated: a list that
    passes holds, in input order, exactly one probed record per input
    file, and every record has the codec, the width and the height of
    the first. *)
Theorem check_videos_compatibility_passed (video_files : list string)
    (video_infos : list VideoInfo) :
  check_videos_compatibility w video_files = Passed video_infos ->
  map (get_video_info w) video_files = map Some video_infos
  /\ map file_path video_infos = video_files
  /\ exists reference rest,
       video_infos = reference :: rest
       /\ Forall (fun info => codec_name info = codec_name reference
                              /\ width info = width reference
                              /\ height info = height reference) rest.
Proof.
  unfold check_videos_compatibility.
  destruct video_files as [|f fs] eqn:Hfiles; [discriminate|]. rewrite <- Hfiles.
  destruct (probe_all w video_files) as [reason|infos] eqn:Hprobe; [discriminate|].
  destruct infos as [|reference rest]; [discriminate|].
  destruct (first_mismatch reference rest) as [reason|] eqn:Hmis; [discriminate|].
  intros [= <-].
  apply probe_all_inr in Hprobe.
  split; [assumption|]. split.
  - clear Hfiles Hmis. revert Hprobe. generalize (reference :: rest).
    induction video_files as [|g gs IH]; intros [|info infos] Hmap; try discriminate;
      [reflexivity|].
    cbn in Hmap. injection Hmap as Hinfo Hrest.
    cbn [map]. rewrite (get_video_info_file_path _ _ Hinfo), (IH infos Hrest).
    reflexivity.
  - exists reference, rest. split; [reflexivity|].
    apply first_mismatch_None_inv. assumption.
Qed.

Lemma probe_all_unprobed (before after : list string) (file_path0 : string) :
  Forall (fun f => is_Some (get_video_info w f)) before ->
  get_video_info w file_path0 = None ->
  probe_all w (before ++ file_path0 :: after)
  = inl ("Could not get information for " +:+ file_path0).
Proof.
  intros Hbefore Hnone. induction Hbefore as [|f before [info Hinfo] _ IH].
  - cbn [app probe_all]. rewrite Hnone. reflexivity.
  - cbn [app probe_all]. rewrite Hinfo, IH. reflexivity.
Qed.

(** X15. Every file is probed before anything is compared: the first
    file, in input order, that ffprobe cannot describe (or that has no
    video stream) is the one reported, whatever the files before it
    look like. *)
Theorem check_videos_compatibility_unprobed (before after : list string)
    (file_path0 : string) :
  Forall (fun f => is_Some (get_video_info w f)) before ->
  get_video_info w file_path0 = None ->
  check_videos_compatibility w (before ++ file_path0 :: after)
  = Failed ("Could not get information for " +:+ file_path0).
Proof.
  intros Hbefore Hnone. unfold check_videos_compatibility.
  rewrite (probe_all_unprobed before after file_path0 Hbefore Hnone).
  destruct before; reflexivity.
Qed.

Lemma first_mismatch_after_same (reference bad : VideoInfo)
    (before after : list VideoInfo) :
  Forall (fun info => codec_name info = codec_name reference
                      /\ width info = width reference
                      /\ height info = height reference) before ->
  first_mismatch reference (before ++ bad :: after)
  = first_mismatch reference (bad :: after).
Proof.
  induction 1 as [|info before (Hc & Hw & Hh) _ IH]; [reflexivity|].
  cbn [app first_mismatch].
  rewrite !bool_decide_eq_false_2 by (intros Hne; apply Hne; assumption).
  cbn [orb]. exact IH.
Qed.

(** X16. The codec is compared first: for the first asset that differs
    from the reference, another codec is reported as a codec mismatch
    with both names, also when the resolution differs too; the same
    codec with another height is reported as a resolution mismatch. *)
Theorem check_videos_compatibility_reason (video_files : list string)
    (reference bad : VideoInfo) (before after : list VideoInfo) :
  map (get_video_info w) video_files = map Some (reference :: before ++ bad :: after) ->
  Forall (fun info => codec_name info = codec_name reference
                      /\ width info = width reference
                      /\ height info = height reference) before ->
  (codec_name bad <> codec_name reference ->
   check_videos_compatibility w video_files
   = Failed ("Incompatible codec: " +:+ fmt_str (codec_name reference)
               +:+ " vs " +:+ fmt_str (codec_name bad)))
  /\ (codec_name bad = codec_name reference ->
      height bad <> height reference ->
      check_videos_compatibility w video_files
      = Failed ("Incompatible resolution: " +:+ fmt_int (width reference) +:+ "x"
                  +:+ fmt_int (height reference) +:+ " vs " +:+ fmt_int (width bad)
                  +:+ "x" +:+ fmt_int (height bad))).
Proof.
  intros Hprobed Hbefore.
  assert (Hcheck : check_videos_compatibility w video_files
                   = match first_mismatch reference (bad :: after) with
                     | Some reason => Failed reason
                     | None => Passed (reference :: before ++ bad :: after)
                     end).
  { unfold check_videos_compatibility.
    destruct video_files as [|f fs]; [discriminate|].
    rewrite (probe_all_probed w _ _ Hprobed).
    rewrite (first_mismatch_after_same reference bad before after Hbefore).
    reflexivity. }
  rewrite Hcheck. cbn [first_mismatch]. split.
  - intros Hcodec. rewrite (bool_decide_eq_true_2 _ Hcodec). reflexivity.
  - intros Hcodec Hheight.
    rewrite bool_decide_eq_false_2 by (intros Hne; apply Hne; assumption).
    rewrite (bool_decide_eq_true_2 (height bad ≠ height reference)) by assumption.
    rewrite orb_true_r. reflexivity.
Qed.

(** X17. [get_video_info] describes a file by its first video stream:
    streams of other types before it are skipped, later video streams
    are not read; and it gives nothing exactly when ffprobe fails, its
    report is not JSON, or the report has no video stream. *)
Theorem get_video_info_first_video_stream (file_path0 : string) :
  (forall info before stream after,
     ffprobe w file_path0 = ProbeJson info ->
     streams info = before ++ stream :: after ->
     Forall (fun s => codec_type s <> Some "video") before ->
     codec_type stream = Some "video" ->
     get_video_info w file_path0
     = Some {| codec_name := stream_codec_name stream;
               width := stream_width stream;
               height := stream_height stream;
               format_name := format_format_name info;
               file_path := file_path0 |})
  /\ (get_video_info w file_path0 = None
      <-> ffprobe w file_path0 = ProbeFailed
          \/ ffprobe w file_path0 = ProbeNotJson
          \/ exists info,
               ffprobe w file_path0 = ProbeJson info
               /\ Forall (fun s => codec_type s <> Some "video") (streams info)).
Proof.
  split.
  - intros info before stream after Hprobe Hstreams Hbefore Hvideo.
    unfold get_video_info. rewrite Hprobe, Hstreams.
    assert (Hfind : find (fun s => bool_decide (codec_type s = Some "video"))
                      (before ++ stream :: after) = Some stream).
    { clear Hstreams. induction Hbefore as [|s before Hs _ IH].
      - cbn [app find]. rewrite (bool_decide_eq_true_2 _ Hvideo). reflexivity.
      - cbn [app find]. rewrite (bool_decide_eq_false_2 _ Hs). exact IH. }
    rewrite Hfind. reflexivity.
  - unfold get_video_info.
    destruct (ffprobe w file_path0) as [| |info] eqn:Hprobe.
    + split; [auto | reflexivity].
    + split; [auto | reflexivity].
    + destruct (find _ (streams info)) as [stream|] eqn:Hfind.
      * split; [discriminate|].
        intros [?|[?|(info' & [= <-] & Hnone)]]; try discriminate.
        apply find_some in Hfind as [Hin Hvideo].
        apply bool_decide_eq_true_1 in Hvideo.
        rewrite List.Forall_forall in Hnone. destruct (Hnone stream Hin Hvideo).
      * split; [|reflexivity]. intros _. right. right. exists info.
        split; [reflexivity|]. apply List.Forall_forall. intros s Hin Hvideo.
        apply (find_none _ _ Hfind) in Hin.
        rewrite (bool_decide_eq_true_2 _ Hvideo) in Hin. discriminate.
Qed.

End CompatibilityMore.

Section ConcatList.
Import Py Merge.

Lemma escaped_quote_cons (s : string) :
  "'\''" +:+ s = String "'" (String "\" (String "'" (String "'" s))).
Proof. reflexivity. Qed.

(** Escaping can be undone: two paths with the same escaped form are
    the same path. *)
Lemma replace_quote_inj (a b : string) :
  replace "'" "'\''" a = replace "'" "'\''" b -> a = b.
Proof.
  revert b. induction a as [|c a IH]; intros [|c' b]; cbn [replace].
  - reflexivity.
  - destruct (Ascii.eqb c' "'"); [rewrite escaped_quote_cons|]; discriminate.
  - destruct (Ascii.eqb c "'"); [rewrite escaped_quote_cons|]; discriminate.
  - destruct (Ascii.eqb_spec c "'") as [->|Hc], (Ascii.eqb_spec c' "'") as [->|Hc'];
      rewrite ?escaped_quote_cons.
    + intros [= H]. f_equal. apply IH. assumption.
    + intros [= H _]. congruence.
    + intros [= H _]. congruence.
    + intros [= -> H]. f_equal. apply IH. assumption.
Qed.

Lemma replace_absent (c : ascii) (by_ s : string) :
  ~ In c (list_ascii_of_string s) -> replace c by_ s = s.
Proof.
  induction s as [|c' s IH]; [reflexivity|].
  cbn [list_ascii_of_string In replace]. intros Hnot.
  destruct (Ascii.eqb_spec c' c) as [->|_]; [tauto|].
  rewrite IH by tauto. reflexivity.
Qed.

Variable w : World.

(** X18. The line written for an asset: a path without a single quote
    is quoted as it is, and two assets get the same line only when
    their absolute paths are the same (the escaping of quotes loses
    nothing). *)
Theorem concat_line_faithful (a b : VideoInfo) :
  (~ In "'"%char (list_ascii_of_string (absolute w (file_path a))) ->
   concat_line w a = "file '" +:+ absolute w (file_path a) +:+ "'" +:+ newline)
  /\ (concat_line w a = concat_line w b ->
      absolute w (file_path a) = absolute w (file_path b)).
Proof.
  unfold concat_line. split.
  - intros Hnot. rewrite (replace_absent _ _ _ Hnot). reflexivity.
  - intros H. apply (String.app_inj "file '") in H.
    apply append_cancel_r in H. apply replace_quote_inj in H. assumption.
Qed.

Lemma merge_videos_list_absent (video_infos : list VideoInfo) (output_path : string)
    (fs : gmap string string) :
  video_infos <> [] ->
  (merge_videos w video_infos output_path fs).1.1 !! temp_file = None.
Proof.
  intros Hne. unfold merge_videos.
  destruct video_infos as [|first others]; [contradiction|].
  destruct (ffmpeg w _ _) as [[e|] fs']; cbn [fst snd].
  - destruct (bool_decide (is_Some (fs' !! temp_file))) eqn:Hthere; cbn [fst snd].
    + apply lookup_delete_eq.
    + apply bool_decide_eq_false_1 in Hthere. apply eq_None_not_Some. assumption.
  - destruct (fs' !! temp_file) eqn:Hthere; cbn [fst snd];
      [apply lookup_delete_eq | assumption].
Qed.

End ConcatList.

Section MergeMainProperties.
Import Py Merge MergeMain.

Variables (w : World) (sh : Shell).

(** X19. The files that [main] merges: the entries of the directory
    that are files and whose suffix, in lower case, is one of the
    listed extensions, each as often as the directory lists it, in
    ascending order of their paths. *)
Theorem scan_sorted_video_files (directory_path : string) :
  Sorted String.le (scan w sh directory_path)
  /\ scan w sh directory_path
     ≡ₚ List.filter
          (fun file_path =>
             is_file sh file_path
             && bool_decide (lower sh (suffix w file_path) ∈ video_extensions))
          (iterdir sh directory_path)
  /\ (forall file_path,
        In file_path (scan w sh directory_path)
        <-> In file_path (iterdir sh directory_path)
            /\ is_file sh file_path = true
            /\ lower sh (suffix w file_path) ∈ video_extensions).
Proof.
  unfold scan. split; [|split].
  - apply Sorted_merge_sort. apply _.
  - apply merge_sort_Permutation.
  - intros file_path. rewrite <- !list_elem_of_In.
    rewrite (merge_sort_Permutation String.le).
    rewrite !list_elem_of_In, filter_In, andb_true_iff, bool_decide_eq_true.
    rewrite list_elem_of_In. tauto.
Qed.

(** X20. [main] touches the files only after the check has passed:
    with no video file in the directory, and with files that are not
    compatible, it exits with status 1 and its message, nothing
    written and nothing run; once the check has passed, the concat
    list is gone when [main] ends, however the merge went. *)
Theorem merge_main_outcomes (fs : gmap string string) (prog arg : string)
    (more : list string) :
  argv sh = prog :: arg :: more ->
  is_dir sh (path_str w arg) = true ->
  let directory_path := path_str w arg in
  (scan w sh directory_path = [] ->
   main w sh fs = (fs, [], exit_1 ("No video files found in " +:+ directory_path)))
  /\ (forall reason,
        scan w sh directory_path <> [] ->
        check_videos_compatibility w (scan w sh directory_path) = Failed reason ->
        main w sh fs = (fs, [], exit_1 ("Error: " +:+ reason)))
  /\ (forall video_infos,
        check_videos_compatibility w (scan w sh directory_path) = Passed video_infos ->
        (main w sh fs).1.1 !! temp_file = None
        /\ (main w sh fs).1.2
           = (merge_videos w video_infos (joinpath sh directory_path "output") fs).1.2).
Proof.
  intros Hargv Hdir directory_path. subst directory_path.
  unfold main. rewrite Hargv. cbv zeta. rewrite Hdir. cbn [negb].
  split; [|split].
  - intros Hscan. rewrite Hscan. reflexivity.
  - intros reason Hscan Hcheck.
    destruct (scan w sh (path_str w arg)) as [|f files] eqn:Hfiles; [contradiction|].
    rewrite Hcheck. reflexivity.
  - intros video_infos Hcheck.
    pose proof (passed_nonempty w _ _ Hcheck) as Hne.
    pose proof (merge_videos_list_absent w video_infos
                  (joinpath sh (path_str w arg) "output") fs Hne) as Habsent.
    destruct (scan w sh (path_str w arg)) as [|f files] eqn:Hfiles; [discriminate|].
    rewrite Hcheck.
    destruct (merge_videos w video_infos (joinpath sh (path_str w arg) "output") fs)
      as [[fs' tr] [[[|] message]|e]]; cbn [fst snd] in *; split; auto.
Qed.

End MergeMainProperties.

(** ** The further properties on the sample environments *)

Section MoreExamples.
Import Py Samples MoreSamples.

Lemma split_by_seconds_stops_at_first_failure_witness :
  Split.split_by_seconds failing_world "dir/video.mp4" 10 None "copy" "copy" "" (Some 25)
  = ([ {| Split.cmd := ["ffmpeg"; "-i"; "/videos/dir/video.mp4"; "-vcodec"; "copy";
                        "-acodec"; "copy"];
          Split.ss := PInt 0; Split.t := PInt 10;
          Split.output_path := "dir/Clip-video/video-1-of-3.mp4" |};
       {| Split.cmd := ["ffmpeg"; "-i"; "/videos/dir/video.mp4"; "-vcodec"; "copy";
                        "-acodec"; "copy"];
          Split.ss := PInt 10; Split.t := PInt 10;
          Split.output_path := "dir/Clip-video/video-2-of-3.mp4" |} ],
     Raise CalledProcessError).
Proof.
  apply (split_by_seconds_stops_at_first_failure failing_world "dir/video.mp4" None
           "copy" "copy" "" 10 25 3 1 (Some 25) eq_refl);
    [lia | vm_compute; reflexivity | discriminate | lia | | reflexivity].
  intros n Hn. replace n with 0 by lia. reflexivity.
Defined.

Lemma basename_decomposition_witness :
  Py.basename "dir.v2/video.final.mp4" = "video.final" +:+ "." +:+ "mp4"
  /\ Py.basename "dir.v2/video" = "video".
Proof.
  split.
  - apply (proj1 (proj2 (basename_decomposition "dir.v2/video.final.mp4"))).
    vm_compute. tauto.
  - symmetry.
    apply (proj2 (proj2 (basename_decomposition "dir.v2/video"))).
    vm_compute. intros H. repeat (destruct H as [H|H]; [discriminate|]). exact H.
Defined.

Lemma main_by_count_at_most_count_witness :
  Split.resolve_split_length split_world by_count_11
  = Return (Split.set_split_length 3 by_count_11, Some 25)
  /\ (length (fst (Split.main split_world by_count_11)) <= 11)%nat.
Proof.
  pose proof (main_by_count_at_most_count split_world by_count_11 11 25 10000 None
                eq_refl eq_refl eq_refl eq_refl ltac:(vm_compute; split; reflexivity)
                eq_refl ltac:(vm_compute; split; reflexivity) eq_refl
                eq_refl eq_refl) as (Hres & _ & Hcuts).
  exact (conj Hres Hcuts).
Defined.

(** With [-c 11] on 25 seconds the pieces last 3 seconds and there are
    9 of them, not 11. *)
Example main_by_count_fewer_than_asked :
  length (fst (Split.main split_world by_count_11)) = 9%nat.
Proof. vm_compute. reflexivity. Qed.

Lemma main_target_size_on_empty_file_witness :
  Split.main empty_file_world by_size_even = ([], Raise ZeroDivisionError).
Proof.
  apply (main_target_size_on_empty_file empty_file_world by_size_even 25 2000);
    try reflexivity; [lia | left; reflexivity].
Defined.

Lemma split_by_manifest_refusals_witness :
  Split.split_by_manifest cuts_world (Some "in.mp4") "missing.json" None "copy" "copy" ""
  = ([], Raise (SystemExit ["File does not exist: missing.json"]))
  /\ Split.split_by_manifest cuts_world (Some "in.mp4") "cuts.yaml" None "copy" "copy" ""
     = ([], Raise (SystemExit ["Format not supported. File must be a csv or json file"])).
Proof.
  split.
  - apply (proj1 (split_by_manifest_refusals cuts_world (Some "in.mp4") "missing.json"
                    None "copy" "copy" "")). reflexivity.
  - apply (proj1 (proj2 (split_by_manifest_refusals cuts_world (Some "in.mp4")
                           "cuts.yaml" None "copy" "copy" "")) eq_refl "yaml" eq_refl);
      discriminate.
Defined.

Lemma flat_manifest_cuts_witness :
  Split.split_by_manifest cuts_world (Some "in.mp4") "cuts.csv" (Some "out") "copy"
    "copy" ""
  = ([ {| Split.cmd := ["ffmpeg"; "-i"; "/videos/in.mp4"; "-vcodec"; "copy"; "-acodec";
                        "copy"; "-y"];
          Split.ss := PStr "0"; Split.t := PStr "30";
          Split.output_path := "out/intro.mp4" |};
       {| Split.cmd := ["ffmpeg"; "-i"; "/videos/in.mp4"; "-vcodec"; "copy"; "-acodec";
                        "copy"; "-y"];
          Split.ss := PStr "30"; Split.t := PStr "60";
          Split.output_path := "out/main.mp4" |} ],
     Return tt).
Proof.
  apply (flat_manifest_cuts cuts_world "in.mp4" "cuts.csv" "csv" (Some "out") "copy" "copy"
           "" [row_intro; row_main]
           [(PStr "0", PStr "30", "intro.mp4"); (PStr "30", PStr "60", "main")] eq_refl
           eq_refl (or_intror (conj eq_refl eq_refl)));
    [|intros c; reflexivity].
  repeat (apply List.Forall2_cons; [repeat split|]). apply List.Forall2_nil.
Defined.

Lemma flat_manifest_stops_at_bad_entry_witness :
  Split.split_by_manifest cuts_world (Some "in.mp4") "broken.csv" (Some "out") "copy"
    "copy" ""
  = ([ {| Split.cmd := ["ffmpeg"; "-i"; "/videos/in.mp4"; "-vcodec"; "copy"; "-acodec";
                        "copy"; "-y"];
          Split.ss := PStr "0"; Split.t := PStr "30";
          Split.output_path := "out/intro.mp4" |} ],
     Raise (SystemExit (Split.incorrect_format "csv" "start_time"))).
Proof.
  apply (flat_manifest_stops_at_bad_entry cuts_world "in.mp4" "broken.csv" "csv"
           (Some "out") "copy" "copy" "" [row_intro] [(PStr "0", PStr "30", "intro.mp4")]
           (PDict row_without_start) [PDict row_main]
           (SystemExit (Split.incorrect_format "csv" "start_time")) eq_refl eq_refl
           (or_intror (conj eq_refl eq_refl)));
    [|intros c; reflexivity|reflexivity].
  repeat (apply List.Forall2_cons; [repeat split|]). apply List.Forall2_nil.
Defined.

Lemma split_entry_malformed_witness :
  Split.split_entry cuts_world "csv" "mp4" None [] (PDict row_without_start)
  = ([], Raise (SystemExit (Split.incorrect_format "csv" "start_time")))
  /\ Split.split_entry cuts_world "csv" "mp4" None [] (PDict row_without_name)
     = ([], Raise (SystemExit (Split.incorrect_format "csv" "rename_to")))
  /\ Split.split_entry cuts_world "json" "mp4" None [] (PStr "start_time")
     = ([], Raise TypeError).
Proof.
  pose proof (split_entry_malformed cuts_world) as H.
  split; [|split].
  - apply (proj1 (H "csv" "mp4" None [])). reflexivity.
  - apply (proj1 (proj2 (H "csv" "mp4" None [])) row_without_name (PStr "5"));
      [eexists | | ]; reflexivity.
  - apply (proj2 (proj2 (H "json" "mp4" None []))). discriminate.
Defined.

Lemma structured_manifest_incomplete_clip_witness :
  Split.split_by_manifest cuts_world None "incomplete.json" None "copy" "copy" ""
  = ([], Raise (KeyError "length")).
Proof.
  apply (structured_manifest_incomplete_clip cuts_world None "incomplete.json" None "copy"
           "copy" "" manifest_with_incomplete_clip "in.mp4" "length"
           [ <["start_time" := PInt 0]> (<["length" := PInt 5]> ∅) ]
           (<["start_time" := PInt 5]> ∅)
           [PDict (<["start_time" := PInt 9]> (<["length" := PInt 1]> ∅))]);
    try reflexivity.
  - apply List.Forall_cons; [split; eexists; reflexivity | apply List.Forall_nil].
  - right. split; [reflexivity|]. split; [eexists|]; reflexivity.
Defined.

Lemma strip_extension_of_suffix_witness :
  Split.strip_extension "mp4" "draft.mp4.v2.mp4" = "draft.mp4.v2".
Proof.
  apply (proj1 (strip_extension_of_suffix "mp4" "draft.mp4.v2"
                  ltac:(vm_compute; intros H;
                        repeat (destruct H as [H|H]; [discriminate|]); exact H))).
Defined.

Lemma main_manifest_without_filename_witness :
  Split.main cuts_world (manifest_only "missing.json") = ([], Raise HelpExit)
  /\ Split.main cuts_world (manifest_only "input_only.json") = ([], Raise TypeError).
Proof.
  split.
  - apply (proj1 (main_manifest_without_filename cuts_world
                    (manifest_only "missing.json") "missing.json" eq_refl eq_refl
                    eq_refl)).
    left. reflexivity.
  - apply (proj2 (main_manifest_without_filename cuts_world
                    (manifest_only "input_only.json") "input_only.json" eq_refl eq_refl
                    eq_refl) manifest_with_input_only);
      try reflexivity. eexists. reflexivity.
Defined.

Lemma check_videos_compatibility_passed_witness :
  map Merge.file_path [probed "a.mp4" 1920; probed "c.mp4" 1920] = ["a.mp4"; "c.mp4"].
Proof.
  apply (check_videos_compatibility_passed merge_world ["a.mp4"; "c.mp4"]
           [probed "a.mp4" 1920; probed "c.mp4" 1920] eq_refl).
Defined.

Lemma check_videos_compatibility_unprobed_witness :
  Merge.check_videos_compatibility library_world
    (["/clips/a.mp4"; "/clips/e.mkv"] ++ "/clips/audio.mp4" :: ["/clips/c.mp4"])
  = Merge.Failed "Could not get information for /clips/audio.mp4".
Proof.
  apply (check_videos_compatibility_unprobed library_world
           ["/clips/a.mp4"; "/clips/e.mkv"] ["/clips/c.mp4"] "/clips/audio.mp4");
    [|reflexivity].
  repeat (apply List.Forall_cons; [eexists; reflexivity|]). apply List.Forall_nil.
Defined.

Lemma check_videos_compatibility_reason_witness :
  Merge.check_videos_compatibility library_world
    ["/clips/a.mp4"; "/clips/c.mp4"; "/clips/e.mkv"]
  = Merge.Failed "Incompatible codec: h264 vs hevc".
Proof.
  apply (proj1 (check_videos_compatibility_reason library_world
                  ["/clips/a.mp4"; "/clips/c.mp4"; "/clips/e.mkv"]
                  (probed "/clips/a.mp4" 1920)
                  {| Merge.codec_name := Some "hevc"; Merge.width := Some 1280;
                     Merge.height := Some 720;
                     Merge.format_name := Some "matroska,webm";
                     Merge.file_path := "/clips/e.mkv" |}
                  [probed "/clips/c.mp4" 1920] [] eq_refl
                  ltac:(apply List.Forall_cons;
                        [repeat split | apply List.Forall_nil]))).
  discriminate.
Defined.

Lemma get_video_info_first_video_stream_witness :
  Merge.get_video_info merge_world "a.mp4" = Some (probed "a.mp4" 1920)
  /\ Merge.get_video_info library_world "/clips/audio.mp4" = None.
Proof.
  split.
  - apply (proj1 (get_video_info_first_video_stream merge_world "a.mp4")
             (report_for "a.mp4")
             [ {| Merge.codec_type := Some "audio"; Merge.stream_codec_name := Some "aac";
                  Merge.stream_width := None; Merge.stream_height := None |} ]
             {| Merge.codec_type := Some "video"; Merge.stream_codec_name := Some "h264";
                Merge.stream_width := Some 1920; Merge.stream_height := Some 1080 |}
             [] eq_refl eq_refl);
      [|reflexivity].
    apply List.Forall_cons; [discriminate | apply List.Forall_nil].
  - apply (proj2 (get_video_info_first_video_stream library_world "/clips/audio.mp4")).
    right. right. eexists. split; [reflexivity|].
    apply List.Forall_cons; [discriminate | apply List.Forall_nil].
Defined.

Lemma concat_line_faithful_witness :
  Merge.concat_line merge_world (probed "a.mp4" 1920)
  = "file '/clips/a.mp4'" +:+ Merge.newline.
Proof.
  apply (proj1 (concat_line_faithful merge_world (probed "a.mp4" 1920)
                  (probed "a.mp4" 1920))).
  vm_compute. intros H. repeat (destruct H as [H|H]; [discriminate|]). exact H.
Defined.

(** The scan of [/clips]: the text file is left out, the videos are in
    order. *)
Example scan_library :
  MergeMain.scan library_world library_shell "/clips" = ["/clips/a.mp4"; "/clips/c.mp4"].
Proof. vm_compute. reflexivity. Qed.

Lemma merge_main_outcomes_witness :
  (MergeMain.main library_world library_shell ∅).1.1 !! Merge.temp_file = None
  /\ MergeMain.main library_world library_shell ∅
     = (∅,
        [Merge.Wrote "concat_list.txt"
           ("file '/clips/a.mp4'" +:+ Merge.newline +:+ "file '/clips/c.mp4'"
              +:+ Merge.newline);
         Merge.Ran ["ffmpeg"; "-f"; "concat"; "-safe"; "0"; "-i"; "concat_list.txt";
                    "-c"; "copy"; "-y"; "/clips/output.mp4"];
         Merge.Removed "concat_list.txt"],
        Return "Successfully merged videos to /clips/output.mp4").
Proof.
  split.
  - apply (proj2 (proj2 (merge_main_outcomes library_world library_shell ∅
                           "ffmpeg-merge.py" "/clips" [] eq_refl eq_refl))
             [probed "/clips/a.mp4" 1920; probed "/clips/c.mp4" 1920]).
    vm_compute. reflexivity.
  - vm_compute. reflexivity.
Defined.

End MoreExamples.
